(** * Titanic data analysis: a shallow embedding of [main.py]

    The script is a thin layer over pandas: every statistic is one or two
    library calls on a [DataFrame].  The embedding therefore has two layers.

    - [Module np] and [Module pd] give the fragment of numpy scalars and of
      pandas (2.x, default options) that [main.py] calls: typed columns
      ([int64], [float64], [object]), label-indexed result series,
      [len], [__getitem__], [sum], [value_counts], [groupby(..)[..].mean()],
      [nunique], [idxmax], [drop].
    - The functions of [main.py] keep their names and are written in a small
      state-and-exception monad: the state is the object the argument
      refers to (a [DataFrame] is mutable in Python), an exception ends the
      computation unless a [try_except] catches it.

    Numbers.  A binary64 value is modelled as an exact rational, [NaN] or an
    infinity; every arithmetic result is stored in lowest terms ([Qred]) so
    that equal values are equal terms.  Rounding is not modelled.  An [int64]
    value is an integer of [Z]; the sum of an [int64] column and a product
    wrap around at 64 bits ([np.wrap64]).  A count of rows is at most the
    length of the row index, which is itself an [int64]. *)

From Stdlib Require Import List ZArith QArith Qreduction String Ascii Bool Lia.
From Stdlib Require Import Permutation Sorted.
Import ListNotations.

Local Open Scope string_scope.
Local Open Scope Z_scope.

(** ** Labels and exceptions *)

(** An index label (a grouping key, a category): pandas keeps the dtype of
    the column it comes from. *)
Inductive label : Type :=
| LInt (z : Z)
| LFloat (q : Q)
| LStr (s : string).

(** The Python exceptions the script can meet. *)
Inductive exc : Type :=
| KeyError (k : label)
| TypeError
| ZeroDivisionError
| IndexError
| ValueError
| FileNotFoundError
| EmptyDataError
| ParserError
| OtherException (msg : string).

(** ** The monad: mutable state of type [S], exceptions *)

Inductive outcome (A : Type) : Type :=
| Return (a : A)
| Raise (e : exc).
Arguments Return {A} a.
Arguments Raise {A} e.

Definition M (S A : Type) : Type := S -> outcome A * S.

Definition ret {S A} (a : A) : M S A := fun s => (Return a, s).

Definition raise {S A} (e : exc) : M S A := fun s => (Raise e, s).

Definition bind {S A B} (c : M S A) (k : A -> M S B) : M S B :=
  fun s => match c s with
           | (Return a, s') => k a s'
           | (Raise e, s') => (Raise e, s')
           end.

(** [try: c except: h]; [h] sees every exception ([except Exception]). *)
Definition try_except {S A} (c : M S A) (h : exc -> M S A) : M S A :=
  fun s => match c s with
           | (Return a, s') => (Return a, s')
           | (Raise e, s') => h e s'
           end.

(** Reading the state, and lifting a pure library call that may raise. *)
Definition get_state {S} : M S S := fun s => (Return s, s).

Definition lift {S A} (r : outcome A) : M S A := fun s => (r, s).

Declare Scope monad_scope.
Delimit Scope monad_scope with monad.
Notation "x <- c ;; k" := (bind c (fun x => k))
  (at level 61, c at next level, right associativity) : monad_scope.
Notation "c ;;; k" := (bind c (fun _ => k))
  (at level 61, right associativity) : monad_scope.
Local Open Scope monad_scope.

(** The pure bind, for library calls that only compute. *)
Definition obind {A B} (r : outcome A) (k : A -> outcome B) : outcome B :=
  match r with
  | Return a => k a
  | Raise e => Raise e
  end.

(** ** numpy and Python scalars *)

Module np.

(** A binary64 value. *)
Inductive float64 : Type :=
| Fin (q : Q)
| NaN
| Inf (negative : bool).

(** Scalars as the script sees them.  The distinction between a Python
    number and a numpy scalar matters at [/]: Python raises on a zero
    divisor, numpy returns [nan] or [inf]. *)
Inductive scalar : Type :=
| PyInt (z : Z)
| PyFloat (x : float64)
| PyStr (s : string)
| Int64 (z : Z)
| Float64 (x : float64).

Definition fin (q : Q) : float64 := Fin (Qred q).

(** Two's complement wrap-around of [int64] arithmetic. *)
Definition wrap64 (z : Z) : Z := (z + 2 ^ 63) mod 2 ^ 64 - 2 ^ 63.

Definition of_int (z : Z) : Q := inject_Z z.

(** [x / n] on binary64 with an integer divisor, numpy rules. *)
Definition fdiv (x : float64) (n : Z) : float64 :=
  match x with
  | NaN => NaN
  | Inf neg => Inf (if n <? 0 then negb neg else neg)
  | Fin q =>
      if n =? 0 then
        match Qcompare q 0 with
        | Eq => NaN
        | Gt => Inf false
        | Lt => Inf true
        end
      else fin (q / of_int n)
  end.

(** [x * k] on binary64 with an integer factor. *)
Definition fmul (x : float64) (k : Z) : float64 :=
  match x with
  | NaN => NaN
  | Inf neg =>
      if k =? 0 then NaN else Inf (if k <? 0 then negb neg else neg)
  | Fin q => fin (q * of_int k)
  end.

(** [x + y] on binary64. *)
Definition fadd (x y : float64) : float64 :=
  match x, y with
  | Fin a, Fin b => fin (a + b)
  | NaN, _ => NaN
  | _, NaN => NaN
  | Inf a, Inf b => if Bool.eqb a b then Inf a else NaN
  | Inf a, Fin _ => Inf a
  | Fin _, Inf b => Inf b
  end.

Fixpoint repeat_string (n : nat) (s : string) : string :=
  match n with
  | O => EmptyString
  | S n' => s ++ repeat_string n' s
  end.

(** [x / n] where [n] is a Python [int] (here: the result of [len]). *)
Definition true_divide (x : scalar) (n : Z) : outcome scalar :=
  match x with
  | PyInt z =>
      if n =? 0 then Raise ZeroDivisionError
      else Return (PyFloat (fin (of_int z / of_int n)))
  | PyFloat f =>
      if n =? 0 then Raise ZeroDivisionError
      else Return (PyFloat (fdiv f n))
  | PyStr _ => Raise TypeError
  | Int64 z => Return (Float64 (fdiv (Fin (of_int z)) n))
  | Float64 f => Return (Float64 (fdiv f n))
  end.

(** [x * k] where [k] is a Python [int] literal. *)
Definition multiply (x : scalar) (k : Z) : scalar :=
  match x with
  | PyInt z => PyInt (z * k)
  | PyFloat f => PyFloat (fmul f k)
  | PyStr s => PyStr (repeat_string (Z.to_nat k) s)
  | Int64 z => Int64 (wrap64 (z * k))
  | Float64 f => Float64 (fmul f k)
  end.

(** Python [+] on the objects an [object] column can hold after its
    missing entries were replaced by the integer 0. *)
Definition py_add (a b : scalar) : outcome scalar :=
  match a, b with
  | PyInt x, PyInt y => Return (PyInt (x + y))
  | PyStr x, PyStr y => Return (PyStr (x ++ y))
  | _, _ => Raise TypeError
  end.

End np.

(** ** The pandas fragment *)

Module pd.

Inductive dtype : Type := int64 | float64 | object.

(** A column of a [DataFrame]: its dtype and its values.  [None] is a
    missing value ([NaN]); an [int64] column has none. *)
Inductive Series : Type :=
| ColInt64 (l : list Z)
| ColFloat64 (l : list (option Q))
| ColObject (l : list (option string)).

(** A table: the length of its row index (a [RangeIndex]) and its named
    columns, in file order. *)
Record DataFrame : Type := mkDataFrame {
  nrows : nat;
  columns : list (string * Series)
}.

Definition dtype_of (c : Series) : dtype :=
  match c with
  | ColInt64 _ => int64
  | ColFloat64 _ => float64
  | ColObject _ => object
  end.

Definition size (c : Series) : nat :=
  match c with
  | ColInt64 l => List.length l
  | ColFloat64 l => List.length l
  | ColObject l => List.length l
  end.

(** The length of the row index is an [int64] and every column is as long
    as the row index. *)
Definition wf (df : DataFrame) : Prop :=
  Z.of_nat (nrows df) < 2 ^ 63
  /\ Forall (fun nc => size (snd nc) = nrows df) (columns df).

(** [len(df)] *)
Definition len (df : DataFrame) : Z := Z.of_nat (nrows df).

(** The column of that name; [read_csv] makes the names of a table
    distinct. *)
Definition column (df : DataFrame) (name : string) : option Series :=
  option_map snd (find (fun nc => String.eqb (fst nc) name) (columns df)).

(** [df[name]] *)
Definition getitem (df : DataFrame) (name : string) : outcome Series :=
  match column df name with
  | Some c => Return c
  | None => Raise (KeyError (LStr name))
  end.

(** *** Labels *)

Definition label_eqb (a b : label) : bool :=
  match a, b with
  | LInt x, LInt y => Z.eqb x y
  | LFloat x, LFloat y => Z.eqb (Qnum x) (Qnum y) && Pos.eqb (Qden x) (Qden y)
  | LStr x, LStr y => String.eqb x y
  | _, _ => false
  end.

Definition cell_eqb (a b : option label) : bool :=
  match a, b with
  | Some x, Some y => label_eqb x y
  | None, None => true
  | _, _ => false
  end.

(** Sorting order of labels; within one index all labels have one dtype. *)
Definition label_compare (a b : label) : comparison :=
  match a, b with
  | LInt x, LInt y => Z.compare x y
  | LFloat x, LFloat y => Qcompare x y
  | LStr x, LStr y => String.compare x y
  | LInt _, _ => Lt
  | _, LInt _ => Gt
  | LFloat _, _ => Lt
  | _, LFloat _ => Gt
  end.

Definition label_leb (a b : label) : bool :=
  match label_compare a b with
  | Gt => false
  | _ => true
  end.

(** The values of a column as labels; floats in lowest terms. *)
Definition keys (c : Series) : list (option label) :=
  match c with
  | ColInt64 l => map (fun z => Some (LInt z)) l
  | ColFloat64 l => map (option_map (fun q => LFloat (Qred q))) l
  | ColObject l => map (option_map LStr) l
  end.

(** The values of a column as numbers, for a mean: a string is not a
    number, which shows when the mean of its group is computed. *)
Definition numbers (c : Series) : list (outcome (option Q)) :=
  match c with
  | ColInt64 l => map (fun z => Return (Some (np.of_int z))) l
  | ColFloat64 l => map (fun x => Return x) l
  | ColObject l =>
      map (fun x => match x with
                    | Some _ => Raise TypeError
                    | None => Return None
                    end) l
  end.

(** The results of a list of computations, or the first exception. *)
Fixpoint sequence {A} (l : list (outcome A)) : outcome (list A) :=
  match l with
  | [] => Return []
  | x :: l' =>
      obind x (fun a => obind (sequence l') (fun rest => Return (a :: rest)))
  end.

(** [dropna] *)
Fixpoint dropna {A} (l : list (option A)) : list A :=
  match l with
  | [] => []
  | Some a :: l' => a :: dropna l'
  | None :: l' => dropna l'
  end.

(** [unique]: the distinct values in order of first occurrence. *)
Fixpoint unique {A} (eqb : A -> A -> bool) (l : list A) : list A :=
  match l with
  | [] => []
  | x :: l' => x :: filter (fun y => negb (eqb x y)) (unique eqb l')
  end.

(** The number of rows holding [k]: a count of rows, at most the length of
    the row index. *)
Definition count_label (k : label) (l : list label) : Z :=
  Z.of_nat (List.length (filter (label_eqb k) l)).

(** *** Reductions of a column *)

Definition Zsum (l : list Z) : Z := fold_right Z.add 0 l.

Definition Qsum (l : list Q) : Q := fold_right Qplus 0%Q l.

(** Sum of an [object] column: missing entries become the integer 0 and
    the objects are added with Python's [+], starting from the first. *)
Definition object_cell (c : option string) : np.scalar :=
  match c with
  | Some s => np.PyStr s
  | None => np.PyInt 0
  end.

Fixpoint py_sum_from (acc : np.scalar) (l : list np.scalar) : outcome np.scalar :=
  match l with
  | [] => Return acc
  | x :: l' => obind (np.py_add acc x) (fun acc' => py_sum_from acc' l')
  end.

(** [Series.sum()], [skipna=True] *)
Definition sum (c : Series) : outcome np.scalar :=
  match c with
  | ColInt64 l => Return (np.Int64 (np.wrap64 (Zsum l)))
  | ColFloat64 l => Return (np.Float64 (np.fin (Qsum (dropna l))))
  | ColObject l =>
      match map object_cell l with
      | [] => Return (np.PyInt 0)
      | x :: l' => py_sum_from x l'
      end
  end.

Definition Qpositive (q : Q) : bool :=
  match Qcompare 0 q with
  | Lt => true
  | _ => false
  end.

(** [(Series > 0).sum()]: a missing value compares false, a string
    cannot be compared with an integer. *)
Definition count_positive (c : Series) : outcome np.scalar :=
  match c with
  | ColInt64 l =>
      Return (np.Int64 (Z.of_nat (List.length (filter (fun z => 0 <? z) l))))
  | ColFloat64 l =>
      Return (np.Int64 (Z.of_nat (List.length (filter Qpositive (dropna l)))))
  | ColObject l =>
      match dropna l with
      | [] => Return (np.Int64 0)
      | _ :: _ => Raise TypeError
      end
  end.

(** [Series.nunique()], [dropna=True]: the distinct values are collected
    first (a missing value is one of them), then the missing one is
    removed. *)
Definition nunique (c : Series) : Z :=
  Z.of_nat (List.length (dropna (unique cell_eqb (keys c)))).

(** *** Label-indexed results *)

(** The result of an aggregation: the dtype of its index and its entries
    in index order. *)
Record Indexed (V : Type) : Type := mkIndexed {
  index_dtype : dtype;
  items : list (label * V)
}.
Arguments mkIndexed {V} index_dtype items.
Arguments index_dtype {V} i.
Arguments items {V} i.

Definition index {V} (s : Indexed V) : list label := map fst (items s).

Definition lookup {V} (k : label) (s : Indexed V) : option V :=
  option_map snd (find (fun kv => label_eqb (fst kv) k) (items s)).

(** [s[key]] with a string key: always by label. *)
Definition getitem_str {V} (s : Indexed V) (key : string) : outcome V :=
  match lookup (LStr key) s with
  | Some v => Return v
  | None => Raise (KeyError (LStr key))
  end.

(** [s[key]] with an integer key: by label on a numeric index (an integer
    finds the float label of the same value), by position on an [object]
    index, where Python counts a negative position from the end. *)
Definition getitem_int {V} (s : Indexed V) (key : Z) : outcome V :=
  match index_dtype s with
  | int64 =>
      match lookup (LInt key) s with
      | Some v => Return v
      | None => Raise (KeyError (LInt key))
      end
  | float64 =>
      match lookup (LFloat (inject_Z key)) s with
      | Some v => Return v
      | None => Raise (KeyError (LInt key))
      end
  | object =>
      let n := Z.of_nat (List.length (items s)) in
      let pos := if key <? 0 then key + n else key in
      if (0 <=? pos) && (pos <? n) then
        match nth_error (items s) (Z.to_nat pos) with
        | Some kv => Return (snd kv)
        | None => Raise IndexError
        end
      else Raise IndexError
  end.

Definition map_values {V W} (f : V -> W) (s : Indexed V) : Indexed W :=
  mkIndexed (index_dtype s) (map (fun kv => (fst kv, f (snd kv))) (items s)).

(** *** value_counts *)

(** Stable insertion sort of counted labels, largest count first.  The
    order pandas gives to equal counts is not specified; nothing below
    depends on it. *)
Fixpoint insert_by_count (e : label * Z) (l : list (label * Z)) : list (label * Z) :=
  match l with
  | [] => [e]
  | y :: l' => if snd y <=? snd e then e :: l else y :: insert_by_count e l'
  end.

Fixpoint sort_by_count (l : list (label * Z)) : list (label * Z) :=
  match l with
  | [] => []
  | e :: l' => insert_by_count e (sort_by_count l')
  end.

(** [Series.value_counts()], [dropna=True], [sort=True]: one entry per
    distinct present value, with the number of rows holding it. *)
Definition value_counts (c : Series) : Indexed Z :=
  let present := dropna (keys c) in
  mkIndexed (dtype_of c)
    (sort_by_count
       (map (fun k => (k, count_label k present)) (unique label_eqb present))).

(** [Series.value_counts(normalize=True)]: the counts divided by their
    sum. *)
Definition value_counts_normalize (c : Series) : Indexed np.float64 :=
  let counts := value_counts c in
  let total := Zsum (map snd (items counts)) in
  map_values (fun n => np.fdiv (np.Fin (np.of_int n)) total) counts.

(** *** groupby *)

Fixpoint insert_label (k : label) (l : list label) : list label :=
  match l with
  | [] => [k]
  | y :: l' => if label_leb k y then k :: l else y :: insert_label k l'
  end.

Fixpoint sort_labels (l : list label) : list label :=
  match l with
  | [] => []
  | k :: l' => insert_label k (sort_labels l')
  end.

(** The group keys: distinct present values, ascending ([sort=True],
    [dropna=True]). *)
Definition group_keys (by_ : Series) : list label :=
  sort_labels (unique label_eqb (dropna (keys by_))).

(** The values of the rows whose key is [k]. *)
Fixpoint select {A} (k : label) (rows : list (option label * A)) : list A :=
  match rows with
  | [] => []
  | (Some k', v) :: rows' =>
      if label_eqb k' k then v :: select k rows' else select k rows'
  | (None, _) :: rows' => select k rows'
  end.

(** Mean of the present values; [NaN] when there is none. *)
Definition mean (l : list (option Q)) : np.float64 :=
  match dropna l with
  | [] => np.NaN
  | x :: l' =>
      np.fin (Qsum (x :: l') / np.of_int (Z.of_nat (List.length (x :: l'))))
  end.

(** The mean of the group of [k]. *)
Definition group_mean (k : label)
    (rows : list (option label * outcome (option Q))) : outcome np.float64 :=
  obind (sequence (select k rows)) (fun values => Return (mean values)).

(** [df.groupby(by_)[val].mean()] on the two columns: one entry per group
    key, in key order. *)
Definition groupby_mean (by_ val : Series) : outcome (Indexed np.float64) :=
  let rows := combine (keys by_) (numbers val) in
  obind
    (sequence
       (map (fun k => obind (group_mean k rows) (fun m => Return (k, m)))
            (group_keys by_)))
    (fun entries => Return (mkIndexed (dtype_of by_) entries)).

(** *** idxmax *)

(** Strict order of binary64 values other than [NaN]. *)
Definition float_ltb (x y : np.float64) : bool :=
  match x, y with
  | np.Fin a, np.Fin b =>
      match Qcompare a b with Lt => true | _ => false end
  | np.Inf true, np.Fin _ => true
  | np.Inf true, np.Inf false => true
  | np.Fin _, np.Inf false => true
  | _, _ => false
  end.

Definition is_nan (x : np.float64) : bool :=
  match x with
  | np.NaN => true
  | _ => false
  end.

(** The first entry holding the largest value other than [NaN]. *)
Fixpoint argmax (best : option (label * np.float64))
    (l : list (label * np.float64)) : option (label * np.float64) :=
  match l with
  | [] => best
  | (k, v) :: l' =>
      if is_nan v then argmax best l'
      else
        match best with
        | None => argmax (Some (k, v)) l'
        | Some (_, b) =>
            if float_ltb b v then argmax (Some (k, v)) l' else argmax best l'
        end
  end.

(** [Series.idxmax()], [skipna=True]: [ValueError] on an empty series,
    [nan] (here [None]) when every value is missing. *)
Definition idxmax (s : Indexed np.float64) : outcome (option label) :=
  match items s with
  | [] => Raise ValueError
  | _ :: _ => Return (option_map fst (argmax None (items s)))
  end.

(** *** drop *)

Definition has_column (df : DataFrame) (name : string) : bool :=
  existsb (fun nc => String.eqb (fst nc) name) (columns df).

(** [df.drop(columns=labels)]: a new table without the named columns;
    [KeyError] for a label that names no column. *)
Definition drop (df : DataFrame) (labels : list string) : outcome DataFrame :=
  match find (fun n => negb (has_column df n)) labels with
  | Some n => Raise (KeyError (LStr n))
  | None =>
      Return (mkDataFrame (nrows df)
                (filter (fun nc => negb (existsb (String.eqb (fst nc)) labels))
                        (columns df)))
  end.

End pd.

(** ** Console and display *)

(** A piece of an f-string: literal text, written with the escapes of the
    source, or a formatted value.  The digits that [:.2f] renders are not
    modelled, the value that is rendered is. *)
Inductive piece : Type :=
| Text (s : string)
| Fixed2 (x : np.scalar)
| Plain (x : np.scalar)
| PlainLabel (k : option label)
| PlainExc (e : exc).

(** What one [plt.show()] displays: the data handed to the histogram and
    to the box plot. *)
Record figure : Type := mkFigure {
  hist_data : pd.Series;
  box_x : pd.Series;
  box_y : pd.Series
}.

(** The observable effects of a run: the printed lines and the figures
    shown, oldest first. *)
Record console : Type := mkConsole {
  stdout : list (list piece);
  shown : list figure
}.

Definition print {S} (l : list piece) : M (S * console) unit :=
  fun st => (Return tt,
             (fst st, mkConsole (stdout (snd st) ++ [l]) (shown (snd st)))).

Definition show {S} (f : figure) : M (S * console) unit :=
  fun st => (Return tt,
             (fst st, mkConsole (stdout (snd st)) (shown (snd st) ++ [f]))).

(** A call that works on the first component of the state. *)
Definition call {S W A} (c : M S A) : M (S * W) A :=
  fun st => let (r, s') := c (fst st) in (r, (s', snd st)).

(** ** The functions of main.py *)

(** ['Unnamed' in col] *)
Fixpoint contains (sub s : string) : bool :=
  prefix sub s ||
  match s with
  | EmptyString => false
  | String _ s' => contains sub s'
  end.

(** Each statistics function takes the table as its argument
    [titanic_df]; here the table that argument refers to is the state of
    the computation, so that a function that changed it would show. *)
Definition df_len : M pd.DataFrame Z :=
  df <- get_state ;; ret (pd.len df).

Definition df_getitem (name : string) : M pd.DataFrame pd.Series :=
  df <- get_state ;; lift (pd.getitem df name).

(** [titanic_df.groupby(..)[val]]: selecting a column of the groups; a
    name that is no column is reported in the words of the selection. *)
Definition df_groupby_getitem (val : string) : M pd.DataFrame pd.Series :=
  df <- get_state ;;
  match pd.column df val with
  | Some value_column => ret value_column
  | None => raise (KeyError (LStr ("Column not found: " ++ val)))
  end.

(** [titanic_df.groupby(by_)[val].mean()]: the key column is looked up
    first, then the value column. *)
Definition df_groupby_mean (by_ val : string) : M pd.DataFrame (pd.Indexed np.float64) :=
  key_column <- df_getitem by_ ;;
  value_column <- df_groupby_getitem val ;;
  lift (pd.groupby_mean key_column value_column).

Definition percent (s : pd.Indexed np.float64) : pd.Indexed np.float64 :=
  pd.map_values (fun x => np.fmul x 100) s.

Definition calculate_survival_rate : M pd.DataFrame np.scalar :=
  total_passengers <- df_len ;;
  survived <- df_getitem "Survived" ;;
  survived_passengers <- lift (pd.sum survived) ;;
  ratio <- lift (np.true_divide survived_passengers total_passengers) ;;
  ret (np.multiply ratio 100).

Definition calculate_gender_proportion : M pd.DataFrame (pd.Indexed np.float64) :=
  sex <- df_getitem "Sex" ;;
  ret (percent (pd.value_counts_normalize sex)).

Definition calculate_class_survival_rate : M pd.DataFrame (pd.Indexed np.float64) :=
  rates <- df_groupby_mean "Pclass" "Survived" ;;
  ret (percent rates).

Definition count_siblings_spouses_aboard : M pd.DataFrame np.scalar :=
  sibsp <- df_getitem "SibSp" ;;
  lift (pd.count_positive sibsp).

Definition calculate_average_fare_by_class : M pd.DataFrame (pd.Indexed np.float64) :=
  df_groupby_mean "Pclass" "Fare".

Definition count_passengers_by_port : M pd.DataFrame (pd.Indexed Z) :=
  embarked <- df_getitem "Embarked" ;;
  ret (pd.value_counts embarked).

Definition calculate_gender_survival_rate : M pd.DataFrame (pd.Indexed np.float64) :=
  rates <- df_groupby_mean "Sex" "Survived" ;;
  ret (percent rates).

Definition count_unique_tickets : M pd.DataFrame np.scalar :=
  ticket <- df_getitem "Ticket" ;;
  ret (np.PyInt (pd.nunique ticket)).

(** [Series.dropna()] on a column *)
Definition dropna_column (c : pd.Series) : pd.Series :=
  match c with
  | pd.ColInt64 l => pd.ColInt64 l
  | pd.ColFloat64 l => pd.ColFloat64 (map Some (pd.dropna l))
  | pd.ColObject l => pd.ColObject (map Some (pd.dropna l))
  end.

(** Both panels are drawn from columns of the table and shown together; a
    column the box plot names and the table lacks is a [ValueError] of
    the plotting library.  What the panels look like is not modelled. *)
Definition visualize_distributions : M (pd.DataFrame * console) unit :=
  age <- call (df_getitem "Age") ;;
  df <- call get_state ;;
  match pd.column df "Pclass", pd.column df "Fare" with
  | Some pclass, Some fare => show (mkFigure (dropna_column age) pclass fare)
  | _, _ => raise ValueError
  end.

Section Script.

(** The environment of a run: which paths name a file, with its text, and
    the CSV parser of the library, which turns the text of a file into a
    table or raises ([EmptyDataError], [ParserError], or another error). *)
Variable files : string -> option string.
Variable parse_csv : string -> outcome pd.DataFrame.

(** [pd.read_csv(file_path)] *)
Definition read_csv {S} (file_path : string) : M S pd.DataFrame :=
  match files file_path with
  | None => raise FileNotFoundError
  | Some text => lift (parse_csv text)
  end.

Definition load_dataset (file_path : string) : M (unit * console) (option pd.DataFrame) :=
  try_except
    (titanic_df <- read_csv file_path ;;
     titanic_df_clean <-
       lift (pd.drop titanic_df
               (filter (contains "Unnamed") (map fst (pd.columns titanic_df)))) ;;
     ret (Some titanic_df_clean))
    (fun e =>
       match e with
       | FileNotFoundError =>
           print [Text "Error: The file at "; Text file_path; Text " was not found."] ;;;
           ret None
       | EmptyDataError =>
           print [Text "Error: The file is empty."] ;;; ret None
       | ParserError =>
           print [Text "Error: There was a problem parsing the file."] ;;; ret None
       | _ =>
           print [Text "An error occurred: "; PlainExc e] ;;; ret None
       end).

(** The numbered blocks of the main sequence. *)
Definition q1_survival_rate : M (pd.DataFrame * console) unit :=
  survival_rate <- call calculate_survival_rate ;;
  print [Text "Survival Rate:\n\t"; Fixed2 survival_rate; Text "%\n"].

Definition q2_gender_proportion : M (pd.DataFrame * console) unit :=
  gender_distribution <- call calculate_gender_proportion ;;
  male <- lift (pd.getitem_str gender_distribution "male") ;;
  female <- lift (pd.getitem_str gender_distribution "female") ;;
  print [Text "Gender Proportion:\n\tMale: "; Fixed2 (np.Float64 male);
         Text "%\n\tFemale: "; Fixed2 (np.Float64 female); Text "%\n"].

Definition q3_class_survival_rate : M (pd.DataFrame * console) unit :=
  class_survival_rate <- call calculate_class_survival_rate ;;
  highest_survival_class <- lift (pd.idxmax class_survival_rate) ;;
  first_class <- lift (pd.getitem_int class_survival_rate 1) ;;
  second_class <- lift (pd.getitem_int class_survival_rate 2) ;;
  third_class <- lift (pd.getitem_int class_survival_rate 3) ;;
  print [Text "Survival Rate by Class:\n\t1st Class: "; Fixed2 (np.Float64 first_class);
         Text "%\n\t2nd Class: "; Fixed2 (np.Float64 second_class);
         Text "%\n\t3rd Class: "; Fixed2 (np.Float64 third_class); Text "%"] ;;;
  print [Text "\tClass with Highest Survival Rate: ";
         PlainLabel highest_survival_class; Text "st Class\n"].

Definition q4_siblings_spouses : M (pd.DataFrame * console) unit :=
  sibsp_count <- call count_siblings_spouses_aboard ;;
  print [Text "Passengers with Siblings or Spouses Aboard:\n\t";
         Plain sibsp_count; Text " passengers\n"].

Definition q5_average_fare : M (pd.DataFrame * console) unit :=
  average_fare_by_class <- call calculate_average_fare_by_class ;;
  first_class <- lift (pd.getitem_int average_fare_by_class 1) ;;
  second_class <- lift (pd.getitem_int average_fare_by_class 2) ;;
  third_class <- lift (pd.getitem_int average_fare_by_class 3) ;;
  print [Text "Average Fare by Class:\n\t1st Class: $"; Fixed2 (np.Float64 first_class);
         Text "\n\t2nd Class: $"; Fixed2 (np.Float64 second_class);
         Text "\n\t3rd Class: $"; Fixed2 (np.Float64 third_class); Text "\n"].

Definition q6_passengers_by_port : M (pd.DataFrame * console) unit :=
  embarked_count <- call count_passengers_by_port ;;
  cherbourg <- lift (pd.getitem_str embarked_count "C") ;;
  queenstown <- lift (pd.getitem_str embarked_count "Q") ;;
  southampton <- lift (pd.getitem_str embarked_count "S") ;;
  print [Text "Passengers by Port of Embarkation:\n\tCherbourg (C): ";
         Plain (np.Int64 cherbourg);
         Text "\n\tQueenstown (Q): "; Plain (np.Int64 queenstown);
         Text "\n\tSouthampton (S): "; Plain (np.Int64 southampton); Text "\n"].

Definition q9_gender_survival_rate : M (pd.DataFrame * console) unit :=
  gender_survival_rate <- call calculate_gender_survival_rate ;;
  male <- lift (pd.getitem_str gender_survival_rate "male") ;;
  female <- lift (pd.getitem_str gender_survival_rate "female") ;;
  print [Text "Survival Rate by Gender:\n\tMale: "; Fixed2 (np.Float64 male);
         Text "%\n\tFemale: "; Fixed2 (np.Float64 female); Text "%\n"].

Definition q10_unique_tickets : M (pd.DataFrame * console) unit :=
  unique_ticket_count <- call count_unique_tickets ;;
  print [Text "Unique Ticket Numbers:\n\t"; Plain unique_ticket_count;
         Text " unique tickets\n"].

(** The body of [if titanic_df_clean is not None:]. *)
Definition analysis : M (pd.DataFrame * console) unit :=
  q1_survival_rate ;;;
  q2_gender_proportion ;;;
  q3_class_survival_rate ;;;
  q4_siblings_spouses ;;;
  q5_average_fare ;;;
  q6_passengers_by_port ;;;
  q9_gender_survival_rate ;;;
  q10_unique_tickets ;;;
  visualize_distributions.

(** Running [c] on the table [df] with the console of the caller; before
    the load there is no table, and the state is [tt] with the console. *)
Definition with_table {A} (df : pd.DataFrame)
    (c : M (pd.DataFrame * console) A) : M (unit * console) A :=
  fun st => let (r, st') := c (df, snd st) in (r, (tt, snd st')).

(** The [__main__] block.  An exception that leaves it ends the run. *)
Definition main : M (unit * console) unit :=
  let file_path := "./data/Titanic.csv" in
  titanic_df_clean <- load_dataset file_path ;;
  match titanic_df_clean with
  | Some df => with_table df analysis
  | None => ret tt
  end.

End Script.

(** ** Vocabulary of the properties *)

(** The number of rows whose [Survived] flag is 1. *)
Definition survivors (l : list Z) : Z :=
  Z.of_nat (List.length (filter (Z.eqb 1) l)).

(** [part] out of [whole], as a percentage. *)
Definition percentage (part whole : Z) : Q :=
  (inject_Z part / inject_Z whole * 100)%Q.

(** No row of the column has a missing value. *)
Definition no_missing (c : pd.Series) : Prop := ~ In None (pd.keys c).

(** The sum of the values of a result series. *)
Definition total_percent (s : pd.Indexed np.float64) : np.float64 :=
  fold_right np.fadd (np.Fin 0) (map snd (pd.items s)).

(** Category order: the ascending order of the group keys. *)
Definition label_le (a b : label) : Prop := pd.label_leb a b = true.

Definition finite (x : np.float64) : Prop := exists q, x = np.Fin q.

(** A computation that leaves the object it works on as it found it. *)
Definition read_only {S A} (c : M S A) : Prop := forall s, snd (c s) = s.

(** A block of the main sequence that leaves the table as it found it. *)
Definition keeps_table {A} (c : M (pd.DataFrame * console) A) : Prop :=
  forall st, fst (snd (c st)) = fst st.

(** The console after one more printed line. *)
Definition printed (out : console) (line : list piece) : console :=
  mkConsole (stdout out ++ [line]) (shown out).

Definition silent : console := mkConsole [] [].

(** ** Sample tables *)

(** The two passengers of the end-to-end example. *)
Definition two_passengers : pd.DataFrame :=
  pd.mkDataFrame 2
    [("Survived", pd.ColInt64 [1; 0]);
     ("Pclass", pd.ColInt64 [1; 3]);
     ("Sex", pd.ColObject [Some "female"; Some "male"]);
     ("Fare", pd.ColFloat64 [Some 100%Q; Some 10%Q]);
     ("Embarked", pd.ColObject [Some "C"; Some "S"]);
     ("SibSp", pd.ColInt64 [0; 1]);
     ("Ticket", pd.ColObject [Some "A"; Some "B"])].

(** One passenger per class, nobody embarked at Queenstown, one ticket
    unknown. *)
Definition three_classes : pd.DataFrame :=
  pd.mkDataFrame 3
    [("Survived", pd.ColInt64 [1; 1; 0]);
     ("Pclass", pd.ColInt64 [2; 1; 3]);
     ("Sex", pd.ColObject [Some "female"; Some "male"; Some "male"]);
     ("SibSp", pd.ColInt64 [0; 1; 0]);
     ("Fare", pd.ColFloat64 [Some 20%Q; Some 100%Q; Some 10%Q]);
     ("Embarked", pd.ColObject [Some "C"; Some "S"; None]);
     ("Ticket", pd.ColObject [Some "A"; None; Some "A"])].

(** Only men aboard. *)
Definition men_only : pd.DataFrame :=
  pd.mkDataFrame 2
    [("Survived", pd.ColInt64 [0; 1]);
     ("Sex", pd.ColObject [Some "male"; Some "male"])].

Definition all_survived : pd.DataFrame :=
  pd.mkDataFrame 3 [("Survived", pd.ColInt64 [1; 1; 1])].

Definition none_survived : pd.DataFrame :=
  pd.mkDataFrame 2 [("Survived", pd.ColInt64 [0; 0])].

(** What [read_csv] gives for a file that has a header line and no data:
    every column is empty and of dtype [object]. *)
Definition header_only_table : pd.DataFrame :=
  pd.mkDataFrame 0 [("Survived", pd.ColObject [])].

(** A table without rows whose [Survived] column kept its integer dtype,
    as a row selection that matches nothing leaves it. *)
Definition empty_int64_table : pd.DataFrame :=
  pd.mkDataFrame 0 [("Survived", pd.ColInt64 [])].

(** A parsed file with the index column that a saved table carries. *)
Definition with_index_column : pd.DataFrame :=
  pd.mkDataFrame 2
    [("Unnamed: 0", pd.ColInt64 [0; 1]);
     ("Survived", pd.ColInt64 [1; 0]);
     ("Sex", pd.ColObject [Some "female"; Some "male"])].

Definition no_files (path : string) : option string := None.

Definition one_file (path : string) : option string := Some "csv".

Definition parses_to (df : pd.DataFrame) (text : string) : outcome pd.DataFrame :=
  Return df.

(** The per-class survival rates of [three_classes]: the first and the
    second class share the highest rate. *)
Definition three_classes_rates : pd.Indexed np.float64 :=
  pd.mkIndexed pd.int64
    [(LInt 1, np.Fin 100); (LInt 2, np.Fin 100); (LInt 3, np.Fin 0)].

(** ** Vocabulary of the further properties *)

(** What [pd.read_csv] gives for a path: the file may be missing, or the
    parser may raise. *)
Definition read_outcome (files : string -> option string)
    (parse_csv : string -> outcome pd.DataFrame) (file_path : string)
  : outcome pd.DataFrame :=
  match files file_path with
  | None => Raise FileNotFoundError
  | Some text => parse_csv text
  end.

(** A computation of the main sequence that prints [n] lines and shows [m]
    figures when it returns, prints at most [n] lines and shows nothing
    when it raises, and keeps the table in both cases. *)
Definition outputs {A} (n m : nat) (c : M (pd.DataFrame * console) A) : Prop :=
  forall df out r st,
    c (df, out) = (r, st) ->
    fst st = df
    /\ exists lines figs,
         stdout (snd st) = (stdout out ++ lines)%list
         /\ shown (snd st) = (shown out ++ figs)%list
         /\ match r with
            | Return _ => List.length lines = n /\ List.length figs = m
            | Raise _ => (List.length lines <= n)%nat /\ figs = []
            end.

(** A rate that is a number between 0 and 100. *)
Definition is_percentage (x : np.float64) : Prop :=
  exists q, x = np.Fin q /\ (0 <= q <= 100)%Q.

(** The rows of a column that hold a value. *)
Definition present_rows (c : pd.Series) : list label := pd.dropna (pd.keys c).

(** The number of rows of a [float64] column that hold the flag 1. *)
Definition flagged (l : list (option Q)) : Z :=
  Z.of_nat (List.length (filter (fun x => match x with
                                          | Some q => Qeq_bool q 1
                                          | None => false
                                          end) l)).

(** ** Further sample tables *)

(** The full schema, with every category the main sequence asks for. *)
Definition full_table : pd.DataFrame :=
  pd.mkDataFrame 3
    [("Survived", pd.ColInt64 [1; 1; 0]);
     ("Pclass", pd.ColInt64 [2; 1; 3]);
     ("Sex", pd.ColObject [Some "female"; Some "male"; Some "male"]);
     ("Age", pd.ColFloat64 [Some 30%Q; None; Some 4%Q]);
     ("SibSp", pd.ColInt64 [0; 1; 0]);
     ("Fare", pd.ColFloat64 [Some 20%Q; Some 100%Q; Some 10%Q]);
     ("Embarked", pd.ColObject [Some "C"; Some "S"; Some "Q"]);
     ("Ticket", pd.ColObject [Some "A"; None; Some "A"])].

(** One outcome is unknown. *)
Definition unknown_outcome : pd.DataFrame :=
  pd.mkDataFrame 4
    [("Survived", pd.ColFloat64 [Some 1%Q; None; Some 0%Q; Some 1%Q])].

(** Every outcome is unknown: the file leaves [Survived] empty in each
    row, and [read_csv] makes it a [float64] column of missing values. *)
Definition outcomes_unknown : pd.DataFrame :=
  pd.mkDataFrame 3
    [("Survived", pd.ColFloat64 [None; None; None]);
     ("Pclass", pd.ColInt64 [1; 2; 3])].

(** The per-class survival rates of [outcomes_unknown]. *)
Definition outcomes_unknown_rates : pd.Indexed np.float64 :=
  pd.mkIndexed pd.int64
    [(LInt 1, np.NaN); (LInt 2, np.NaN); (LInt 3, np.NaN)].

(** The two lines of the class block: the three rates, and the class
    that [idxmax] named. *)
Definition class_rates_line (first_class second_class third_class : np.float64)
  : list piece :=
  [Text "Survival Rate by Class:\n\t1st Class: "; Fixed2 (np.Float64 first_class);
   Text "%\n\t2nd Class: "; Fixed2 (np.Float64 second_class);
   Text "%\n\t3rd Class: "; Fixed2 (np.Float64 third_class); Text "%"].

Definition highest_class_line (highest_survival_class : option label)
  : list piece :=
  [Text "\tClass with Highest Survival Rate: ";
   PlainLabel highest_survival_class; Text "st Class\n"].

(** A table that lost every column. *)
Definition no_columns : pd.DataFrame := pd.mkDataFrame 0 [].

(** A table that kept only its grouping columns. *)
Definition groups_only : pd.DataFrame :=
  pd.mkDataFrame 2
    [("Pclass", pd.ColInt64 [1; 3]);
     ("Sex", pd.ColObject [Some "female"; Some "male"])].

(** One passenger of unknown sex; without that row the table is
    [two_passengers]. *)
Definition unknown_sex : pd.DataFrame :=
  pd.mkDataFrame 3
    [("Survived", pd.ColInt64 [1; 1; 0]);
     ("Sex", pd.ColObject [Some "female"; None; Some "male"])].

Definition parse_fails (e : exc) (text : string) : outcome pd.DataFrame :=
  Raise e.

(** * Properties *)

(** ** Labels *)

Lemma label_eqb_eq (a b : label) : pd.label_eqb a b = true <-> a = b.
Proof.
  destruct a as [x|x|x], b as [y|y|y]; simpl; try (split; [discriminate | congruence]).
  - rewrite Z.eqb_eq. split; congruence.
  - rewrite andb_true_iff, Z.eqb_eq, Pos.eqb_eq.
    destruct x as [xn xd], y as [yn yd]; simpl.
    split; [intros [-> ->]; reflexivity | intros H; injection H; auto].
  - rewrite String.eqb_eq. split; congruence.
Qed.

Lemma label_eqb_refl (a : label) : pd.label_eqb a a = true.
Proof. apply label_eqb_eq. reflexivity. Qed.

Lemma label_eqb_neq (a b : label) : pd.label_eqb a b = false <-> a <> b.
Proof.
  rewrite <- label_eqb_eq. destruct (pd.label_eqb a b); split; congruence.
Qed.

Lemma cell_eqb_eq (a b : option label) : pd.cell_eqb a b = true <-> a = b.
Proof.
  destruct a as [x|], b as [y|]; simpl; try (split; [discriminate | congruence]).
  - rewrite label_eqb_eq. split; congruence.
  - split; reflexivity.
Qed.

(** ** dropna and unique *)

Lemma In_dropna {A} (a : A) (l : list (option A)) :
  In a (pd.dropna l) <-> In (Some a) l.
Proof.
  induction l as [|[x|] l IH]; simpl.
  - reflexivity.
  - rewrite IH. split; intros [H|H]; auto; left; congruence.
  - rewrite IH. split; [auto | intros [H|H]; [discriminate | assumption]].
Qed.

Lemma NoDup_dropna {A} (l : list (option A)) : NoDup l -> NoDup (pd.dropna l).
Proof.
  induction 1 as [|[x|] l Hx _ IH]; simpl.
  - constructor.
  - constructor; [rewrite In_dropna; assumption | assumption].
  - assumption.
Qed.

Section Unique.

Context {A : Type} (eqb : A -> A -> bool).
Hypothesis eqb_eq : forall a b, eqb a b = true <-> a = b.

Lemma In_unique (a : A) (l : list A) : In a (pd.unique eqb l) <-> In a l.
Proof.
  induction l as [|x l IH]; simpl; [reflexivity|].
  rewrite filter_In, IH, negb_true_iff.
  split.
  - intros [H|[H _]]; auto.
  - intros [H|H]; auto.
    destruct (eqb x a) eqn:E; [left; apply eqb_eq; assumption | right; auto].
Qed.

Lemma NoDup_unique (l : list A) : NoDup (pd.unique eqb l).
Proof.
  induction l as [|x l IH]; simpl; constructor.
  - rewrite filter_In, negb_true_iff. intros [_ H].
    assert (eqb x x = true) by (apply eqb_eq; reflexivity). congruence.
  - apply NoDup_filter. assumption.
Qed.

End Unique.

(** ** Sorting labels *)

Lemma insert_label_perm (k : label) (l : list label) :
  Permutation (k :: l) (pd.insert_label k l).
Proof.
  induction l as [|y l IH]; simpl; [reflexivity|].
  destruct (pd.label_leb k y); [reflexivity|].
  rewrite perm_swap. constructor. assumption.
Qed.

Lemma sort_labels_perm (l : list label) : Permutation l (pd.sort_labels l).
Proof.
  induction l as [|k l IH]; simpl; [constructor|].
  rewrite <- insert_label_perm. constructor. assumption.
Qed.

Lemma In_group_keys (k : label) (c : pd.Series) :
  In k (pd.group_keys c) <-> In (Some k) (pd.keys c).
Proof.
  unfold pd.group_keys.
  rewrite <- In_dropna,
    <- (In_unique pd.label_eqb label_eqb_eq k (pd.dropna (pd.keys c))).
  split; apply Permutation_in;
    [symmetry|]; apply sort_labels_perm.
Qed.

Lemma NoDup_group_keys (c : pd.Series) : NoDup (pd.group_keys c).
Proof.
  unfold pd.group_keys.
  eapply Permutation_NoDup; [apply sort_labels_perm|].
  apply NoDup_unique, label_eqb_eq.
Qed.

(** ** Survival rate *)

Lemma wf_column (df : pd.DataFrame) (name : string) (c : pd.Series) :
  pd.wf df -> pd.column df name = Some c -> pd.size c = pd.nrows df.
Proof.
  unfold pd.wf, pd.column. intros [_ Hwf] Hc.
  destruct (find _ (pd.columns df)) as [nc|] eqn:F; [|discriminate].
  injection Hc as <-. apply find_some in F.
  rewrite Forall_forall in Hwf. apply Hwf, F.
Qed.

Lemma Zsum_flags (l : list Z) :
  Forall (fun z => z = 0 \/ z = 1) l -> pd.Zsum l = survivors l.
Proof.
  unfold survivors.
  induction 1 as [|z l [->| ->] _ IH]; cbn -[Z.of_nat Z.add]; [reflexivity| |];
    fold (pd.Zsum l); rewrite IH; cbn -[Z.of_nat Z.add]; lia.
Qed.

Lemma survivors_none (l : list Z) : Forall (eq 0) l -> survivors l = 0.
Proof.
  unfold survivors.
  induction 1 as [|z l <- _ IH]; cbn -[Z.of_nat]; [reflexivity | assumption].
Qed.

Lemma survivors_all (l : list Z) :
  Forall (eq 1) l -> survivors l = Z.of_nat (List.length l).
Proof.
  unfold survivors. induction 1 as [|z l <- _ IH]; cbn -[Z.of_nat]; lia.
Qed.

Lemma wrap64_small (z : Z) : - 2 ^ 63 <= z < 2 ^ 63 -> np.wrap64 z = z.
Proof.
  intros H. unfold np.wrap64. rewrite Z.mod_small; lia.
Qed.

Lemma survivors_bounds (l : list Z) :
  0 <= survivors l <= Z.of_nat (List.length l).
Proof.
  unfold survivors. pose proof (filter_length_le (Z.eqb 1) l). lia.
Qed.

Lemma fin_eq (p q : Q) : (p == q)%Q -> np.fin p = np.fin q.
Proof. intros H. unfold np.fin. f_equal. apply Qred_complete, H. Qed.

Lemma survival_rate_int64 (df : pd.DataFrame) (l : list Z) :
  pd.column df "Survived" = Some (pd.ColInt64 l) ->
  pd.nrows df <> 0%nat ->
  calculate_survival_rate df
  = (Return (np.Float64
               (np.fin (percentage (np.wrap64 (pd.Zsum l)) (pd.len df)))), df).
Proof.
  intros Hc Hn.
  unfold calculate_survival_rate, df_len, df_getitem, bind, get_state, ret, lift,
    pd.getitem.
  cbv beta. rewrite Hc. simpl.
  assert (E : (pd.len df =? 0) = false) by (apply Z.eqb_neq; unfold pd.len; lia).
  rewrite E. cbv beta iota. unfold np.multiply, np.fmul, np.fin at 2.
  do 3 f_equal. apply fin_eq.
  unfold percentage, np.of_int. rewrite Qred_correct. reflexivity.
Qed.

(** C1: on a non-empty table whose [Survived] column holds 0/1 flags,
    [calculate_survival_rate] returns the percentage of rows whose flag is 1
    over all rows; 0.0 when every flag is 0 and 100.0 when every flag is
    1. *)
Theorem calculate_survival_rate_percentage
    (df : pd.DataFrame) (survived : list Z) :
  pd.wf df ->
  pd.nrows df <> 0%nat ->
  pd.column df "Survived" = Some (pd.ColInt64 survived) ->
  Forall (fun z => z = 0 \/ z = 1) survived ->
  fst (calculate_survival_rate df)
  = Return (np.Float64 (np.fin (percentage (survivors survived) (pd.len df))))
  /\ (Forall (eq 0) survived ->
      fst (calculate_survival_rate df) = Return (np.Float64 (np.Fin 0)))
  /\ (Forall (eq 1) survived ->
      fst (calculate_survival_rate df) = Return (np.Float64 (np.Fin 100))).
Proof.
  intros Hwf Hn Hc Hflags.
  pose proof (wf_column df _ _ Hwf Hc) as Hlen. cbn [pd.size] in Hlen.
  rewrite (survival_rate_int64 df survived Hc Hn), (Zsum_flags _ Hflags).
  rewrite wrap64_small
    by (pose proof (survivors_bounds survived); destruct Hwf as [Hwf _]; lia).
  cbn [fst]. split; [reflexivity|]. split; intros H.
  - rewrite (survivors_none _ H).
    rewrite (fin_eq (percentage 0 (pd.len df)) 0); [reflexivity|].
    unfold percentage, Qdiv. now rewrite !Qmult_0_l.
  - rewrite (survivors_all _ H).
    unfold pd.len. rewrite Hlen.
    rewrite (fin_eq (percentage (Z.of_nat (pd.nrows df)) (Z.of_nat (pd.nrows df))) 100);
      [reflexivity|].
    unfold percentage, Qdiv. rewrite Qmult_inv_r; [reflexivity|].
    unfold Qeq. simpl. lia.
Qed.

Lemma size_zero (c : pd.Series) :
  pd.size c = 0%nat ->
  c = pd.ColInt64 [] \/ c = pd.ColFloat64 [] \/ c = pd.ColObject [].
Proof.
  destruct c as [l|l|l]; simpl; intros H; apply length_zero_iff_nil in H;
    subst; auto.
Qed.

(** On a table without rows the outcome of [calculate_survival_rate]
    follows the dtype of [Survived]: the sum of an empty [object] column
    is the Python integer 0 and dividing it by the length 0 raises; the sum
    of an empty numeric column is a numpy scalar and dividing it gives
    [nan]. *)
Lemma calculate_survival_rate_zero_rows (df : pd.DataFrame) (survived : pd.Series) :
  pd.wf df ->
  pd.nrows df = 0%nat ->
  pd.column df "Survived" = Some survived ->
  fst (calculate_survival_rate df)
  = match pd.dtype_of survived with
    | pd.object => Raise ZeroDivisionError
    | _ => Return (np.Float64 np.NaN)
    end.
Proof.
  intros Hwf Hn Hc.
  pose proof (wf_column df _ _ Hwf Hc) as Hsize. rewrite Hn in Hsize.
  unfold calculate_survival_rate, df_len, df_getitem, bind, get_state, ret,
    lift, pd.getitem, pd.len.
  cbv beta. rewrite Hc, Hn.
  destruct (size_zero _ Hsize) as [-> | [-> | ->]]; reflexivity.
Qed.

(** A table without rows that kept an integer dtype is not one the script
    can load: [read_csv] gives every column of a file without data rows
    the dtype [object].  On such a table the function would give [nan]. *)
Remark zero_rows_int64_returns_nan :
  pd.wf empty_int64_table
  /\ pd.nrows empty_int64_table = 0%nat
  /\ fst (calculate_survival_rate empty_int64_table) = Return (np.Float64 np.NaN)
  /\ fst (calculate_survival_rate empty_int64_table) <> Raise ZeroDivisionError.
Proof.
  split; [split; [reflexivity | repeat constructor]|]. split; [reflexivity|].
  split; [reflexivity | discriminate].
Qed.

(** ** The statistics only read the table *)

Lemma read_only_ret {S A} (a : A) : read_only (@ret S A a).
Proof. intros s. reflexivity. Qed.

Lemma read_only_lift {S A} (r : outcome A) : read_only (@lift S A r).
Proof. intros s. reflexivity. Qed.

Lemma read_only_get_state {S} : read_only (@get_state S).
Proof. intros s. reflexivity. Qed.

Lemma read_only_bind {S A B} (c : M S A) (k : A -> M S B) :
  read_only c -> (forall a, read_only (k a)) -> read_only (bind c k).
Proof.
  intros Hc Hk s. unfold bind. specialize (Hc s).
  destruct (c s) as [[a|e] s']; simpl in *; subst; [apply Hk | reflexivity].
Qed.

Ltac read_only :=
  repeat first
    [ apply read_only_ret | apply read_only_lift | apply read_only_get_state
    | apply read_only_bind; [|intros ?] ].

Lemma read_only_df_getitem (name : string) : read_only (df_getitem name).
Proof. unfold df_getitem. read_only. Qed.

Lemma read_only_df_groupby_getitem (val : string) :
  read_only (df_groupby_getitem val).
Proof.
  intros df. unfold df_groupby_getitem, bind, get_state.
  destruct (pd.column df val); reflexivity.
Qed.

Lemma read_only_df_groupby_mean (by_ val : string) :
  read_only (df_groupby_mean by_ val).
Proof.
  unfold df_groupby_mean.
  apply read_only_bind; [apply read_only_df_getitem | intros ?].
  apply read_only_bind; [apply read_only_df_groupby_getitem | intros ?].
  apply read_only_lift.
Qed.

Lemma read_only_calculate_survival_rate : read_only calculate_survival_rate.
Proof.
  unfold calculate_survival_rate, df_len. apply read_only_bind; [read_only|].
  intros n. apply read_only_bind; [apply read_only_df_getitem|]. intros c.
  read_only.
Qed.

Lemma read_only_calculate_gender_proportion :
  read_only calculate_gender_proportion.
Proof.
  unfold calculate_gender_proportion.
  apply read_only_bind; [apply read_only_df_getitem|]. intros c. read_only.
Qed.

Lemma read_only_calculate_class_survival_rate :
  read_only calculate_class_survival_rate.
Proof.
  unfold calculate_class_survival_rate.
  apply read_only_bind; [apply read_only_df_groupby_mean|]. intros c. read_only.
Qed.

Lemma read_only_count_siblings_spouses_aboard :
  read_only count_siblings_spouses_aboard.
Proof.
  unfold count_siblings_spouses_aboard.
  apply read_only_bind; [apply read_only_df_getitem|]. intros c. read_only.
Qed.

Lemma read_only_calculate_average_fare_by_class :
  read_only calculate_average_fare_by_class.
Proof. apply read_only_df_groupby_mean. Qed.

Lemma read_only_count_passengers_by_port : read_only count_passengers_by_port.
Proof.
  unfold count_passengers_by_port.
  apply read_only_bind; [apply read_only_df_getitem|]. intros c. read_only.
Qed.

Lemma read_only_calculate_gender_survival_rate :
  read_only calculate_gender_survival_rate.
Proof.
  unfold calculate_gender_survival_rate.
  apply read_only_bind; [apply read_only_df_groupby_mean|]. intros c. read_only.
Qed.

Lemma read_only_count_unique_tickets : read_only count_unique_tickets.
Proof.
  unfold count_unique_tickets.
  apply read_only_bind; [apply read_only_df_getitem|]. intros c. read_only.
Qed.

(** ** Loading *)

(** C2: for a path that names no file, [load_dataset] prints the not-found
    message and returns [None] without raising; the main sequence then
    ends normally with nothing else printed and no figure shown. *)
Theorem missing_file_is_reported
    (files : string -> option string) (parse_csv : string -> outcome pd.DataFrame)
    (out : console) :
  (forall file_path,
      files file_path = None ->
      load_dataset files parse_csv file_path (tt, out)
      = (Return None,
         (tt, printed out [Text "Error: The file at "; Text file_path;
                           Text " was not found."])))
  /\ (files "./data/Titanic.csv" = None ->
      main files parse_csv (tt, out)
      = (Return tt,
         (tt, printed out [Text "Error: The file at "; Text "./data/Titanic.csv";
                           Text " was not found."]))).
Proof.
  assert (L : forall file_path,
      files file_path = None ->
      load_dataset files parse_csv file_path (tt, out)
      = (Return None,
         (tt, printed out [Text "Error: The file at "; Text file_path;
                           Text " was not found."]))).
  { intros file_path H.
    unfold load_dataset, try_except, bind, read_csv. rewrite H. reflexivity. }
  split; [exact L|].
  intros H. unfold main, bind. rewrite (L _ H). reflexivity.
Qed.

Lemma prefix_app (sub s : string) :
  prefix sub s = true <-> exists post, s = sub ++ post.
Proof.
  revert s. induction sub as [|a sub IH]; intros s.
  - split; [intros _; exists s; reflexivity | destruct s; reflexivity].
  - destruct s as [|b s]; simpl.
    + split; [discriminate | intros [post H]; discriminate].
    + destruct (Ascii.ascii_dec a b) as [<-|N].
      * rewrite IH. split; intros [post H]; exists post;
          [rewrite H; reflexivity | injection H; auto].
      * split; [discriminate | intros [post H]; injection H; congruence].
Qed.

Lemma contains_substring (sub s : string) :
  contains sub s = true <-> exists pre post, s = pre ++ sub ++ post.
Proof.
  induction s as [|a s IH]; cbn [contains]; rewrite orb_true_iff, prefix_app.
  - split.
    + intros [[post H]|H]; [|discriminate]. exists "", post. assumption.
    + intros [[|b pre] [post H]]; [left; exists post; assumption | discriminate].
  - rewrite IH. split.
    + intros [[post H]|[pre [post H]]].
      * exists "", post. assumption.
      * exists (String a pre), post. simpl. rewrite H. reflexivity.
    + intros [[|b pre] [post H]].
      * left. exists post. assumption.
      * right. exists pre, post. simpl in H. injection H; auto.
Qed.

Lemma find_filter {A} (p q : A -> bool) (l : list A) :
  (forall x, p x = true -> q x = true) -> find p (filter q l) = find p l.
Proof.
  intros H. induction l as [|x l IH]; simpl; [reflexivity|].
  destruct (q x) eqn:Q; simpl.
  - destruct (p x); [reflexivity | assumption].
  - destruct (p x) eqn:P; [rewrite (H x P) in Q; discriminate | assumption].
Qed.

Lemma drop_artifacts (df : pd.DataFrame) :
  pd.drop df (filter (contains "Unnamed") (map fst (pd.columns df)))
  = Return (pd.mkDataFrame (pd.nrows df)
              (filter (fun nc => negb (contains "Unnamed" (fst nc))) (pd.columns df))).
Proof.
  unfold pd.drop.
  destruct (find _ _) as [n|] eqn:F.
  - apply find_some in F. destruct F as [Hin Hn].
    apply filter_In in Hin. destruct Hin as [Hin _].
    apply in_map_iff in Hin. destruct Hin as [nc [<- Hnc]].
    apply negb_true_iff in Hn. unfold pd.has_column in Hn.
    assert (existsb (fun nc0 => String.eqb (fst nc0) (fst nc)) (pd.columns df) = true) as E.
    { apply existsb_exists. exists nc. split; [assumption | apply String.eqb_refl]. }
    congruence.
  - do 2 f_equal. apply filter_ext_in. intros nc Hnc. f_equal.
    destruct (contains "Unnamed" (fst nc)) eqn:C.
    + apply existsb_exists. exists (fst nc). split; [|apply String.eqb_refl].
      apply filter_In. split; [apply in_map; assumption | assumption].
    + destruct (existsb _ _) eqn:E; [|reflexivity].
      apply existsb_exists in E. destruct E as [n [Hn En]].
      apply String.eqb_eq in En. subst n.
      apply filter_In in Hn. destruct Hn as [_ Hn]. congruence.
Qed.

(** C7: when the file parses, [load_dataset] returns the parsed table
    without the columns whose name contains [Unnamed]; the other columns,
    their values, their order and the number of rows are unchanged, and
    nothing is printed. *)
Theorem load_dataset_drops_only_artifact_columns
    (files : string -> option string) (parse_csv : string -> outcome pd.DataFrame)
    (file_path text : string) (titanic_df : pd.DataFrame) (out : console) :
  files file_path = Some text ->
  parse_csv text = Return titanic_df ->
  exists titanic_df_clean,
    load_dataset files parse_csv file_path (tt, out)
    = (Return (Some titanic_df_clean), (tt, out))
    /\ pd.columns titanic_df_clean
       = filter (fun nc => negb (contains "Unnamed" (fst nc))) (pd.columns titanic_df)
    /\ pd.nrows titanic_df_clean = pd.nrows titanic_df
    /\ (forall nc, In nc (pd.columns titanic_df_clean) <->
          In nc (pd.columns titanic_df)
          /\ ~ exists pre post, fst nc = pre ++ "Unnamed" ++ post)
    /\ (forall name, contains "Unnamed" name = false ->
          pd.column titanic_df_clean name = pd.column titanic_df name).
Proof.
  intros Hf Hp.
  eexists. split; [|split; [|split; [|split]]].
  - unfold load_dataset, try_except, bind, read_csv, lift, ret.
    rewrite Hf, Hp, drop_artifacts. reflexivity.
  - reflexivity.
  - reflexivity.
  - intros nc. cbn [pd.columns].
    rewrite filter_In, negb_true_iff.
    rewrite <- contains_substring, not_true_iff_false. reflexivity.
  - intros name H. unfold pd.column. cbn [pd.columns]. f_equal.
    apply find_filter. intros nc E. apply String.eqb_eq in E.
    rewrite E, H. reflexivity.
Qed.

(** ** A table without rows *)

Lemma wf_filter_columns (df : pd.DataFrame)
    (keep : string * pd.Series -> bool) :
  pd.wf df -> pd.wf (pd.mkDataFrame (pd.nrows df) (filter keep (pd.columns df))).
Proof.
  intros [Hn Hall]. split; [exact Hn|]. cbn [pd.nrows pd.columns].
  rewrite Forall_forall in *. intros nc Hin. apply filter_In in Hin.
  apply Hall, Hin.
Qed.

(** C3: on a table without rows as the script loads it (the file has a
    header line and no data row, so [Survived] is an empty column of dtype
    [object]), [calculate_survival_rate] raises [ZeroDivisionError]: it
    returns no value, and the table that [load_dataset] hands on raises in
    the same way. *)
Theorem calculate_survival_rate_zero_rows_raises
    (df : pd.DataFrame) (survived : pd.Series) :
  pd.wf df ->
  pd.nrows df = 0%nat ->
  pd.column df "Survived" = Some survived ->
  pd.dtype_of survived = pd.object ->
  calculate_survival_rate df = (Raise ZeroDivisionError, df)
  /\ (forall value, fst (calculate_survival_rate df) <> Return value)
  /\ (forall files parse_csv file_path text out,
        files file_path = Some text ->
        parse_csv text = Return df ->
        exists titanic_df_clean,
          load_dataset files parse_csv file_path (tt, out)
          = (Return (Some titanic_df_clean), (tt, out))
          /\ calculate_survival_rate titanic_df_clean
             = (Raise ZeroDivisionError, titanic_df_clean)).
Proof.
  assert (Hraise : forall t c,
            pd.wf t -> pd.nrows t = 0%nat ->
            pd.column t "Survived" = Some c -> pd.dtype_of c = pd.object ->
            calculate_survival_rate t = (Raise ZeroDivisionError, t)).
  { intros t c Hwf Hn Hc Hd.
    pose proof (wf_column t _ _ Hwf Hc) as Hsize. rewrite Hn in Hsize.
    unfold calculate_survival_rate, df_len, df_getitem, bind, get_state, ret,
      lift, pd.getitem, pd.len.
    cbv beta. rewrite Hc, Hn.
    destruct (size_zero _ Hsize) as [-> | [-> | ->]];
      [discriminate Hd | discriminate Hd | reflexivity]. }
  intros Hwf Hn Hc Hd. split; [|split].
  - apply (Hraise df survived); assumption.
  - intros value. rewrite (Hraise df survived Hwf Hn Hc Hd). discriminate.
  - intros files parse_csv file_path text out Hf Hp.
    eexists. split.
    + unfold load_dataset, try_except, bind, read_csv, lift, ret.
      rewrite Hf, Hp, drop_artifacts. reflexivity.
    + apply (Hraise _ survived); [apply wf_filter_columns, Hwf | exact Hn | | exact Hd].
      unfold pd.column. cbn [pd.columns]. rewrite find_filter; [exact Hc|].
      intros nc E. apply String.eqb_eq in E. rewrite E. reflexivity.
Qed.

(** ** Grouped means *)

Lemma sequence_keyed {A} (f : label -> outcome A) (ks : list label)
    (entries : list (label * A)) :
  pd.sequence (map (fun k => obind (f k) (fun m => Return (k, m))) ks)
  = Return entries ->
  map fst entries = ks
  /\ Forall (fun km => f (fst km) = Return (snd km)) entries.
Proof.
  revert entries. induction ks as [|k ks IH]; intros entries; simpl.
  - intros H. injection H as <-. split; constructor.
  - destruct (f k) as [m|e] eqn:F; simpl; [|discriminate].
    destruct (pd.sequence _) as [rest|e]; simpl; [|discriminate].
    intros H. injection H as <-.
    destruct (IH rest eq_refl) as [H1 H2].
    split; [simpl; congruence | constructor; assumption].
Qed.

Lemma sequence_total {A} (l : list (outcome A)) :
  Forall (fun x => exists a, x = Return a) l ->
  exists r, pd.sequence l = Return r.
Proof.
  induction 1 as [|x l [a ->] _ [r IH]]; simpl.
  - eexists; reflexivity.
  - rewrite IH. eexists; reflexivity.
Qed.

Lemma In_select {A} (k : label) (v : A) (rows : list (option label * A)) :
  In v (pd.select k rows) <-> In (Some k, v) rows.
Proof.
  induction rows as [|[[k'|] v'] rows IH]; simpl.
  - reflexivity.
  - destruct (pd.label_eqb k' k) eqn:E; simpl; rewrite IH.
    + apply label_eqb_eq in E. subst k'.
      split; intros [H|H]; auto; left; congruence.
    + apply label_eqb_neq in E.
      split; [auto | intros [H|H]; [congruence | assumption]].
  - rewrite IH. split; [auto | intros [H|H]; [discriminate | assumption]].
Qed.

Lemma numbers_numeric (c : pd.Series) :
  pd.dtype_of c <> pd.object ->
  Forall (fun x => exists a, x = Return a) (pd.numbers c).
Proof.
  destruct c as [l|l|l]; simpl; intros H; try congruence;
    apply Forall_forall; intros x Hx; apply in_map_iff in Hx;
    destruct Hx as [y [<- _]]; eexists; reflexivity.
Qed.

Lemma groupby_mean_numeric (by_ val : pd.Series) :
  pd.dtype_of val <> pd.object ->
  exists rates, pd.groupby_mean by_ val = Return rates.
Proof.
  intros Hnum. unfold pd.groupby_mean.
  destruct (sequence_total
    (map (fun k => obind (pd.group_mean k (combine (pd.keys by_) (pd.numbers val)))
                     (fun m => Return (k, m))) (pd.group_keys by_))) as [r Hr].
  - apply Forall_forall. intros x Hx. apply in_map_iff in Hx.
    destruct Hx as [k [<- _]]. unfold pd.group_mean.
    destruct (sequence_total (pd.select k (combine (pd.keys by_) (pd.numbers val))))
      as [vs Hvs].
    + apply Forall_forall. intros v Hv. apply In_select, in_combine_r in Hv.
      pose proof (numbers_numeric val Hnum) as Hall.
      rewrite Forall_forall in Hall. apply Hall, Hv.
    + rewrite Hvs. eexists; reflexivity.
  - rewrite Hr. eexists; reflexivity.
Qed.

Lemma groupby_mean_index (by_ val : pd.Series) (rates : pd.Indexed np.float64) :
  pd.groupby_mean by_ val = Return rates ->
  pd.index rates = pd.group_keys by_.
Proof.
  unfold pd.groupby_mean.
  destruct (pd.sequence _) as [entries|e] eqn:E; simpl; [|discriminate].
  intros H. injection H as <-. apply sequence_keyed in E. apply E.
Qed.

Lemma index_percent (s : pd.Indexed np.float64) : pd.index (percent s) = pd.index s.
Proof.
  unfold percent, pd.map_values, pd.index. simpl. rewrite map_map. reflexivity.
Qed.

Lemma lookup_absent {V} (k : label) (s : pd.Indexed V) :
  ~ In k (pd.index s) -> pd.lookup k s = None.
Proof.
  unfold pd.lookup, pd.index. intros H.
  destruct (find _ _) as [kv|] eqn:F; [|reflexivity].
  apply find_some in F. destruct F as [Hin E]. apply label_eqb_eq in E.
  exfalso. apply H. rewrite <- E. apply in_map, Hin.
Qed.

Lemma lookup_present {V} (k : label) (s : pd.Indexed V) :
  In k (pd.index s) -> exists v, pd.lookup k s = Some v.
Proof.
  unfold pd.lookup, pd.index. intros H. apply in_map_iff in H.
  destruct H as [kv [E Hin]].
  destruct (find _ _) as [kv'|] eqn:F; [eexists; reflexivity|].
  exfalso. pose proof (find_none _ _ F kv Hin) as N. simpl in N.
  rewrite E, label_eqb_refl in N. discriminate.
Qed.

Lemma class_survival_rate_run (df : pd.DataFrame) (pclass survived : pd.Series) :
  pd.column df "Pclass" = Some pclass ->
  pd.column df "Survived" = Some survived ->
  calculate_class_survival_rate df
  = (match pd.groupby_mean pclass survived with
     | Return rates => Return (percent rates)
     | Raise e => Raise e
     end, df).
Proof.
  intros Hp Hs.
  unfold calculate_class_survival_rate, df_groupby_mean, df_groupby_getitem,
    df_getitem, bind, get_state, ret, lift, pd.getitem.
  cbv beta. rewrite Hp. cbv iota beta. rewrite Hs. cbv iota beta.
  destruct (pd.groupby_mean pclass survived); reflexivity.
Qed.

(** C4: [calculate_class_survival_rate] returns a mapping whenever the
    [Survived] column is numeric, and the keys of a returned mapping are
    exactly the [Pclass] values that occur in some row, each once; a class
    that occurs in no row has no entry. *)
Theorem calculate_class_survival_rate_keys
    (df : pd.DataFrame) (pclass survived : pd.Series) :
  pd.column df "Pclass" = Some pclass ->
  pd.column df "Survived" = Some survived ->
  (pd.dtype_of survived <> pd.object ->
   exists rates, fst (calculate_class_survival_rate df) = Return rates)
  /\ (forall rates,
        fst (calculate_class_survival_rate df) = Return rates ->
        NoDup (pd.index rates)
        /\ (forall k, In k (pd.index rates) <-> In (Some k) (pd.keys pclass))
        /\ (forall k, ~ In (Some k) (pd.keys pclass) -> pd.lookup k rates = None)).
Proof.
  intros Hp Hs. rewrite (class_survival_rate_run df pclass survived Hp Hs).
  simpl. split.
  - intros Hnum. destruct (groupby_mean_numeric pclass survived Hnum) as [r ->].
    eexists; reflexivity.
  - intros rates H.
    destruct (pd.groupby_mean pclass survived) as [r|e] eqn:G; [|discriminate].
    injection H as <-. rewrite index_percent, (groupby_mean_index _ _ _ G).
    split; [apply NoDup_group_keys|]. split; [intros k; apply In_group_keys|].
    intros k Hk. apply lookup_absent.
    rewrite index_percent, (groupby_mean_index _ _ _ G), In_group_keys.
    assumption.
Qed.

(** ** Distinct tickets *)

Lemma dropna_filter_none (l : list (option label)) :
  pd.dropna (filter (fun y => negb (pd.cell_eqb None y)) l) = pd.dropna l.
Proof.
  induction l as [|[x|] l IH]; simpl; [reflexivity | f_equal; assumption | assumption].
Qed.

Lemma dropna_filter_some (a : label) (l : list (option label)) :
  pd.dropna (filter (fun y => negb (pd.cell_eqb (Some a) y)) l)
  = filter (fun y => negb (pd.label_eqb a y)) (pd.dropna l).
Proof.
  induction l as [|[x|] l IH]; simpl; [reflexivity| |assumption].
  destruct (pd.label_eqb a x); simpl; [assumption | f_equal; assumption].
Qed.

Lemma dropna_unique (l : list (option label)) :
  pd.dropna (pd.unique pd.cell_eqb l) = pd.unique pd.label_eqb (pd.dropna l).
Proof.
  induction l as [|[x|] l IH]; cbn [pd.unique pd.dropna].
  - reflexivity.
  - rewrite dropna_filter_some, IH. reflexivity.
  - rewrite dropna_filter_none. assumption.
Qed.

Lemma dropna_map_Some {A} (l : list A) : pd.dropna (map Some l) = l.
Proof. induction l; simpl; congruence. Qed.

Lemma dropna_option_map {A B} (f : A -> B) (l : list (option A)) :
  pd.dropna (map (option_map f) l) = map f (pd.dropna l).
Proof. induction l as [|[x|] l IH]; simpl; congruence. Qed.

Lemma keys_dropna_column (c : pd.Series) :
  pd.dropna (pd.keys (dropna_column c)) = pd.dropna (pd.keys c).
Proof.
  destruct c as [l|l|l]; simpl; [reflexivity| |];
    rewrite !dropna_option_map, dropna_map_Some; reflexivity.
Qed.

(** C10: [count_unique_tickets] returns the number of distinct values
    among the rows whose [Ticket] is present; rows with a missing [Ticket]
    add nothing to the count and raise nothing. *)
Theorem count_unique_tickets_skips_missing
    (df : pd.DataFrame) (ticket : pd.Series) :
  pd.column df "Ticket" = Some ticket ->
  exists distinct : list label,
    fst (count_unique_tickets df)
    = Return (np.PyInt (Z.of_nat (List.length distinct)))
    /\ NoDup distinct
    /\ (forall k, In k distinct <-> In (Some k) (pd.keys ticket))
    /\ pd.nunique (dropna_column ticket) = pd.nunique ticket.
Proof.
  intros Hc. exists (pd.dropna (pd.unique pd.cell_eqb (pd.keys ticket))).
  split; [|split; [|split]].
  - unfold count_unique_tickets, df_getitem, bind, get_state, ret, lift,
      pd.getitem.
    cbv beta. rewrite Hc. reflexivity.
  - apply NoDup_dropna, NoDup_unique, cell_eqb_eq.
  - intros k. rewrite In_dropna. apply In_unique, cell_eqb_eq.
  - unfold pd.nunique. rewrite !dropna_unique, keys_dropna_column. reflexivity.
Qed.

(** ** Value counts *)

Lemma insert_by_count_perm (e : label * Z) (l : list (label * Z)) :
  Permutation (e :: l) (pd.insert_by_count e l).
Proof.
  induction l as [|y l IH]; simpl; [reflexivity|].
  destruct (snd y <=? snd e); [reflexivity|].
  rewrite perm_swap. constructor. assumption.
Qed.

Lemma sort_by_count_perm (l : list (label * Z)) :
  Permutation l (pd.sort_by_count l).
Proof.
  induction l as [|e l IH]; simpl; [constructor|].
  rewrite <- insert_by_count_perm. constructor. assumption.
Qed.

Lemma index_value_counts (c : pd.Series) (k : label) :
  In k (pd.index (pd.value_counts c)) <-> In (Some k) (pd.keys c).
Proof.
  unfold pd.index, pd.value_counts. cbn [pd.items].
  rewrite <- In_dropna,
    <- (In_unique pd.label_eqb label_eqb_eq k (pd.dropna (pd.keys c))).
  set (l0 := map _ (pd.unique _ _)).
  assert (E : map fst l0 = pd.unique pd.label_eqb (pd.dropna (pd.keys c))).
  { unfold l0. rewrite map_map. simpl. apply map_id. }
  rewrite <- E.
  split; apply Permutation_in; [symmetry|]; apply Permutation_map, sort_by_count_perm.
Qed.

Lemma count_label_positive (k : label) (l : list label) :
  In k l -> 1 <= pd.count_label k l.
Proof.
  intros H. unfold pd.count_label.
  assert (Hin : In k (filter (pd.label_eqb k) l)).
  { apply filter_In. split; [assumption | apply label_eqb_refl]. }
  destruct (filter (pd.label_eqb k) l); [contradiction | simpl; lia].
Qed.

Lemma Zsum_positive (l : list Z) :
  Forall (fun z => 1 <= z) l -> l <> [] -> 1 <= pd.Zsum l.
Proof.
  intros H N. destruct H as [|z l Hz Hl]; [congruence|].
  clear N. simpl. revert z Hz.
  induction Hl as [|y l Hy _ IH]; intros z Hz; simpl; [lia|].
  specialize (IH y Hy). simpl in IH. lia.
Qed.

Lemma value_counts_total_positive (c : pd.Series) :
  (exists k, In (Some k) (pd.keys c)) ->
  1 <= pd.Zsum (map snd (pd.items (pd.value_counts c))).
Proof.
  intros [k Hk]. unfold pd.value_counts. cbn [pd.items].
  set (present := pd.dropna (pd.keys c)).
  set (l0 := map (fun k0 => (k0, pd.count_label k0 present))
                 (pd.unique pd.label_eqb present)).
  pose proof (sort_by_count_perm l0) as P.
  apply Zsum_positive.
  - apply Forall_forall. intros z Hz. apply in_map_iff in Hz.
    destruct Hz as [kv [<- Hkv]].
    apply (Permutation_in _ (Permutation_sym P)) in Hkv.
    unfold l0 in Hkv. apply in_map_iff in Hkv. destruct Hkv as [k0 [<- Hk0]].
    simpl. apply count_label_positive.
    apply (In_unique pd.label_eqb label_eqb_eq k0 present). assumption.
  - intros E. apply map_eq_nil in E. rewrite E in P.
    apply Permutation_sym, Permutation_nil in P.
    unfold l0 in P. apply map_eq_nil in P.
    assert (Hin : In k (pd.unique pd.label_eqb present)).
    { apply (In_unique pd.label_eqb label_eqb_eq). apply In_dropna. assumption. }
    rewrite P in Hin. contradiction.
Qed.

Lemma fadd_fin (a b : Q) : np.fadd (np.fin a) (np.fin b) = np.fin (a + b).
Proof.
  unfold np.fin at 1 2. simpl. apply fin_eq. rewrite !Qred_correct. reflexivity.
Qed.

Lemma fold_fadd_fin {A} (g : A -> Q) (l : list A) :
  fold_right np.fadd (np.Fin 0) (map (fun x => np.fin (g x)) l)
  = np.fin (pd.Qsum (map g l)).
Proof.
  induction l as [|x l IH]; simpl; [reflexivity|].
  rewrite IH. apply fadd_fin.
Qed.

Lemma Qsum_shares (t : Q) (l : list (label * Z)) :
  (pd.Qsum (map (fun kv => Qred (inject_Z (snd kv) / t) * inject_Z 100) l)
   == inject_Z (pd.Zsum (map snd l)) / t * 100)%Q.
Proof.
  unfold pd.Qsum, pd.Zsum.
  induction l as [|kv l IH]; cbn [map fold_right].
  - unfold Qdiv. rewrite !Qmult_0_l. reflexivity.
  - rewrite IH, Qred_correct, inject_Z_plus. unfold Qdiv.
    change (inject_Z 100) with 100%Q. ring.
Qed.

(** C8: on a non-empty table in which no row has a missing [Sex],
    the percentages of [calculate_gender_proportion], one per [Sex] value
    present, sum to 100 (in exact arithmetic: rounding is not modelled). *)
Theorem gender_proportions_sum_to_100 (df : pd.DataFrame) (sex : pd.Series) :
  pd.wf df ->
  pd.nrows df <> 0%nat ->
  pd.column df "Sex" = Some sex ->
  no_missing sex ->
  exists shares,
    fst (calculate_gender_proportion df) = Return shares
    /\ (forall k, In k (pd.index shares) <-> In (Some k) (pd.keys sex))
    /\ total_percent shares = np.Fin 100.
Proof.
  intros Hwf Hn Hc Hmiss.
  eexists. split; [|split].
  - unfold calculate_gender_proportion, df_getitem, bind, get_state, ret, lift,
      pd.getitem.
    cbv beta. rewrite Hc. reflexivity.
  - intros k. rewrite index_percent.
    unfold pd.value_counts_normalize, pd.map_values, pd.index. cbn [pd.items].
    rewrite map_map. cbn [fst]. apply index_value_counts.
  - assert (Hpos : 1 <= pd.Zsum (map snd (pd.items (pd.value_counts sex)))).
    { apply value_counts_total_positive.
      pose proof (wf_column df _ _ Hwf Hc) as Hsize.
      assert (Hlen : List.length (pd.keys sex) = pd.size sex).
      { destruct sex; simpl; apply length_map. }
      destruct (pd.keys sex) as [|[k|] ks] eqn:K.
      - simpl in Hlen. congruence.
      - exists k. left. reflexivity.
      - exfalso. apply Hmiss. rewrite K. left. reflexivity. }
    unfold total_percent, percent, pd.value_counts_normalize, pd.map_values.
    cbn [pd.items]. rewrite !map_map. cbn [snd].
    set (t := pd.Zsum (map snd (pd.items (pd.value_counts sex)))) in *.
    assert (E : (t =? 0) = false) by (apply Z.eqb_neq; lia).
    unfold np.fdiv. rewrite E. unfold np.fin at 1, np.fmul.
    rewrite (fold_fadd_fin
      (fun kv => (Qred (np.of_int (snd kv) / np.of_int t) * np.of_int 100)%Q)).
    change (np.Fin 100) with (np.fin 100). apply fin_eq.
    unfold np.of_int. rewrite Qsum_shares. fold t.
    unfold Qdiv. rewrite Qmult_inv_r; [reflexivity|].
    unfold Qeq. simpl. lia.
Qed.

(** ** Category order *)

Lemma string_compare_le_trans (a b c : string) :
  String.compare a b <> Gt -> String.compare b c <> Gt -> String.compare a c <> Gt.
Proof.
  revert b c. induction a as [|x a IH]; intros [|y b] [|z c]; simpl;
    try congruence.
  unfold Ascii.compare.
  destruct (N.compare_spec (N_of_ascii x) (N_of_ascii y)) as [E1|L1|G1];
    destruct (N.compare_spec (N_of_ascii y) (N_of_ascii z)) as [E2|L2|G2];
    destruct (N.compare_spec (N_of_ascii x) (N_of_ascii z)) as [E3|L3|G3];
    try congruence; try lia.
  apply IH.
Qed.

Lemma label_le_trans : Transitive label_le.
Proof.
  intros a b c. unfold label_le, pd.label_leb.
  destruct a as [x|x|x], b as [y|y|y], c as [z|z|z]; simpl;
    try congruence; try discriminate.
  - destruct (Z.compare_spec x y), (Z.compare_spec y z), (Z.compare_spec x z);
      try congruence; lia.
  - destruct (Qcompare_spec x y) as [E1|L1|G1];
      destruct (Qcompare_spec y z) as [E2|L2|G2];
      destruct (Qcompare_spec x z) as [E3|L3|G3]; try congruence; exfalso.
    + rewrite E1, E2 in G3. apply (Qlt_irrefl z), G3.
    + rewrite E1 in G3. apply (Qlt_irrefl y), (Qlt_trans _ _ _ L2 G3).
    + rewrite <- E2 in G3. apply (Qlt_irrefl x), (Qlt_trans _ _ _ L1 G3).
    + apply (Qlt_irrefl x), (Qlt_trans _ _ _ (Qlt_trans _ _ _ L1 L2) G3).
  - intros H1 H2.
    destruct (String.compare x y) eqn:C1; try discriminate;
      destruct (String.compare y z) eqn:C2; try discriminate;
      destruct (String.compare x z) eqn:C3; try reflexivity;
      exfalso; apply (string_compare_le_trans x y z); congruence.
Qed.

Lemma label_leb_total (a b : label) :
  pd.label_leb a b = false -> pd.label_leb b a = true.
Proof.
  unfold pd.label_leb.
  destruct a as [x|x|x], b as [y|y|y]; simpl; try congruence.
  - rewrite (Z.compare_antisym x y). destruct (x ?= y); simpl; congruence.
  - rewrite <- (Qcompare_antisym x y). destruct (x ?= y)%Q; simpl; congruence.
  - rewrite (String.compare_antisym y x).
    destruct (String.compare x y); simpl; congruence.
Qed.

Lemma insert_label_sorted (k : label) (l : list label) :
  Sorted label_le l -> Sorted label_le (pd.insert_label k l).
Proof.
  induction 1 as [|y l Hl IH Hy]; simpl.
  - repeat constructor.
  - destruct (pd.label_leb k y) eqn:E.
    + repeat constructor; assumption.
    + constructor; [assumption|].
      destruct Hy as [|z l Hz]; simpl.
      * repeat constructor. apply label_leb_total, E.
      * destruct (pd.label_leb k z); constructor;
          [apply label_leb_total, E | assumption].
Qed.

Lemma group_keys_sorted (c : pd.Series) :
  StronglySorted label_le (pd.group_keys c).
Proof.
  apply Sorted_StronglySorted; [apply label_le_trans|].
  unfold pd.group_keys.
  induction (pd.unique pd.label_eqb (pd.dropna (pd.keys c))) as [|k l IH]; simpl.
  - constructor.
  - apply insert_label_sorted, IH.
Qed.

(** ** The class with the highest rate *)

Lemma float_ltb_fin (a b : Q) :
  pd.float_ltb (np.Fin a) (np.Fin b) = true <-> (a < b)%Q.
Proof.
  simpl. rewrite Qlt_alt. destruct (a ?= b)%Q; split; congruence.
Qed.

Lemma float_ltb_fin_false (a b : Q) :
  pd.float_ltb (np.Fin a) (np.Fin b) = false <-> (b <= a)%Q.
Proof.
  rewrite <- not_true_iff_false, float_ltb_fin. split.
  - apply Qnot_lt_le.
  - intros H L. apply (Qlt_irrefl a), (Qlt_le_trans _ _ _ L H).
Qed.

Lemma argmax_from (kb : label) (qb : Q) (l : list (label * np.float64)) :
  Forall (fun kv => finite (snd kv) \/ snd kv = np.NaN) l ->
  (pd.argmax (Some (kb, np.Fin qb)) l = Some (kb, np.Fin qb)
   /\ forall k q, In (k, np.Fin q) l -> (q <= qb)%Q)
  \/ exists before k q after,
       l = (before ++ (k, np.Fin q) :: after)%list
       /\ pd.argmax (Some (kb, np.Fin qb)) l = Some (k, np.Fin q)
       /\ (qb < q)%Q
       /\ (forall k' q', In (k', np.Fin q') before -> (q' < q)%Q)
       /\ (forall k' q', In (k', np.Fin q') after -> (q' <= q)%Q).
Proof.
  intros H. revert kb qb.
  induction H as [|[k1 v1] l [[q1 E1]|E1] _ IH]; intros kb qb.
  - left. split; [reflexivity | intros k q []].
  - simpl in E1. subst v1. cbn [pd.argmax pd.is_nan].
    destruct (pd.float_ltb (np.Fin qb) (np.Fin q1)) eqn:L.
    + apply float_ltb_fin in L. right.
      destruct (IH k1 q1) as [[A B] | (before & k & q & after & E & A & L1 & B & C)].
      * exists [], k1, q1, l. repeat split; try assumption.
        intros k' q' [].
      * exists ((k1, np.Fin q1) :: before), k, q, after. subst l.
        repeat split; try assumption.
        -- apply (Qlt_trans _ _ _ L L1).
        -- intros k' q' [H|H]; [|apply (B k' q' H)].
           injection H as _ <-. assumption.
    + apply float_ltb_fin_false in L.
      destruct (IH kb qb) as [[A B] | (before & k & q & after & E & A & L1 & B & C)].
      * left. split; [assumption|].
        intros k q [H|H]; [|apply (B k q H)]. injection H as _ <-. assumption.
      * right. exists ((k1, np.Fin q1) :: before), k, q, after. subst l.
        repeat split; try assumption.
        intros k' q' [H|H]; [|apply (B k' q' H)].
        injection H as _ <-. apply (Qle_lt_trans _ _ _ L L1).
  - simpl in E1. subst v1. cbn [pd.argmax pd.is_nan].
    destruct (IH kb qb) as [[A B] | (before & k & q & after & E & A & L1 & B & C)].
    + left. split; [assumption|].
      intros k q [H|H]; [discriminate H | apply (B k q H)].
    + right. exists ((k1, np.NaN) :: before), k, q, after. subst l.
      repeat split; try assumption.
      intros k' q' [H|H]; [discriminate H | apply (B k' q' H)].
Qed.

Lemma argmax_first_maximum (l : list (label * np.float64)) :
  Forall (fun kv => finite (snd kv) \/ snd kv = np.NaN) l ->
  (exists k q, In (k, np.Fin q) l) ->
  exists before k q after,
    l = (before ++ (k, np.Fin q) :: after)%list
    /\ pd.argmax None l = Some (k, np.Fin q)
    /\ (forall k' q', In (k', np.Fin q') before -> (q' < q)%Q)
    /\ (forall k' q', In (k', np.Fin q') after -> (q' <= q)%Q).
Proof.
  induction 1 as [|[k1 v1] l [[q1 E1]|E1] H IH]; intros (k0 & q0 & Hin).
  - contradiction.
  - simpl in E1. subst v1. cbn [pd.argmax pd.is_nan].
    destruct (argmax_from k1 q1 l H)
      as [[A B] | (before & k & q & after & E & A & L1 & B & C)].
    + exists [], k1, q1, l. repeat split; try assumption. intros k' q' [].
    + exists ((k1, np.Fin q1) :: before), k, q, after. subst l.
      repeat split; try assumption.
      intros k' q' [H'|H']; [|apply (B k' q' H')].
      injection H' as _ <-. assumption.
  - simpl in E1. subst v1. cbn [pd.argmax pd.is_nan].
    destruct Hin as [Hin|Hin]; [discriminate Hin|].
    destruct IH as (before & k & q & after & E & A & B & C);
      [exists k0, q0; assumption|].
    exists ((k1, np.NaN) :: before), k, q, after. subst l.
    repeat split; try assumption.
    intros k' q' [H'|H']; [discriminate H' | apply (B k' q' H')].
Qed.

Lemma sequence_return {A} (l : list (outcome A)) (vs : list A) :
  pd.sequence l = Return vs -> l = map Return vs.
Proof.
  revert vs. induction l as [|[a|e] l IH]; intros vs; simpl.
  - intros H. injection H as <-. reflexivity.
  - destruct (pd.sequence l) as [rest|e]; simpl; [|discriminate].
    intros H. injection H as <-. simpl. f_equal. apply IH. reflexivity.
  - discriminate.
Qed.

Lemma in_combine_exists {A B} (x : A) (a : list A) (b : list B) :
  List.length a = List.length b -> In x a -> exists y, In (x, y) (combine a b).
Proof.
  revert b. induction a as [|x' a IH]; intros [|y b] Hlen Hin; simpl in *;
    try contradiction; try discriminate.
  destruct Hin as [->|Hin].
  - exists y. left. reflexivity.
  - destruct (IH b) as [y' Hy']; [lia | assumption |]. exists y'. right. assumption.
Qed.

Lemma length_keys (c : pd.Series) : List.length (pd.keys c) = pd.size c.
Proof. destruct c; simpl; apply length_map. Qed.

Lemma length_numbers (c : pd.Series) : List.length (pd.numbers c) = pd.size c.
Proof. destruct c; simpl; apply length_map. Qed.

Lemma numbers_no_missing (c : pd.Series) (v : option Q) :
  no_missing c -> In (Return v) (pd.numbers c) -> exists q, v = Some q.
Proof.
  unfold no_missing. destruct c as [l|l|l]; simpl; intros Hm Hin;
    apply in_map_iff in Hin; destruct Hin as [x [E Hx]]; cbv beta in E.
  - injection E as <-. eexists; reflexivity.
  - injection E as <-. destruct x as [q|]; [eexists; reflexivity|].
    exfalso. apply Hm. apply in_map_iff. exists None. split; [reflexivity | assumption].
  - destruct x as [s|]; [discriminate|].
    exfalso. apply Hm. apply in_map_iff. exists None. split; [reflexivity | assumption].
Qed.

Lemma mean_finite (vs : list (option Q)) :
  vs <> [] -> (forall v, In v vs -> exists q, v = Some q) -> finite (pd.mean vs).
Proof.
  intros N H. destruct vs as [|v vs]; [congruence|].
  destruct (H v (or_introl eq_refl)) as [q ->].
  unfold pd.mean. cbn [pd.dropna]. eexists. reflexivity.
Qed.

Lemma groupby_mean_finite (by_ val : pd.Series) (rates : pd.Indexed np.float64) :
  pd.size by_ = pd.size val ->
  no_missing val ->
  pd.groupby_mean by_ val = Return rates ->
  Forall (fun kv => finite (snd kv)) (pd.items rates).
Proof.
  intros Hsize Hm. unfold pd.groupby_mean.
  set (rows := combine (pd.keys by_) (pd.numbers val)).
  destruct (pd.sequence _) as [entries|e] eqn:E; simpl; [|discriminate].
  intros H. injection H as <-. cbn [pd.items].
  apply sequence_keyed in E. destruct E as [Hkeys Hall].
  rewrite Forall_forall in Hall. apply Forall_forall. intros [k m] Hkm.
  specialize (Hall _ Hkm). cbn [fst snd] in *.
  assert (Hk : In (Some k) (pd.keys by_)).
  { apply In_group_keys. rewrite <- Hkeys. apply (in_map fst _ _ Hkm). }
  destruct (in_combine_exists (Some k) (pd.keys by_) (pd.numbers val)) as [v Hv];
    [rewrite length_keys, length_numbers; assumption | assumption |].
  unfold pd.group_mean in Hall.
  destruct (pd.sequence (pd.select k rows)) as [vs|e] eqn:S; simpl in Hall;
    [|discriminate].
  injection Hall as <-. apply sequence_return in S.
  apply mean_finite.
  - intros ->. simpl in S. apply (In_select k v rows) in Hv.
    rewrite S in Hv. contradiction.
  - intros v' Hv'. apply (numbers_no_missing val v' Hm).
    apply (in_map Return) in Hv'. rewrite <- S in Hv'.
    apply In_select, in_combine_r in Hv'. assumption.
Qed.

Lemma percent_finite (s : pd.Indexed np.float64) :
  Forall (fun kv => finite (snd kv)) (pd.items s) ->
  Forall (fun kv => finite (snd kv)) (pd.items (percent s)).
Proof.
  intros H. unfold percent, pd.map_values. cbn [pd.items].
  apply Forall_map. apply (Forall_impl _ (P := fun kv => finite (snd kv))); [|assumption].
  intros kv [q E]. cbn [snd]. rewrite E. eexists. reflexivity.
Qed.

Lemma lookup_first {V} (s : pd.Indexed V) (before after : list (label * V))
    (k : label) (v : V) :
  pd.items s = (before ++ (k, v) :: after)%list ->
  NoDup (pd.index s) ->
  pd.lookup k s = Some v.
Proof.
  unfold pd.lookup, pd.index. intros -> N.
  rewrite map_app in N. cbn [map fst] in N.
  apply NoDup_remove_2 in N.
  induction before as [|[k' v'] before IH]; simpl.
  - rewrite label_eqb_refl. reflexivity.
  - destruct (pd.label_eqb k' k) eqn:E.
    + apply label_eqb_eq in E. subst k'. exfalso. apply N. left. reflexivity.
    + apply IH. intros H. apply N. right. assumption.
Qed.

Lemma mean_number_or_nan (vs : list (option Q)) :
  finite (pd.mean vs) \/ pd.mean vs = np.NaN.
Proof.
  unfold pd.mean. destruct (pd.dropna vs); [right; reflexivity|].
  left. eexists. reflexivity.
Qed.

Lemma groupby_mean_numbers_or_nan (by_ val : pd.Series)
    (rates : pd.Indexed np.float64) :
  pd.groupby_mean by_ val = Return rates ->
  Forall (fun kv => finite (snd kv) \/ snd kv = np.NaN) (pd.items rates).
Proof.
  unfold pd.groupby_mean.
  destruct (pd.sequence _) as [entries|e] eqn:E; cbn [obind]; [|discriminate].
  intros H. injection H as <-. cbn [pd.items].
  apply sequence_keyed in E. destruct E as [_ Hall].
  apply (Forall_impl _ (P := fun km =>
           pd.group_mean (fst km) (combine (pd.keys by_) (pd.numbers val))
           = Return (snd km))); [|assumption].
  intros [k m] Hm. cbn [fst snd] in *. unfold pd.group_mean in Hm.
  destruct (pd.sequence _) as [vs|e]; cbn [obind] in Hm; [|discriminate].
  injection Hm as <-. apply mean_number_or_nan.
Qed.

Lemma percent_numbers_or_nan (s : pd.Indexed np.float64) :
  Forall (fun kv => finite (snd kv) \/ snd kv = np.NaN) (pd.items s) ->
  Forall (fun kv => finite (snd kv) \/ snd kv = np.NaN) (pd.items (percent s)).
Proof.
  intros H. unfold percent, pd.map_values. cbn [pd.items].
  apply Forall_map.
  apply (Forall_impl _ (P := fun kv => finite (snd kv) \/ snd kv = np.NaN));
    [|assumption].
  intros kv [[q E]|E]; cbn [snd]; rewrite E;
    [left; eexists; reflexivity | right; reflexivity].
Qed.

(** Without missing outcomes every class of a non-empty mapping has a
    number as its rate. *)
Lemma rates_without_missing_outcomes
    (df : pd.DataFrame) (pclass survived : pd.Series)
    (class_survival_rate : pd.Indexed np.float64) :
  pd.wf df ->
  pd.column df "Pclass" = Some pclass ->
  pd.column df "Survived" = Some survived ->
  no_missing survived ->
  fst (calculate_class_survival_rate df) = Return class_survival_rate ->
  pd.items class_survival_rate <> [] ->
  exists k r, In (k, np.Fin r) (pd.items class_survival_rate).
Proof.
  intros Hwf Hp Hs Hm Hr Hne.
  rewrite (class_survival_rate_run df pclass survived Hp Hs) in Hr.
  cbn [fst] in Hr.
  destruct (pd.groupby_mean pclass survived) as [rates|e] eqn:G; [|discriminate].
  injection Hr as <-.
  assert (Hfin : Forall (fun kv => finite (snd kv)) (pd.items (percent rates))).
  { apply percent_finite, (groupby_mean_finite pclass survived); try assumption.
    rewrite (wf_column df _ _ Hwf Hp), (wf_column df _ _ Hwf Hs). reflexivity. }
  destruct (pd.items (percent rates)) as [|[k v] l]; [congruence|].
  inversion Hfin as [|? ? [q E] _]; subst. cbn [snd] in E. subst v.
  exists k, q. left. reflexivity.
Qed.

(** ** The main sequence *)

Lemma bind_return {S A B} (c : M S A) (k : A -> M S B) (s s' : S) (a : A) :
  c s = (Return a, s') -> bind c k s = k a s'.
Proof. intros H. unfold bind. rewrite H. reflexivity. Qed.

Lemma bind_raise {S A B} (c : M S A) (k : A -> M S B) (s s' : S) (e : exc) :
  c s = (Raise e, s') -> bind c k s = (Raise e, s').
Proof. intros H. unfold bind. rewrite H. reflexivity. Qed.


Lemma keeps_table_bind {A B} (c : M (pd.DataFrame * console) A)
    (k : A -> M (pd.DataFrame * console) B) :
  keeps_table c -> (forall a, keeps_table (k a)) -> keeps_table (bind c k).
Proof.
  intros Hc Hk st. unfold bind. specialize (Hc st).
  destruct (c st) as [[a|e] st']; simpl in *; [|assumption].
  rewrite Hk. assumption.
Qed.

Lemma keeps_table_call {A} (c : M pd.DataFrame A) :
  read_only c -> keeps_table (call c).
Proof.
  intros H st. unfold call. specialize (H (fst st)).
  destruct (c (fst st)) as [r s']. simpl in *. assumption.
Qed.

Lemma keeps_table_print (l : list piece) : keeps_table (print l).
Proof. intros st. reflexivity. Qed.

Lemma keeps_table_lift {A} (r : outcome A) :
  keeps_table (@lift (pd.DataFrame * console) A r).
Proof. intros st. reflexivity. Qed.

Ltac keeps_table :=
  repeat first
    [ apply keeps_table_print | apply keeps_table_lift
    | apply keeps_table_call;
      first [ apply read_only_calculate_survival_rate
            | apply read_only_calculate_gender_proportion
            | apply read_only_calculate_class_survival_rate
            | apply read_only_count_siblings_spouses_aboard
            | apply read_only_calculate_average_fare_by_class ]
    | apply keeps_table_bind; [|intros ?] ].







Lemma getitem_str_cases {V} (s : pd.Indexed V) (key : string) :
  (In (LStr key) (pd.index s) /\ exists v, pd.getitem_str s key = Return v)
  \/ (~ In (LStr key) (pd.index s)
      /\ pd.getitem_str s key = Raise (KeyError (LStr key))).
Proof.
  unfold pd.getitem_str.
  destruct (pd.lookup (LStr key) s) as [v|] eqn:L.
  - left. split; [|eexists; reflexivity].
    unfold pd.lookup in L. destruct (find _ _) as [kv|] eqn:F; [|discriminate].
    apply find_some in F. destruct F as [Hin E]. apply label_eqb_eq in E.
    rewrite <- E. apply in_map, Hin.
  - right. split; [|reflexivity].
    intros H. destruct (lookup_present _ _ H) as [v E]. congruence.
Qed.

Lemma gender_proportion_run (df : pd.DataFrame) (sex : pd.Series) :
  pd.column df "Sex" = Some sex ->
  calculate_gender_proportion df
  = (Return (percent (pd.value_counts_normalize sex)), df).
Proof.
  intros Hc.
  unfold calculate_gender_proportion, df_getitem, bind, get_state, ret, lift,
    pd.getitem.
  cbv beta. rewrite Hc. reflexivity.
Qed.

Lemma index_gender_proportion (sex : pd.Series) (k : label) :
  In k (pd.index (percent (pd.value_counts_normalize sex)))
  <-> In (Some k) (pd.keys sex).
Proof.
  rewrite index_percent.
  unfold pd.value_counts_normalize, pd.map_values, pd.index. cbn [pd.items].
  rewrite map_map. cbn [fst]. apply index_value_counts.
Qed.

Lemma passengers_by_port_run (df : pd.DataFrame) (embarked : pd.Series) :
  pd.column df "Embarked" = Some embarked ->
  count_passengers_by_port df = (Return (pd.value_counts embarked), df).
Proof.
  intros Hc.
  unfold count_passengers_by_port, df_getitem, bind, get_state, ret, lift,
    pd.getitem.
  cbv beta. rewrite Hc. reflexivity.
Qed.






(** ** The class the main sequence names *)

Lemma class_survival_rate_returns (df : pd.DataFrame)
    (class_survival_rate : pd.Indexed np.float64) :
  fst (calculate_class_survival_rate df) = Return class_survival_rate ->
  calculate_class_survival_rate df = (Return class_survival_rate, df)
  /\ exists pclass survived rates,
       pd.groupby_mean pclass survived = Return rates
       /\ class_survival_rate = percent rates
       /\ pd.index rates = pd.group_keys pclass.
Proof.
  unfold calculate_class_survival_rate, df_groupby_mean, df_groupby_getitem,
    df_getitem, bind, get_state, ret, lift, raise, pd.getitem.
  cbv beta. destruct (pd.column df "Pclass") as [pclass|]; cbv iota beta;
    [|discriminate].
  destruct (pd.column df "Survived") as [survived|]; cbv iota beta;
    [|discriminate].
  destruct (pd.groupby_mean pclass survived) as [rates|e] eqn:G; cbn [fst];
    [|discriminate].
  intros H. injection H as <-. split; [reflexivity|].
  exists pclass, survived, rates. split; [assumption|]. split; [reflexivity|].
  apply (groupby_mean_index _ _ _ G).
Qed.

Lemma q3_prints (df : pd.DataFrame) (out : console)
    (class_survival_rate : pd.Indexed np.float64)
    (highest_survival_class : option label)
    (first_class second_class third_class : np.float64) :
  calculate_class_survival_rate df = (Return class_survival_rate, df) ->
  pd.idxmax class_survival_rate = Return highest_survival_class ->
  pd.getitem_int class_survival_rate 1 = Return first_class ->
  pd.getitem_int class_survival_rate 2 = Return second_class ->
  pd.getitem_int class_survival_rate 3 = Return third_class ->
  q3_class_survival_rate (df, out)
  = (Return tt,
     (df, printed (printed out
                     (class_rates_line first_class second_class third_class))
                  (highest_class_line highest_survival_class))).
Proof.
  intros Hrun Hmax H1 H2 H3.
  unfold q3_class_survival_rate, bind, call, lift. cbn [fst snd].
  rewrite Hrun, Hmax, H1, H2, H3. reflexivity.
Qed.

Lemma q3_returns_only_after_lookups (df : pd.DataFrame) (out : console)
    (class_survival_rate : pd.Indexed np.float64)
    (highest_survival_class : option label)
    (st : pd.DataFrame * console) :
  calculate_class_survival_rate df = (Return class_survival_rate, df) ->
  pd.idxmax class_survival_rate = Return highest_survival_class ->
  q3_class_survival_rate (df, out) = (Return tt, st) ->
  exists first_class second_class third_class,
    pd.getitem_int class_survival_rate 1 = Return first_class
    /\ pd.getitem_int class_survival_rate 2 = Return second_class
    /\ pd.getitem_int class_survival_rate 3 = Return third_class.
Proof.
  intros Hrun Hmax.
  unfold q3_class_survival_rate, bind, call, lift. cbn [fst snd].
  rewrite Hrun, Hmax.
  destruct (pd.getitem_int class_survival_rate 1) as [v1|e]; [|discriminate].
  destruct (pd.getitem_int class_survival_rate 2) as [v2|e]; [|discriminate].
  destruct (pd.getitem_int class_survival_rate 3) as [v3|e]; [|discriminate].
  intros _. exists v1, v2, v3. repeat split.
Qed.

(** C5 (as amended): on a table on which some class has a number as its
    per-class survival rate, the class that the main sequence identifies
    and prints as the one with the highest survival rate is a class of the
    mapping whose rate no rate of the mapping exceeds, and every class
    before it in category order has a strictly smaller rate: among the
    classes that share the maximum it is the first. *)
Theorem highest_survival_class_is_first_maximum
    (df : pd.DataFrame) (out : console)
    (class_survival_rate : pd.Indexed np.float64) :
  fst (calculate_class_survival_rate df) = Return class_survival_rate ->
  (exists k r, In (k, np.Fin r) (pd.items class_survival_rate)) ->
  exists before k r after,
    pd.items class_survival_rate = (before ++ (k, np.Fin r) :: after)%list
    /\ pd.idxmax class_survival_rate = Return (Some k)
    /\ pd.lookup k class_survival_rate = Some (np.Fin r)
    /\ (forall k' r', In (k', np.Fin r') (pd.items class_survival_rate) ->
          (r' <= r)%Q)
    /\ (forall k' r', In (k', np.Fin r') before -> (r' < r)%Q)
    /\ StronglySorted label_le (pd.index class_survival_rate)
    /\ (forall first_class second_class third_class,
          pd.getitem_int class_survival_rate 1 = Return first_class ->
          pd.getitem_int class_survival_rate 2 = Return second_class ->
          pd.getitem_int class_survival_rate 3 = Return third_class ->
          q3_class_survival_rate (df, out)
          = (Return tt,
             (df, printed (printed out
                             (class_rates_line first_class second_class
                                third_class))
                          (highest_class_line (Some k)))))
    /\ (forall st,
          q3_class_survival_rate (df, out) = (Return tt, st) ->
          exists line,
            stdout (snd st)
            = (stdout out ++ [line; highest_class_line (Some k)])%list).
Proof.
  intros Hr Hnum.
  destruct (class_survival_rate_returns df _ Hr)
    as (Hrun & pclass & survived & rates & G & -> & Hkeys).
  assert (Hvals : Forall (fun kv => finite (snd kv) \/ snd kv = np.NaN)
                    (pd.items (percent rates))).
  { apply percent_numbers_or_nan, (groupby_mean_numbers_or_nan _ _ _ G). }
  assert (Hidx : pd.index (percent rates) = pd.group_keys pclass).
  { rewrite index_percent. assumption. }
  destruct (argmax_first_maximum _ Hvals Hnum)
    as (before & k & q & after & E & A & B & C).
  assert (Hmax : pd.idxmax (percent rates) = Return (Some k)).
  { unfold pd.idxmax. destruct (pd.items (percent rates)).
    - destruct before; discriminate E.
    - rewrite A. reflexivity. }
  exists before, k, q, after.
  split; [assumption|]. split; [assumption|]. split.
  { apply (lookup_first _ before after); [assumption|].
    rewrite Hidx. apply NoDup_group_keys. }
  split.
  { intros k' r' Hin. rewrite E in Hin.
    apply in_app_or in Hin. destruct Hin as [H|[H|H]].
    - apply Qlt_le_weak, (B k' r' H).
    - injection H as _ <-. apply Qle_refl.
    - apply (C k' r' H). }
  split; [assumption|].
  split; [rewrite Hidx; apply group_keys_sorted|].
  split.
  - intros v1 v2 v3 H1 H2 H3. apply (q3_prints df out _ _ _ _ _ Hrun Hmax H1 H2 H3).
  - intros st Hst.
    destruct (q3_returns_only_after_lookups df out _ _ st Hrun Hmax Hst)
      as (v1 & v2 & v3 & H1 & H2 & H3).
    rewrite (q3_prints df out _ _ _ _ _ Hrun Hmax H1 H2 H3) in Hst.
    injection Hst as <-. exists (class_rates_line v1 v2 v3).
    unfold printed. cbn [snd stdout]. rewrite <- app_assoc. reflexivity.
Qed.

(** C5 (as stated) fails: when every outcome is missing the per-class
    mapping is not empty, yet [idxmax] names no class and the main
    sequence prints [nan] as the class with the highest survival rate. *)
Lemma all_outcomes_missing_names_no_class :
  fst (calculate_class_survival_rate outcomes_unknown)
  = Return outcomes_unknown_rates
  /\ pd.items outcomes_unknown_rates <> []
  /\ pd.idxmax outcomes_unknown_rates = Return None
  /\ q3_class_survival_rate (outcomes_unknown, silent)
     = (Return tt,
        (outcomes_unknown,
         printed (printed silent (class_rates_line np.NaN np.NaN np.NaN))
                 (highest_class_line None))).
Proof.
  split; [reflexivity|]. split; [discriminate|]. split; reflexivity.
Qed.

(** * The properties on the sample tables *)

Ltac flags :=
  repeat first
    [ apply Forall_nil
    | apply Forall_cons; [first [left; reflexivity | right; reflexivity | reflexivity]|] ].

Ltac absent := simpl; intros H; repeat destruct H as [H|H]; try discriminate H; exact H.

Example end_to_end_survival_rate :
  fst (calculate_survival_rate two_passengers) = Return (np.Float64 (np.Fin 50)).
Proof. reflexivity. Qed.

Example end_to_end_gender_proportion :
  fst (calculate_gender_proportion two_passengers)
  = Return (pd.mkIndexed pd.object
              [(LStr "female", np.Fin 50); (LStr "male", np.Fin 50)]).
Proof. reflexivity. Qed.

Example end_to_end_class_survival_rate :
  fst (calculate_class_survival_rate two_passengers)
  = Return (pd.mkIndexed pd.int64 [(LInt 1, np.Fin 100); (LInt 3, np.Fin 0)]).
Proof. reflexivity. Qed.

Example end_to_end_siblings_spouses :
  fst (count_siblings_spouses_aboard two_passengers) = Return (np.Int64 1).
Proof. reflexivity. Qed.

Example end_to_end_average_fare :
  fst (calculate_average_fare_by_class two_passengers)
  = Return (pd.mkIndexed pd.int64 [(LInt 1, np.Fin 100); (LInt 3, np.Fin 10)]).
Proof. reflexivity. Qed.

Example end_to_end_ports :
  fst (count_passengers_by_port two_passengers)
  = Return (pd.mkIndexed pd.object [(LStr "C", 1); (LStr "S", 1)]).
Proof. reflexivity. Qed.

Example end_to_end_unique_tickets :
  fst (count_unique_tickets two_passengers) = Return (np.PyInt 2).
Proof. reflexivity. Qed.

Example three_classes_survival_rates :
  fst (calculate_class_survival_rate three_classes) = Return three_classes_rates
  /\ pd.idxmax three_classes_rates = Return (Some (LInt 1)).
Proof. split; reflexivity. Qed.

Example three_classes_highest_class :
  q3_class_survival_rate (three_classes, silent)
  = (Return tt,
     (three_classes,
      printed (printed silent
                 (class_rates_line (np.Fin 100) (np.Fin 100) (np.Fin 0)))
              (highest_class_line (Some (LInt 1))))).
Proof. reflexivity. Qed.

Example three_classes_unique_tickets :
  fst (count_unique_tickets three_classes) = Return (np.PyInt 1).
Proof. reflexivity. Qed.

Lemma calculate_survival_rate_percentage_witness :
  fst (calculate_survival_rate all_survived) = Return (np.Float64 (np.Fin 100))
  /\ fst (calculate_survival_rate none_survived) = Return (np.Float64 (np.Fin 0))
  /\ fst (calculate_survival_rate two_passengers)
     = Return (np.Float64
                 (np.fin (percentage (survivors [1; 0]) (pd.len two_passengers)))).
Proof.
  split; [|split].
  - apply (calculate_survival_rate_percentage all_survived [1; 1; 1]);
      [split; [reflexivity | repeat constructor] | discriminate | reflexivity | flags | flags].
  - apply (calculate_survival_rate_percentage none_survived [0; 0]);
      [split; [reflexivity | repeat constructor] | discriminate | reflexivity | flags | flags].
  - apply (calculate_survival_rate_percentage two_passengers [1; 0]);
      [split; [reflexivity | repeat constructor] | discriminate | reflexivity | flags].
Defined.

Lemma missing_file_is_reported_witness :
  load_dataset no_files (parses_to two_passengers) "passengers.csv" (tt, silent)
  = (Return None,
     (tt, printed silent [Text "Error: The file at "; Text "passengers.csv";
                          Text " was not found."]))
  /\ main no_files (parses_to two_passengers) (tt, silent)
     = (Return tt,
        (tt, printed silent [Text "Error: The file at "; Text "./data/Titanic.csv";
                             Text " was not found."])).
Proof.
  split.
  - apply (proj1 (missing_file_is_reported no_files (parses_to two_passengers) silent)).
    reflexivity.
  - apply (proj2 (missing_file_is_reported no_files (parses_to two_passengers) silent)).
    reflexivity.
Defined.

Lemma calculate_survival_rate_zero_rows_raises_witness :
  calculate_survival_rate header_only_table
  = (Raise ZeroDivisionError, header_only_table)
  /\ exists titanic_df_clean,
       load_dataset one_file (parses_to header_only_table) "./data/Titanic.csv"
         (tt, silent)
       = (Return (Some titanic_df_clean), (tt, silent))
       /\ calculate_survival_rate titanic_df_clean
          = (Raise ZeroDivisionError, titanic_df_clean).
Proof.
  destruct (calculate_survival_rate_zero_rows_raises header_only_table
              (pd.ColObject []))
    as (Hraise & _ & Hload).
  - split; [reflexivity | repeat constructor].
  - reflexivity.
  - reflexivity.
  - reflexivity.
  - split; [exact Hraise|].
    apply (Hload one_file (parses_to header_only_table) "./data/Titanic.csv" "csv");
      reflexivity.
Defined.

Lemma calculate_class_survival_rate_keys_witness :
  (exists rates, fst (calculate_class_survival_rate three_classes) = Return rates)
  /\ NoDup (pd.index three_classes_rates)
  /\ pd.lookup (LInt 4) three_classes_rates = None.
Proof.
  pose proof (calculate_class_survival_rate_keys three_classes
                (pd.ColInt64 [2; 1; 3]) (pd.ColInt64 [1; 1; 0]) eq_refl eq_refl)
    as [Hreturns Hkeys].
  split; [apply Hreturns; discriminate|].
  destruct (Hkeys three_classes_rates eq_refl) as (Hnodup & _ & Habsent).
  split; [exact Hnodup|]. apply Habsent. absent.
Defined.

Lemma highest_survival_class_is_first_maximum_witness :
  exists before k r after,
    pd.items three_classes_rates = (before ++ (k, np.Fin r) :: after)%list
    /\ pd.idxmax three_classes_rates = Return (Some k)
    /\ pd.lookup k three_classes_rates = Some (np.Fin r)
    /\ (forall k' r', In (k', np.Fin r') (pd.items three_classes_rates) ->
          (r' <= r)%Q)
    /\ (forall k' r', In (k', np.Fin r') before -> (r' < r)%Q)
    /\ StronglySorted label_le (pd.index three_classes_rates)
    /\ (forall first_class second_class third_class,
          pd.getitem_int three_classes_rates 1 = Return first_class ->
          pd.getitem_int three_classes_rates 2 = Return second_class ->
          pd.getitem_int three_classes_rates 3 = Return third_class ->
          q3_class_survival_rate (three_classes, silent)
          = (Return tt,
             (three_classes,
              printed (printed silent
                         (class_rates_line first_class second_class
                            third_class))
                      (highest_class_line (Some k)))))
    /\ (forall st,
          q3_class_survival_rate (three_classes, silent) = (Return tt, st) ->
          exists line,
            stdout (snd st)
            = (stdout silent ++ [line; highest_class_line (Some k)])%list).
Proof.
  apply (highest_survival_class_is_first_maximum three_classes silent
           three_classes_rates).
  - reflexivity.
  - exists (LInt 1), 100%Q. left. reflexivity.
Defined.


Lemma load_dataset_drops_only_artifact_columns_witness :
  exists titanic_df_clean,
    load_dataset one_file (parses_to with_index_column) "./data/Titanic.csv"
      (tt, silent)
    = (Return (Some titanic_df_clean), (tt, silent))
    /\ pd.columns titanic_df_clean
       = filter (fun nc => negb (contains "Unnamed" (fst nc)))
                (pd.columns with_index_column)
    /\ pd.nrows titanic_df_clean = pd.nrows with_index_column
    /\ (forall nc, In nc (pd.columns titanic_df_clean) <->
          In nc (pd.columns with_index_column)
          /\ ~ exists pre post, fst nc = pre ++ "Unnamed" ++ post)
    /\ (forall name, contains "Unnamed" name = false ->
          pd.column titanic_df_clean name = pd.column with_index_column name).
Proof.
  apply (load_dataset_drops_only_artifact_columns one_file
           (parses_to with_index_column) "./data/Titanic.csv" "csv").
  - reflexivity.
  - reflexivity.
Defined.

Lemma gender_proportions_sum_to_100_witness :
  exists shares,
    fst (calculate_gender_proportion two_passengers) = Return shares
    /\ (forall k, In k (pd.index shares) <->
          In (Some k) (pd.keys (pd.ColObject [Some "female"; Some "male"])))
    /\ total_percent shares = np.Fin 100.
Proof.
  apply (gender_proportions_sum_to_100 two_passengers
           (pd.ColObject [Some "female"; Some "male"])).
  - split; [reflexivity | repeat constructor].
  - discriminate.
  - reflexivity.
  - unfold no_missing. absent.
Defined.

Lemma count_unique_tickets_skips_missing_witness :
  exists distinct : list label,
    fst (count_unique_tickets three_classes)
    = Return (np.PyInt (Z.of_nat (List.length distinct)))
    /\ NoDup distinct
    /\ (forall k, In k distinct <->
          In (Some k) (pd.keys (pd.ColObject [Some "A"; None; Some "A"])))
    /\ pd.nunique (dropna_column (pd.ColObject [Some "A"; None; Some "A"]))
       = pd.nunique (pd.ColObject [Some "A"; None; Some "A"]).
Proof.
  apply (count_unique_tickets_skips_missing three_classes
           (pd.ColObject [Some "A"; None; Some "A"])).
  reflexivity.
Defined.

(** * Further properties *)

(** ** Loading never raises *)

Lemma load_dataset_parsed
    (files : string -> option string) (parse_csv : string -> outcome pd.DataFrame)
    (file_path : string) (titanic_df : pd.DataFrame) (out : console) :
  read_outcome files parse_csv file_path = Return titanic_df ->
  load_dataset files parse_csv file_path (tt, out)
  = (Return (Some (pd.mkDataFrame (pd.nrows titanic_df)
                     (filter (fun nc => negb (contains "Unnamed" (fst nc)))
                             (pd.columns titanic_df)))),
     (tt, out)).
Proof.
  unfold read_outcome. intros H.
  unfold load_dataset, try_except, bind, read_csv, lift, ret, raise.
  destruct (files file_path) as [text|]; [|discriminate].
  rewrite H, drop_artifacts. reflexivity.
Qed.

Lemma load_dataset_failed
    (files : string -> option string) (parse_csv : string -> outcome pd.DataFrame)
    (file_path : string) (e : exc) (out : console) :
  read_outcome files parse_csv file_path = Raise e ->
  load_dataset files parse_csv file_path (tt, out)
  = (Return None,
     (tt, printed out
            match e with
            | FileNotFoundError =>
                [Text "Error: The file at "; Text file_path; Text " was not found."]
            | EmptyDataError => [Text "Error: The file is empty."]
            | ParserError => [Text "Error: There was a problem parsing the file."]
            | _ => [Text "An error occurred: "; PlainExc e]
            end)).
Proof.
  unfold read_outcome. intros H.
  unfold load_dataset, try_except, bind, read_csv, lift, ret, raise.
  destruct (files file_path) as [text|].
  - rewrite H. destruct e; reflexivity.
  - injection H as <-. reflexivity.
Qed.

(** X1: [load_dataset] never raises.  It returns a table exactly when the
    file exists and parses, and then prints nothing; otherwise it returns
    [None] after printing exactly one line.  It never shows a figure. *)
Theorem load_dataset_never_raises
    (files : string -> option string) (parse_csv : string -> outcome pd.DataFrame)
    (file_path : string) (out : console) :
  exists r out',
    load_dataset files parse_csv file_path (tt, out) = (Return r, (tt, out'))
    /\ shown out' = shown out
    /\ match r with
       | Some _ =>
           out' = out
           /\ exists titanic_df,
                read_outcome files parse_csv file_path = Return titanic_df
       | None =>
           (exists line, stdout out' = (stdout out ++ [line])%list)
           /\ exists e, read_outcome files parse_csv file_path = Raise e
       end.
Proof.
  destruct (read_outcome files parse_csv file_path) as [df|e] eqn:R.
  - eexists. exists out. rewrite (load_dataset_parsed _ _ _ _ _ R).
    split; [reflexivity|]. split; [reflexivity|]. split; [reflexivity|].
    exists df. reflexivity.
  - exists None. eexists. rewrite (load_dataset_failed _ _ _ _ _ R).
    split; [reflexivity|]. split; [reflexivity|]. split.
    + eexists. reflexivity.
    + exists e. reflexivity.
Qed.

(** X2: the line [load_dataset] prints names the kind of failure: an empty
    file, a parse error, or any other exception with its text; and when
    [load_dataset] returns [None] the main sequence ends normally without
    printing or showing anything more. *)
Theorem load_failure_is_reported_by_kind
    (files : string -> option string) (parse_csv : string -> outcome pd.DataFrame)
    (file_path text : string) (out : console) :
  files file_path = Some text ->
  (parse_csv text = Raise EmptyDataError ->
   load_dataset files parse_csv file_path (tt, out)
   = (Return None, (tt, printed out [Text "Error: The file is empty."])))
  /\ (parse_csv text = Raise ParserError ->
      load_dataset files parse_csv file_path (tt, out)
      = (Return None,
         (tt, printed out [Text "Error: There was a problem parsing the file."])))
  /\ (forall e,
        parse_csv text = Raise e ->
        e <> FileNotFoundError -> e <> EmptyDataError -> e <> ParserError ->
        load_dataset files parse_csv file_path (tt, out)
        = (Return None,
           (tt, printed out [Text "An error occurred: "; PlainExc e])))
  /\ (forall st',
        load_dataset files parse_csv "./data/Titanic.csv" (tt, out)
        = (Return None, st') ->
        main files parse_csv (tt, out) = (Return tt, st')).
Proof.
  intros Hf.
  assert (R : forall e, parse_csv text = Raise e ->
                        read_outcome files parse_csv file_path = Raise e).
  { intros e H. unfold read_outcome. rewrite Hf. assumption. }
  split; [|split; [|split]].
  - intros H. rewrite (load_dataset_failed _ _ _ _ _ (R _ H)). reflexivity.
  - intros H. rewrite (load_dataset_failed _ _ _ _ _ (R _ H)). reflexivity.
  - intros e H N1 N2 N3. rewrite (load_dataset_failed _ _ _ _ _ (R _ H)).
    destruct e; try reflexivity; congruence.
  - intros st' H. unfold main. rewrite (bind_return _ _ _ _ _ H). reflexivity.
Qed.

(** ** A missing column *)

Lemma df_getitem_missing (df : pd.DataFrame) (name : string) :
  pd.column df name = None ->
  df_getitem name df = (Raise (KeyError (LStr name)), df).
Proof.
  intros H. unfold df_getitem, bind, get_state, lift, pd.getitem. cbv beta.
  rewrite H. reflexivity.
Qed.

Lemma df_getitem_present (df : pd.DataFrame) (name : string) (c : pd.Series) :
  pd.column df name = Some c -> df_getitem name df = (Return c, df).
Proof.
  intros H. unfold df_getitem, bind, get_state, lift, pd.getitem. cbv beta.
  rewrite H. reflexivity.
Qed.

Lemma df_groupby_getitem_missing (df : pd.DataFrame) (name : string) :
  pd.column df name = None ->
  df_groupby_getitem name df
  = (Raise (KeyError (LStr ("Column not found: " ++ name))), df).
Proof.
  intros H. unfold df_groupby_getitem, bind, get_state, raise. cbv beta iota.
  rewrite H. reflexivity.
Qed.

Lemma df_groupby_mean_missing_value (df : pd.DataFrame) (by_ val : string)
    (key_column : pd.Series) :
  pd.column df by_ = Some key_column ->
  pd.column df val = None ->
  df_groupby_mean by_ val df
  = (Raise (KeyError (LStr ("Column not found: " ++ val))), df).
Proof.
  intros Hb Hv. unfold df_groupby_mean.
  rewrite (bind_return _ _ _ _ _ (df_getitem_present df _ _ Hb)).
  rewrite (bind_raise _ _ _ _ _ (df_groupby_getitem_missing df _ Hv)).
  reflexivity.
Qed.

(** X3: a statistics function whose column is not in the table raises
    [KeyError] with the name of that column; for the grouped statistics
    the grouping column is looked up first, and when only the averaged
    column is absent the [KeyError] says [Column not found] with its
    name. *)
Theorem missing_column_raises_key_error (df : pd.DataFrame) :
  (pd.column df "Survived" = None ->
   fst (calculate_survival_rate df) = Raise (KeyError (LStr "Survived")))
  /\ (pd.column df "Sex" = None ->
      fst (calculate_gender_proportion df) = Raise (KeyError (LStr "Sex"))
      /\ fst (calculate_gender_survival_rate df) = Raise (KeyError (LStr "Sex")))
  /\ (pd.column df "Pclass" = None ->
      fst (calculate_class_survival_rate df) = Raise (KeyError (LStr "Pclass"))
      /\ fst (calculate_average_fare_by_class df)
         = Raise (KeyError (LStr "Pclass")))
  /\ (pd.column df "SibSp" = None ->
      fst (count_siblings_spouses_aboard df) = Raise (KeyError (LStr "SibSp")))
  /\ (pd.column df "Embarked" = None ->
      fst (count_passengers_by_port df) = Raise (KeyError (LStr "Embarked")))
  /\ (pd.column df "Ticket" = None ->
      fst (count_unique_tickets df) = Raise (KeyError (LStr "Ticket")))
  /\ (forall pclass,
        pd.column df "Pclass" = Some pclass ->
        (pd.column df "Survived" = None ->
         fst (calculate_class_survival_rate df)
         = Raise (KeyError (LStr "Column not found: Survived")))
        /\ (pd.column df "Fare" = None ->
            fst (calculate_average_fare_by_class df)
            = Raise (KeyError (LStr "Column not found: Fare"))))
  /\ (forall sex,
        pd.column df "Sex" = Some sex ->
        pd.column df "Survived" = None ->
        fst (calculate_gender_survival_rate df)
        = Raise (KeyError (LStr "Column not found: Survived"))).
Proof.
  split; [|split; [|split; [|split; [|split; [|split; [|split]]]]]];
    [intros H | intros H | intros H | intros H | intros H | intros H
    | intros pclass Hp; split; intros H
    | intros sex Hs H ].
  - unfold calculate_survival_rate.
    rewrite (bind_return df_len _ df df (pd.len df)) by reflexivity.
    rewrite (bind_raise _ _ _ _ _ (df_getitem_missing df _ H)). reflexivity.
  - split.
    + unfold calculate_gender_proportion.
      rewrite (bind_raise _ _ _ _ _ (df_getitem_missing df _ H)). reflexivity.
    + unfold calculate_gender_survival_rate, df_groupby_mean.
      rewrite (bind_raise (S := pd.DataFrame) _ _ df df (KeyError (LStr "Sex")));
        [reflexivity|].
      rewrite (bind_raise _ _ _ _ _ (df_getitem_missing df _ H)). reflexivity.
  - split.
    + unfold calculate_class_survival_rate, df_groupby_mean.
      rewrite (bind_raise (S := pd.DataFrame) _ _ df df (KeyError (LStr "Pclass")));
        [reflexivity|].
      rewrite (bind_raise _ _ _ _ _ (df_getitem_missing df _ H)). reflexivity.
    + unfold calculate_average_fare_by_class, df_groupby_mean.
      rewrite (bind_raise _ _ _ _ _ (df_getitem_missing df _ H)). reflexivity.
  - unfold count_siblings_spouses_aboard.
    rewrite (bind_raise _ _ _ _ _ (df_getitem_missing df _ H)). reflexivity.
  - unfold count_passengers_by_port.
    rewrite (bind_raise _ _ _ _ _ (df_getitem_missing df _ H)). reflexivity.
  - unfold count_unique_tickets.
    rewrite (bind_raise _ _ _ _ _ (df_getitem_missing df _ H)). reflexivity.
  - unfold calculate_class_survival_rate.
    rewrite (bind_raise _ _ _ _ _
               (df_groupby_mean_missing_value df _ _ _ Hp H)).
    reflexivity.
  - unfold calculate_average_fare_by_class.
    rewrite (df_groupby_mean_missing_value df _ _ _ Hp H). reflexivity.
  - unfold calculate_gender_survival_rate.
    rewrite (bind_raise _ _ _ _ _
               (df_groupby_mean_missing_value df _ _ _ Hs H)).
    reflexivity.
Qed.

(** ** Siblings and spouses *)

Lemma count_positive_int64 (l : list Z) :
  let n := Z.of_nat (List.length (filter (fun z => 0 <? z) l)) in
  0 <= n <= Z.of_nat (List.length l)
  /\ (n = 0 <-> Forall (fun z => z <= 0) l)
  /\ (n = Z.of_nat (List.length l) <-> Forall (fun z => 0 < z) l).
Proof.
  cbv zeta. induction l as [|z l (B & Z0 & ZA)]; cbn [filter List.length].
  - repeat split; try lia; constructor.
  - destruct (0 <? z) eqn:E; cbn [List.length].
    + apply Z.ltb_lt in E. split; [lia|]. split; split.
      * lia.
      * intros H. inversion H; lia.
      * intros H. constructor; [assumption | apply ZA; lia].
      * intros H. inversion H; subst. apply ZA in H3. lia.
    + apply Z.ltb_ge in E. split; [lia|]. split; split.
      * intros H. constructor; [assumption | apply Z0; assumption].
      * intros H. inversion H; subst. apply Z0; assumption.
      * lia.
      * intros H. inversion H; lia.
Qed.

(** X4: on an [int64] column [count_siblings_spouses_aboard] returns a
    number between 0 and the number of rows; it is 0 exactly when no row
    has [SibSp] above 0, and the number of rows exactly when every row
    has. *)
Theorem count_siblings_spouses_aboard_bounds
    (df : pd.DataFrame) (sibsp : list Z) :
  pd.column df "SibSp" = Some (pd.ColInt64 sibsp) ->
  exists n,
    fst (count_siblings_spouses_aboard df) = Return (np.Int64 n)
    /\ 0 <= n <= Z.of_nat (List.length sibsp)
    /\ (n = 0 <-> Forall (fun z => z <= 0) sibsp)
    /\ (n = Z.of_nat (List.length sibsp) <-> Forall (fun z => 0 < z) sibsp).
Proof.
  intros H. eexists. split.
  - unfold count_siblings_spouses_aboard.
    rewrite (bind_return _ _ _ _ _ (df_getitem_present df _ _ H)). reflexivity.
  - apply count_positive_int64.
Qed.

(** ** Distinct tickets, bounds *)

Lemma length_unique_le (l : list label) :
  (List.length (pd.unique pd.label_eqb l) <= List.length l)%nat.
Proof.
  induction l as [|x l IH]; cbn [pd.unique List.length]; [lia|].
  pose proof (filter_length_le (fun y => negb (pd.label_eqb x y))
                (pd.unique pd.label_eqb l)). lia.
Qed.

Lemma filter_all {A} (p : A -> bool) (l : list A) :
  List.length (filter p l) = List.length l -> filter p l = l.
Proof.
  induction l as [|x l IH]; cbn [filter]; [reflexivity|].
  destruct (p x); cbn [List.length]; intros H.
  - f_equal. apply IH. lia.
  - pose proof (filter_length_le p l). lia.
Qed.

Lemma unique_NoDup (l : list label) : NoDup l -> pd.unique pd.label_eqb l = l.
Proof.
  induction 1 as [|x l Hx N IH]; cbn [pd.unique]; [reflexivity|].
  rewrite IH. f_equal. apply forallb_filter_id. apply forallb_forall.
  intros y Hy. apply negb_true_iff, label_eqb_neq. congruence.
Qed.

Lemma length_unique_eq (l : list label) :
  List.length (pd.unique pd.label_eqb l) = List.length l <-> NoDup l.
Proof.
  split; [|intros N; rewrite (unique_NoDup l N); reflexivity].
  intros H. pose proof (NoDup_unique pd.label_eqb label_eqb_eq l) as N.
  induction l as [|x l IH]; [constructor|].
  cbn [pd.unique List.length] in H.
  pose proof (filter_length_le (fun y => negb (pd.label_eqb x y))
                (pd.unique pd.label_eqb l)) as F.
  pose proof (length_unique_le l) as U.
  assert (E : List.length (pd.unique pd.label_eqb l) = List.length l) by lia.
  assert (Hf : filter (fun y => negb (pd.label_eqb x y)) (pd.unique pd.label_eqb l)
               = pd.unique pd.label_eqb l) by (apply filter_all; lia).
  cbn [pd.unique] in N. rewrite Hf in N. inversion N as [|? ? Hx N']; subst.
  constructor; [|apply IH; assumption].
  intros Hin. apply Hx. apply (In_unique pd.label_eqb label_eqb_eq). assumption.
Qed.

Lemma unique_constant (k : label) (l : list label) :
  l <> [] -> (forall x, In x l -> x = k) -> pd.unique pd.label_eqb l = [k].
Proof.
  intros N H. destruct l as [|x l]; [congruence|]. clear N.
  assert (x = k) by (apply H; left; reflexivity). subst x.
  cbn [pd.unique]. f_equal.
  assert (Hall : forall y, In y (pd.unique pd.label_eqb l) -> y = k).
  { intros y Hy. apply H. right.
    apply (In_unique pd.label_eqb label_eqb_eq). assumption. }
  induction (pd.unique pd.label_eqb l) as [|y u IH]; [reflexivity|].
  cbn [filter]. rewrite (Hall y (or_introl eq_refl)), label_eqb_refl.
  cbn [negb]. apply IH. intros z Hz. apply Hall. right. assumption.
Qed.

(** X5: the number [count_unique_tickets] returns is at most the number
    of rows that hold a ticket, equals it exactly when no two rows share a
    ticket, and is 1 when every row that holds a ticket holds the same
    one. *)
Theorem count_unique_tickets_bounds (df : pd.DataFrame) (ticket : pd.Series) :
  pd.column df "Ticket" = Some ticket ->
  exists n,
    fst (count_unique_tickets df) = Return (np.PyInt n)
    /\ 0 <= n <= Z.of_nat (List.length (present_rows ticket))
    /\ (n = Z.of_nat (List.length (present_rows ticket))
        <-> NoDup (present_rows ticket))
    /\ (forall k, present_rows ticket <> [] ->
                  (forall x, In x (present_rows ticket) -> x = k) -> n = 1).
Proof.
  intros H. exists (pd.nunique ticket). split.
  - unfold count_unique_tickets.
    rewrite (bind_return _ _ _ _ _ (df_getitem_present df _ _ H)). reflexivity.
  - unfold pd.nunique, present_rows. rewrite dropna_unique.
    pose proof (length_unique_le (pd.dropna (pd.keys ticket))) as L.
    split; [lia|]. split.
    + rewrite <- length_unique_eq. lia.
    + intros k N Hk. rewrite (unique_constant k _ N Hk). reflexivity.
Qed.

(** ** Missing categories do not count *)

Lemma dtype_of_dropna_column (c : pd.Series) :
  pd.dtype_of (dropna_column c) = pd.dtype_of c.
Proof. destruct c; reflexivity. Qed.

Lemma value_counts_dropna_column (c : pd.Series) :
  pd.value_counts (dropna_column c) = pd.value_counts c.
Proof.
  unfold pd.value_counts.
  rewrite keys_dropna_column, dtype_of_dropna_column. reflexivity.
Qed.

(** X6: rows whose [Sex] (or [Embarked]) is missing have no influence on
    the gender proportions (or on the passenger counts by port): a table
    whose column is the same with the missing entries removed gets the
    same result. *)
Theorem missing_categories_do_not_count
    (df df' : pd.DataFrame) (c : pd.Series) :
  (pd.column df "Sex" = Some c ->
   pd.column df' "Sex" = Some (dropna_column c) ->
   fst (calculate_gender_proportion df') = fst (calculate_gender_proportion df))
  /\ (pd.column df "Embarked" = Some c ->
      pd.column df' "Embarked" = Some (dropna_column c) ->
      fst (count_passengers_by_port df') = fst (count_passengers_by_port df)).
Proof.
  split; intros H H'.
  - rewrite (gender_proportion_run df c H),
      (gender_proportion_run df' (dropna_column c) H').
    cbn [fst]. unfold pd.value_counts_normalize.
    rewrite value_counts_dropna_column. reflexivity.
  - rewrite (passengers_by_port_run df c H),
      (passengers_by_port_run df' (dropna_column c) H').
    cbn [fst]. rewrite value_counts_dropna_column. reflexivity.
Qed.

(** ** Unknown outcomes *)

Lemma Qsum_flagged (l : list (option Q)) :
  Forall (fun x => x = None \/ x = Some 0%Q \/ x = Some 1%Q) l ->
  (pd.Qsum (pd.dropna l) == inject_Z (flagged l))%Q.
Proof.
  unfold flagged, pd.Qsum.
  induction 1 as [|x l [->|[->| ->]] _ IH]; cbn [pd.dropna filter fold_right].
  - reflexivity.
  - assumption.
  - change (Qeq_bool 0 1) with false. cbv iota. rewrite IH, Qplus_0_l.
    reflexivity.
  - change (Qeq_bool 1 1) with true. cbv iota. rewrite IH.
    cbn [List.length]. rewrite Nat2Z.inj_succ, <- Z.add_1_l, inject_Z_plus.
    reflexivity.
Qed.

(** X7: when some outcomes are missing ([Survived] is then a [float64]
    column of 0, 1 and missing entries), [calculate_survival_rate] still
    divides by the number of all rows: a row with a missing outcome counts
    as not survived. *)
Theorem calculate_survival_rate_with_missing
    (df : pd.DataFrame) (survived : list (option Q)) :
  pd.nrows df <> 0%nat ->
  pd.column df "Survived" = Some (pd.ColFloat64 survived) ->
  Forall (fun x => x = None \/ x = Some 0%Q \/ x = Some 1%Q) survived ->
  fst (calculate_survival_rate df)
  = Return (np.Float64 (np.fin (percentage (flagged survived) (pd.len df)))).
Proof.
  intros Hn Hc Hflags.
  unfold calculate_survival_rate.
  rewrite (bind_return df_len _ df df (pd.len df)) by reflexivity.
  rewrite (bind_return _ _ _ _ _ (df_getitem_present df _ _ Hc)).
  unfold bind, lift, ret. cbn [pd.sum np.true_divide np.multiply fst].
  assert (E : (pd.len df =? 0) = false) by (apply Z.eqb_neq; unfold pd.len; lia).
  unfold np.fdiv, np.fin at 2. rewrite E. unfold np.fin at 2, np.fmul.
  do 2 f_equal. apply fin_eq. unfold percentage, np.of_int.
  rewrite !Qred_correct, (Qsum_flagged _ Hflags). reflexivity.
Qed.

(** ** Passengers by port *)

Lemma insert_by_count_sorted (e : label * Z) (l : list (label * Z)) :
  Sorted (fun a b => snd b <= snd a) l ->
  Sorted (fun a b => snd b <= snd a) (pd.insert_by_count e l).
Proof.
  induction 1 as [|y l Hl IH Hy]; cbn [pd.insert_by_count].
  - repeat constructor.
  - destruct (snd y <=? snd e) eqn:E.
    + apply Z.leb_le in E. repeat constructor; assumption.
    + apply Z.leb_gt in E. constructor; [assumption|].
      destruct Hy as [|z l Hz]; cbn [pd.insert_by_count].
      * repeat constructor. lia.
      * destruct (snd z <=? snd e); constructor; [lia | assumption].
Qed.

Lemma sort_by_count_sorted (l : list (label * Z)) :
  StronglySorted (fun a b => snd b <= snd a) (pd.sort_by_count l).
Proof.
  apply Sorted_StronglySorted.
  - intros a b c H1 H2. lia.
  - induction l as [|e l IH]; cbn [pd.sort_by_count];
      [constructor | apply insert_by_count_sorted, IH].
Qed.

Lemma Zsum_perm (l l' : list Z) : Permutation l l' -> pd.Zsum l = pd.Zsum l'.
Proof.
  unfold pd.Zsum. induction 1; cbn [fold_right]; lia.
Qed.

Lemma filter_unique (x : label) (l : list label) :
  filter (fun y => negb (pd.label_eqb x y)) (pd.unique pd.label_eqb l)
  = pd.unique pd.label_eqb (filter (fun y => negb (pd.label_eqb x y)) l).
Proof.
  induction l as [|y l IH]; [reflexivity|].
  cbn [pd.unique filter]. destruct (pd.label_eqb x y) eqn:E; cbn [negb].
  - apply label_eqb_eq in E. subst y. rewrite <- IH.
    clear IH. induction (pd.unique pd.label_eqb l) as [|z u IHu]; [reflexivity|].
    cbn [filter]. destruct (pd.label_eqb x z) eqn:Ez; cbn [negb filter].
    + assumption.
    + rewrite Ez. cbn [negb]. f_equal. assumption.
  - cbn [pd.unique]. f_equal. rewrite <- IH.
    clear IH. induction (pd.unique pd.label_eqb l) as [|z u IHu]; [reflexivity|].
    cbn [filter].
    destruct (pd.label_eqb y z) eqn:Ey, (pd.label_eqb x z) eqn:Ex;
      cbn [negb filter]; rewrite ?Ey, ?Ex; cbn [negb]; congruence.
Qed.

Lemma count_label_other (k x : label) (l : list label) :
  k <> x ->
  pd.count_label k (x :: l)
  = pd.count_label k (filter (fun y => negb (pd.label_eqb x y)) l).
Proof.
  intros N. unfold pd.count_label. cbn [filter].
  assert (E : pd.label_eqb k x = false) by (apply label_eqb_neq; assumption).
  rewrite E. do 2 f_equal.
  induction l as [|y l IH]; [reflexivity|]. cbn [filter].
  destruct (pd.label_eqb k y) eqn:Ek.
  - apply label_eqb_eq in Ek. subst y.
    assert (Ex : pd.label_eqb x k = false) by (apply label_eqb_neq; congruence).
    rewrite Ex. cbn [negb filter]. rewrite label_eqb_refl. f_equal. assumption.
  - destruct (pd.label_eqb x y); cbn [negb filter]; rewrite ?Ek; assumption.
Qed.

Lemma counts_partition (n : nat) (l : list label) :
  (List.length l <= n)%nat ->
  pd.Zsum (map (fun k => pd.count_label k l) (pd.unique pd.label_eqb l))
  = Z.of_nat (List.length l).
Proof.
  revert l. induction n as [|n IH]; intros l Hn.
  - destruct l; [reflexivity | cbn [List.length] in Hn; lia].
  - destruct l as [|x l]; [reflexivity|].
    cbn [pd.unique map]. rewrite filter_unique.
    set (rest := filter (fun y => negb (pd.label_eqb x y)) l).
    assert (Hrest : (List.length rest <= n)%nat).
    { pose proof (filter_length_le (fun y => negb (pd.label_eqb x y)) l).
      cbn [List.length] in Hn. unfold rest. lia. }
    rewrite (map_ext_in (fun k => pd.count_label k (x :: l))
                        (fun k => pd.count_label k rest)).
    + unfold pd.Zsum at 1. cbn [fold_right]. fold (pd.Zsum
        (map (fun k => pd.count_label k rest) (pd.unique pd.label_eqb rest))).
      rewrite (IH rest Hrest).
      unfold pd.count_label. cbn [filter]. rewrite label_eqb_refl.
      pose proof (filter_length (pd.label_eqb x) l) as P.
      fold rest in P. cbn [List.length]. lia.
    + intros k Hk. apply count_label_other.
      apply (In_unique pd.label_eqb label_eqb_eq k rest) in Hk.
      unfold rest in Hk. apply filter_In in Hk. destruct Hk as [_ Hk].
      apply negb_true_iff, label_eqb_neq in Hk. congruence.
Qed.

Lemma lookup_In {V} (s : pd.Indexed V) (k : label) (v : V) :
  NoDup (pd.index s) -> In (k, v) (pd.items s) -> pd.lookup k s = Some v.
Proof.
  intros N H. apply in_split in H. destruct H as (before & after & E).
  apply (lookup_first s before after k v E N).
Qed.

Lemma value_counts_items (c : pd.Series) :
  Permutation
    (map (fun k => (k, pd.count_label k (present_rows c)))
         (pd.unique pd.label_eqb (present_rows c)))
    (pd.items (pd.value_counts c)).
Proof. unfold pd.value_counts. cbn [pd.items]. apply sort_by_count_perm. Qed.

Lemma NoDup_index_value_counts (c : pd.Series) :
  NoDup (pd.index (pd.value_counts c)).
Proof.
  unfold pd.index.
  eapply Permutation_NoDup;
    [apply Permutation_map, value_counts_items|].
  rewrite map_map. cbn [fst]. rewrite map_id.
  apply NoDup_unique, label_eqb_eq.
Qed.

Lemma value_counts_lookup (c : pd.Series) (k : label) :
  In k (present_rows c) ->
  pd.lookup k (pd.value_counts c) = Some (pd.count_label k (present_rows c)).
Proof.
  intros Hk. apply lookup_In; [apply NoDup_index_value_counts|].
  apply (Permutation_in _ (value_counts_items c)).
  apply in_map_iff. exists k. split; [reflexivity|].
  apply (In_unique pd.label_eqb label_eqb_eq). assumption.
Qed.

Lemma value_counts_total (c : pd.Series) :
  pd.Zsum (map snd (pd.items (pd.value_counts c)))
  = Z.of_nat (List.length (present_rows c)).
Proof.
  rewrite <- (Zsum_perm _ _ (Permutation_map snd (value_counts_items c))).
  rewrite map_map. cbn [snd].
  apply (counts_partition (List.length (present_rows c))). lia.
Qed.

(** X8: [count_passengers_by_port] maps every port that occurs to the
    number of rows holding it, which is at least 1; the counts add up to
    the number of rows whose port is not missing; and the entries come
    with the largest count first. *)
Theorem count_passengers_by_port_counts
    (df : pd.DataFrame) (embarked : pd.Series) :
  pd.column df "Embarked" = Some embarked ->
  exists counts,
    fst (count_passengers_by_port df) = Return counts
    /\ (forall k, In k (present_rows embarked) ->
          pd.lookup k counts = Some (pd.count_label k (present_rows embarked))
          /\ 1 <= pd.count_label k (present_rows embarked))
    /\ pd.Zsum (map snd (pd.items counts))
       = Z.of_nat (List.length (present_rows embarked))
    /\ StronglySorted (fun a b => snd b <= snd a) (pd.items counts).
Proof.
  intros H. exists (pd.value_counts embarked).
  split; [rewrite (passengers_by_port_run df embarked H); reflexivity|].
  split; [|split].
  - intros k Hk. split; [apply value_counts_lookup; assumption|].
    apply count_label_positive; assumption.
  - apply value_counts_total.
  - unfold pd.value_counts. cbn [pd.items]. apply sort_by_count_sorted.
Qed.

(** ** Rates are percentages *)

Lemma Qsum_flags_bounds (qs : list Q) :
  (forall q, In q qs -> q = 0%Q \/ q = 1%Q) ->
  (0 <= pd.Qsum qs <= inject_Z (Z.of_nat (List.length qs)))%Q.
Proof.
  unfold pd.Qsum. induction qs as [|q qs IH]; intros H.
  - split; apply Qle_refl.
  - destruct IH as [L U]; [intros q' Hq'; apply H; right; assumption|].
    cbn [fold_right List.length].
    rewrite Nat2Z.inj_succ, <- Z.add_1_l, inject_Z_plus.
    destruct (H q (or_introl eq_refl)) as [-> | ->]; split.
    + rewrite Qplus_0_l. assumption.
    + rewrite Qplus_0_l. apply (Qle_trans _ _ _ U).
      rewrite <- (Qplus_0_l (inject_Z (Z.of_nat (List.length qs)))) at 1.
      apply Qplus_le_compat; [discriminate | apply Qle_refl].
    + apply (Qle_trans _ (1 + 0)); [discriminate|].
      apply Qplus_le_compat; [apply Qle_refl | assumption].
    + apply Qplus_le_compat; [apply Qle_refl | assumption].
Qed.

Lemma percent_of_mean_flags (vs : list (option Q)) :
  vs <> [] ->
  (forall v, In v vs -> v = Some 0%Q \/ v = Some 1%Q) ->
  is_percentage (np.fmul (pd.mean vs) 100).
Proof.
  intros N H.
  assert (Hd : pd.dropna vs <> []).
  { destruct vs as [|v vs]; [congruence|].
    destruct (H v (or_introl eq_refl)) as [-> | ->]; discriminate. }
  destruct (Qsum_flags_bounds (pd.dropna vs)) as [L U].
  { intros q Hq. apply In_dropna in Hq.
    destruct (H _ Hq) as [E|E]; injection E; auto. }
  unfold pd.mean. destruct (pd.dropna vs) as [|x qs] eqn:D; [congruence|].
  set (s := pd.Qsum (x :: qs)) in *.
  set (n := inject_Z (Z.of_nat (List.length (x :: qs)))) in *.
  assert (Hn : (0 < n)%Q).
  { unfold n. rewrite <- (Zlt_Qlt 0). cbn [List.length]. lia. }
  unfold np.fin, np.fmul, np.fin. eexists. split; [reflexivity|].
  rewrite !Qred_correct. unfold np.of_int. fold n.
  assert (L1 : (0 <= s / n)%Q).
  { apply Qle_shift_div_l; [assumption|]. rewrite Qmult_0_l. assumption. }
  assert (U1 : (s / n <= 1)%Q).
  { apply Qle_shift_div_r; [assumption|]. rewrite Qmult_1_l. assumption. }
  split.
  - apply Qmult_le_0_compat; [assumption | discriminate].
  - apply (Qle_trans _ (1 * inject_Z 100));
      [apply Qmult_le_compat_r; [assumption | discriminate] | discriminate].
Qed.

Lemma numbers_flags (l : list Z) (v : option Q) :
  Forall (fun z => z = 0 \/ z = 1) l ->
  In (Return v) (pd.numbers (pd.ColInt64 l)) ->
  v = Some 0%Q \/ v = Some 1%Q.
Proof.
  intros Hf Hin. cbn [pd.numbers] in Hin. apply in_map_iff in Hin.
  destruct Hin as [z [E Hz]]. injection E as <-.
  rewrite Forall_forall in Hf. destruct (Hf z Hz) as [-> | ->]; auto.
Qed.

Lemma groupby_mean_flags (by_ : pd.Series) (l : list Z)
    (rates : pd.Indexed np.float64) :
  pd.size by_ = List.length l ->
  Forall (fun z => z = 0 \/ z = 1) l ->
  pd.groupby_mean by_ (pd.ColInt64 l) = Return rates ->
  Forall (fun kv => is_percentage (snd kv)) (pd.items (percent rates)).
Proof.
  intros Hsize Hf. unfold pd.groupby_mean.
  set (rows := combine (pd.keys by_) (pd.numbers (pd.ColInt64 l))).
  destruct (pd.sequence _) as [entries|e] eqn:E; cbn [obind]; [|discriminate].
  intros H. injection H as <-.
  unfold percent, pd.map_values. cbn [pd.items].
  apply sequence_keyed in E. destruct E as [Hkeys Hall].
  apply Forall_map. rewrite Forall_forall in Hall. apply Forall_forall.
  intros [k m] Hkm. specialize (Hall _ Hkm). cbn [fst snd] in *.
  assert (Hk : In (Some k) (pd.keys by_)).
  { apply In_group_keys. rewrite <- Hkeys. apply (in_map fst _ _ Hkm). }
  destruct (in_combine_exists (Some k) (pd.keys by_)
              (pd.numbers (pd.ColInt64 l))) as [v Hv];
    [rewrite length_keys, length_numbers; assumption | assumption |].
  unfold pd.group_mean in Hall.
  destruct (pd.sequence (pd.select k rows)) as [vs|e] eqn:S; cbn [obind] in Hall;
    [|discriminate].
  injection Hall as <-. apply sequence_return in S.
  apply percent_of_mean_flags.
  - intros ->. cbn [map] in S. apply (In_select k v rows) in Hv.
    rewrite S in Hv. contradiction.
  - intros v' Hv'. apply (numbers_flags l v' Hf).
    apply (in_map Return) in Hv'. rewrite <- S in Hv'.
    apply In_select, in_combine_r in Hv'. assumption.
Qed.

Lemma gender_survival_rate_run (df : pd.DataFrame) (sex survived : pd.Series) :
  pd.column df "Sex" = Some sex ->
  pd.column df "Survived" = Some survived ->
  calculate_gender_survival_rate df
  = (match pd.groupby_mean sex survived with
     | Return rates => Return (percent rates)
     | Raise e => Raise e
     end, df).
Proof.
  intros Hp Hs.
  unfold calculate_gender_survival_rate, df_groupby_mean, df_groupby_getitem,
    df_getitem, bind, get_state, ret, lift, pd.getitem.
  cbv beta. rewrite Hp. cbv iota beta. rewrite Hs. cbv iota beta.
  destruct (pd.groupby_mean sex survived); reflexivity.
Qed.

(** X9: when [Survived] holds 0/1 flags, every rate the script computes
    is a percentage: the survival rate of a non-empty table and every
    per-class and per-gender survival rate lie between 0 and 100. *)
Theorem survival_rates_are_percentages (df : pd.DataFrame) (survived : list Z) :
  pd.wf df ->
  pd.column df "Survived" = Some (pd.ColInt64 survived) ->
  Forall (fun z => z = 0 \/ z = 1) survived ->
  (pd.nrows df <> 0%nat ->
   exists rate,
     fst (calculate_survival_rate df) = Return (np.Float64 rate)
     /\ is_percentage rate)
  /\ (forall pclass,
        pd.column df "Pclass" = Some pclass ->
        exists rates,
          fst (calculate_class_survival_rate df) = Return rates
          /\ Forall (fun kv => is_percentage (snd kv)) (pd.items rates))
  /\ (forall sex,
        pd.column df "Sex" = Some sex ->
        exists rates,
          fst (calculate_gender_survival_rate df) = Return rates
          /\ Forall (fun kv => is_percentage (snd kv)) (pd.items rates)).
Proof.
  intros Hwf Hc Hf.
  pose proof (wf_column df _ _ Hwf Hc) as Hlen. cbn [pd.size] in Hlen.
  split; [|split].
  - intros Hn. eexists. split.
    + rewrite (survival_rate_int64 df survived Hc Hn). reflexivity.
    + rewrite (Zsum_flags _ Hf).
      pose proof (survivors_bounds survived) as B.
      rewrite wrap64_small by (destruct Hwf as [Hwf _]; lia).
      unfold np.fin. eexists. split; [reflexivity|].
      rewrite Qred_correct. unfold percentage, pd.len.
      set (n := inject_Z (Z.of_nat (pd.nrows df))).
      assert (Hpos : (0 < n)%Q) by (unfold n; rewrite <- (Zlt_Qlt 0); lia).
      assert (L1 : (0 <= inject_Z (survivors survived) / n)%Q).
      { apply Qle_shift_div_l; [assumption|]. rewrite Qmult_0_l.
        rewrite <- (Zle_Qle 0). lia. }
      assert (U1 : (inject_Z (survivors survived) / n <= 1)%Q).
      { apply Qle_shift_div_r; [assumption|]. rewrite Qmult_1_l.
        unfold n. rewrite <- Zle_Qle. lia. }
      split.
      * apply Qmult_le_0_compat; [assumption | discriminate].
      * apply (Qle_trans _ (1 * 100));
          [apply Qmult_le_compat_r; [assumption | discriminate] | discriminate].
  - intros pclass Hp.
    destruct (groupby_mean_numeric pclass (pd.ColInt64 survived)) as [r G];
      [discriminate|].
    exists (percent r). split.
    + rewrite (class_survival_rate_run df _ _ Hp Hc), G. reflexivity.
    + apply (groupby_mean_flags pclass survived r); try assumption.
      rewrite (wf_column df _ _ Hwf Hp). symmetry. assumption.
  - intros sex Hs.
    destruct (groupby_mean_numeric sex (pd.ColInt64 survived)) as [r G];
      [discriminate|].
    exists (percent r). split.
    + rewrite (gender_survival_rate_run df _ _ Hs Hc), G. reflexivity.
    + apply (groupby_mean_flags sex survived r); try assumption.
      rewrite (wf_column df _ _ Hwf Hs). symmetry. assumption.
Qed.

(** ** Average fare *)

Lemma select_absent {A} (k : label) (ks : list (option label)) (vs : list A) :
  ~ In (Some k) ks -> pd.select k (combine ks vs) = [].
Proof.
  revert vs. induction ks as [|[k'|] ks IH]; intros vs H; destruct vs as [|v vs];
    cbn [combine pd.select]; try reflexivity.
  - destruct (pd.label_eqb k' k) eqn:E.
    + apply label_eqb_eq in E. subst k'. exfalso. apply H. left. reflexivity.
    + apply IH. intros Hin. apply H. right. assumption.
  - apply IH. intros Hin. apply H. right. assumption.
Qed.

Lemma select_single {A} (k : Z) (classes : list Z) (vs : list A) (i : nat) (v : A) :
  nth_error classes i = Some k ->
  nth_error vs i = Some v ->
  (forall j, nth_error classes j = Some k -> j = i) ->
  pd.select (LInt k) (combine (map (fun z => Some (LInt z)) classes) vs) = [v].
Proof.
  revert vs i. induction classes as [|c cs IH]; intros vs i Hk Hv Honly.
  - destruct i; discriminate.
  - destruct vs as [|v0 vs]; [destruct i; discriminate|].
    cbn [map combine pd.select]. destruct i as [|i].
    + injection Hk as ->. injection Hv as ->.
      cbn [pd.label_eqb]. rewrite Z.eqb_refl. f_equal.
      apply select_absent. intros Hin. apply in_map_iff in Hin.
      destruct Hin as [z [E Hz]]. injection E as ->.
      apply In_nth_error in Hz. destruct Hz as [j Hj].
      specialize (Honly (S j) Hj). discriminate.
    + assert (N : c <> k).
      { intros ->. specialize (Honly 0%nat eq_refl). discriminate. }
      cbn [pd.label_eqb]. apply Z.eqb_neq in N. rewrite N.
      apply (IH vs i Hk Hv). intros j Hj.
      specialize (Honly (S j) Hj). injection Honly. auto.
Qed.

Lemma average_fare_run (df : pd.DataFrame) (pclass fare : pd.Series) :
  pd.column df "Pclass" = Some pclass ->
  pd.column df "Fare" = Some fare ->
  calculate_average_fare_by_class df = (pd.groupby_mean pclass fare, df).
Proof.
  intros Hp Hs.
  unfold calculate_average_fare_by_class, df_groupby_mean, df_groupby_getitem,
    df_getitem, bind, get_state, ret, lift, pd.getitem.
  cbv beta. rewrite Hp. cbv iota beta. rewrite Hs. reflexivity.
Qed.

Lemma groupby_mean_entry (by_ val : pd.Series) (rates : pd.Indexed np.float64)
    (k : label) :
  pd.groupby_mean by_ val = Return rates ->
  In (Some k) (pd.keys by_) ->
  exists m,
    pd.lookup k rates = Some m
    /\ pd.group_mean k (combine (pd.keys by_) (pd.numbers val)) = Return m.
Proof.
  intros G Hk.
  assert (Hidx : pd.index rates = pd.group_keys by_)
    by (apply (groupby_mean_index _ _ _ G)).
  assert (Hin : In k (pd.index rates)) by (rewrite Hidx; apply In_group_keys, Hk).
  unfold pd.index in Hin. apply in_map_iff in Hin. destruct Hin as [[k' m] [E Hin]].
  cbn [fst] in E. subst k'. exists m. split.
  - apply lookup_In; [rewrite Hidx; apply NoDup_group_keys | assumption].
  - unfold pd.groupby_mean in G.
    destruct (pd.sequence _) as [entries|e] eqn:S; cbn [obind] in G; [|discriminate].
    injection G as <-. cbn [pd.items] in Hin.
    apply sequence_keyed in S. destruct S as [_ Hall].
    rewrite Forall_forall in Hall. apply (Hall _ Hin).
Qed.

(** X10: a class that has exactly one row, with a fare, gets that fare as
    its average fare. *)
Theorem average_fare_of_a_single_row
    (df : pd.DataFrame) (classes : list Z) (fares : list (option Q))
    (i : nat) (k : Z) (f : Q) :
  pd.column df "Pclass" = Some (pd.ColInt64 classes) ->
  pd.column df "Fare" = Some (pd.ColFloat64 fares) ->
  nth_error classes i = Some k ->
  nth_error fares i = Some (Some f) ->
  (forall j, nth_error classes j = Some k -> j = i) ->
  exists average_fare_by_class,
    fst (calculate_average_fare_by_class df) = Return average_fare_by_class
    /\ pd.getitem_int average_fare_by_class k = Return (np.fin f).
Proof.
  intros Hp Hf Hk Hfare Honly.
  destruct (groupby_mean_numeric (pd.ColInt64 classes) (pd.ColFloat64 fares))
    as [avg G]; [discriminate|].
  exists avg. split; [rewrite (average_fare_run df _ _ Hp Hf), G; reflexivity|].
  assert (Hin : In (Some (LInt k)) (pd.keys (pd.ColInt64 classes))).
  { cbn [pd.keys]. apply (in_map (fun z => Some (LInt z))), (nth_error_In _ _ Hk). }
  destruct (groupby_mean_entry _ _ avg (LInt k) G Hin) as (m & L & M).
  assert (Hd : pd.index_dtype avg = pd.int64).
  { unfold pd.groupby_mean in G.
    destruct (pd.sequence _); cbn [obind] in G; [|discriminate].
    injection G as <-. reflexivity. }
  unfold pd.getitem_int. rewrite Hd, L. f_equal.
  unfold pd.group_mean in M. cbn [pd.keys pd.numbers] in M.
  rewrite (select_single k classes _ i (Return (Some f)) Hk) in M;
    [|rewrite nth_error_map, Hfare; reflexivity | assumption].
  cbn in M. injection M as <-. apply fin_eq.
  unfold np.of_int. rewrite Qplus_0_r. unfold Qdiv.
  change (/ inject_Z 1)%Q with 1%Q. apply Qmult_1_r.
Qed.

(** ** The figure *)

(** X11: [visualize_distributions] prints nothing and never changes the
    table.  Without an [Age] column it raises [KeyError] for that name
    and shows nothing; it shows a figure only when it returns, exactly
    one, and the histogram of that figure holds no missing age. *)
Theorem visualize_distributions_effects
    (df : pd.DataFrame) (out : console)
    (r : outcome unit) (st : pd.DataFrame * console) :
  visualize_distributions (df, out) = (r, st) ->
  fst st = df
  /\ stdout (snd st) = stdout out
  /\ (pd.column df "Age" = None -> r = Raise (KeyError (LStr "Age")))
  /\ match r with
     | Return _ =>
         exists fig, shown (snd st) = (shown out ++ [fig])%list
                     /\ no_missing (hist_data fig)
     | Raise _ => shown (snd st) = shown out
     end.
Proof.
  unfold visualize_distributions, bind, call, get_state. cbn [fst snd].
  destruct (pd.column df "Age") as [age|] eqn:A.
  - rewrite (df_getitem_present df _ _ A). cbv beta iota. cbn [fst snd].
    destruct (pd.column df "Pclass") as [pclass|];
      [destruct (pd.column df "Fare") as [fare|]|];
      unfold show, raise; cbn [fst snd]; intros H; injection H as <- <-;
      cbn [fst snd stdout shown]; repeat split; try discriminate.
    eexists. split; [reflexivity|].
    unfold no_missing. cbn [hist_data].
    destruct age as [l|l|l]; cbn [dropna_column pd.keys]; intros Hin;
      apply in_map_iff in Hin; destruct Hin as [x [E Hx]].
    + discriminate.
    + apply in_map_iff in Hx. destruct Hx as [y [<- _]]. discriminate.
    + apply in_map_iff in Hx. destruct Hx as [y [<- _]]. discriminate.
  - rewrite (df_getitem_missing df _ A). cbv beta iota. intros H.
    injection H as <- <-.
    cbn [fst snd]. repeat split.
Qed.

(** ** What a run prints and shows *)

Lemma outputs_print (l : list piece) : outputs 1 0 (print l).
Proof.
  intros df out r st H. unfold print in H. injection H as <- <-.
  split; [reflexivity|]. exists [l], []. cbn [fst snd stdout shown].
  rewrite app_nil_r. repeat split.
Qed.

Lemma outputs_lift {A} (r : outcome A) :
  outputs 0 0 (@lift (pd.DataFrame * console) A r).
Proof.
  intros df out r' st H. unfold lift in H. injection H as <- <-.
  split; [reflexivity|]. exists [], []. cbn [fst snd]. rewrite !app_nil_r.
  destruct r; repeat split; reflexivity.
Qed.

Lemma outputs_call {A} (c : M pd.DataFrame A) :
  read_only c -> outputs 0 0 (call (W := console) c).
Proof.
  intros Hc df out r st H. unfold call in H. cbn [fst snd] in H.
  specialize (Hc df). destruct (c df) as [r' df']. cbn [snd] in Hc. subst df'.
  injection H as <- <-. split; [reflexivity|]. exists [], [].
  cbn [fst snd]. rewrite !app_nil_r. destruct r'; repeat split; reflexivity.
Qed.

Lemma outputs_seq {A B} (n1 n2 m : nat) (c : M (pd.DataFrame * console) A)
    (k : A -> M (pd.DataFrame * console) B) :
  outputs n1 0 c -> (forall a, outputs n2 m (k a)) ->
  outputs (n1 + n2) m (bind c k).
Proof.
  intros Hc Hk df out r st H. unfold bind in H.
  destruct (c (df, out)) as [[a|e] [df1 out1]] eqn:C.
  - destruct (Hc df out _ _ C) as (E1 & lines1 & figs1 & S1 & F1 & L1 & G1).
    cbn [fst snd] in *. subst df1.
    apply length_zero_iff_nil in G1. subst figs1. rewrite app_nil_r in F1.
    destruct (Hk a df out1 _ _ H) as (E2 & lines2 & figs2 & S2 & F2 & R2).
    split; [assumption|]. exists (lines1 ++ lines2)%list, figs2.
    rewrite S2, S1, F2, F1, <- app_assoc, length_app.
    split; [reflexivity|]. split; [reflexivity|].
    destruct r; destruct R2; split; try assumption; lia.
  - injection H as <- <-.
    destruct (Hc df out _ _ C) as (E1 & lines1 & figs1 & S1 & F1 & L1 & G1).
    split; [assumption|]. exists lines1, figs1.
    split; [assumption|]. split; [assumption|]. split; [lia | assumption].
Qed.

Lemma outputs_visualize_distributions : outputs 0 1 visualize_distributions.
Proof.
  intros df out r st.
  unfold visualize_distributions, bind, call, get_state. cbn [fst snd].
  destruct (pd.column df "Age") as [age|] eqn:A.
  - rewrite (df_getitem_present df _ _ A). cbv beta iota. cbn [fst snd].
    destruct (pd.column df "Pclass") as [pclass|];
      [destruct (pd.column df "Fare") as [fare|]|];
      unfold show, raise; cbn [fst snd]; intros H; injection H as <- <-;
      (split; [reflexivity|]); cbn [fst snd stdout shown].
    + exists [], [mkFigure (dropna_column age) pclass fare].
      rewrite app_nil_r. repeat split.
    + exists [], []. rewrite !app_nil_r. repeat split. apply le_n.
    + exists [], []. rewrite !app_nil_r. repeat split. apply le_n.
  - rewrite (df_getitem_missing df _ A). cbv beta iota. intros H.
    injection H as <- <-. split; [reflexivity|]. exists [], [].
    cbn [fst snd]. rewrite !app_nil_r. repeat split. apply le_n.
Qed.

Ltac outputs_block :=
  repeat first
    [ apply outputs_print
    | apply outputs_lift
    | apply (outputs_seq 0);
      [ first [ apply outputs_lift
              | apply outputs_call;
                first [ apply read_only_calculate_survival_rate
                      | apply read_only_calculate_gender_proportion
                      | apply read_only_calculate_class_survival_rate
                      | apply read_only_count_siblings_spouses_aboard
                      | apply read_only_calculate_average_fare_by_class
                      | apply read_only_count_passengers_by_port
                      | apply read_only_calculate_gender_survival_rate
                      | apply read_only_count_unique_tickets ] ]
      | intros ? ] ].

Lemma outputs_q1 : outputs 1 0 q1_survival_rate.
Proof. unfold q1_survival_rate. outputs_block. Qed.

Lemma outputs_q2 : outputs 1 0 q2_gender_proportion.
Proof. unfold q2_gender_proportion. outputs_block. Qed.

Lemma outputs_q3 : outputs 2 0 q3_class_survival_rate.
Proof.
  unfold q3_class_survival_rate.
  do 5 (apply (outputs_seq 0);
        [first [apply outputs_lift
               | apply outputs_call, read_only_calculate_class_survival_rate]
        | intros ?]).
  apply (outputs_seq 1 1); [apply outputs_print | intros ?; apply outputs_print].
Qed.

Lemma outputs_q4 : outputs 1 0 q4_siblings_spouses.
Proof. unfold q4_siblings_spouses. outputs_block. Qed.

Lemma outputs_q5 : outputs 1 0 q5_average_fare.
Proof. unfold q5_average_fare. outputs_block. Qed.

Lemma outputs_q6 : outputs 1 0 q6_passengers_by_port.
Proof. unfold q6_passengers_by_port. outputs_block. Qed.

Lemma outputs_q9 : outputs 1 0 q9_gender_survival_rate.
Proof. unfold q9_gender_survival_rate. outputs_block. Qed.

Lemma outputs_q10 : outputs 1 0 q10_unique_tickets.
Proof. unfold q10_unique_tickets. outputs_block. Qed.

Lemma outputs_analysis : outputs 9 1 analysis.
Proof.
  unfold analysis.
  apply (outputs_seq 1 8); [apply outputs_q1 | intros _].
  apply (outputs_seq 1 7); [apply outputs_q2 | intros _].
  apply (outputs_seq 2 5); [apply outputs_q3 | intros _].
  apply (outputs_seq 1 4); [apply outputs_q4 | intros _].
  apply (outputs_seq 1 3); [apply outputs_q5 | intros _].
  apply (outputs_seq 1 2); [apply outputs_q6 | intros _].
  apply (outputs_seq 1 1); [apply outputs_q9 | intros _].
  apply (outputs_seq 1 0); [apply outputs_q10 | intros _].
  apply outputs_visualize_distributions.
Qed.

(** X12: whatever the table, the main sequence only adds to the console
    and never changes the table.  When it returns it has printed exactly
    nine lines and shown exactly one figure; when it ends in an exception
    it has printed at most nine lines and shown no figure. *)
Theorem analysis_prints_nine_lines_and_shows_one_figure
    (df : pd.DataFrame) (out : console)
    (r : outcome unit) (st : pd.DataFrame * console) :
  analysis (df, out) = (r, st) ->
  fst st = df
  /\ exists lines figs,
       stdout (snd st) = (stdout out ++ lines)%list
       /\ shown (snd st) = (shown out ++ figs)%list
       /\ match r with
          | Return _ => List.length lines = 9%nat /\ List.length figs = 1%nat
          | Raise _ => (List.length lines <= 9)%nat /\ figs = []
          end.
Proof. apply outputs_analysis. Qed.

(** ** A run that completes *)

Lemma call_return {A} (c : M pd.DataFrame A) (df : pd.DataFrame) (out : console)
    (a : A) :
  c df = (Return a, df) -> call c (df, out) = (Return a, (df, out)).
Proof. intros H. unfold call. cbn [fst snd]. rewrite H. reflexivity. Qed.

Lemma call_raise {A} (c : M pd.DataFrame A) (df : pd.DataFrame) (out : console)
    (e : exc) :
  c df = (Raise e, df) -> call c (df, out) = (Raise e, (df, out)).
Proof. intros H. unfold call. cbn [fst snd]. rewrite H. reflexivity. Qed.

Lemma lift_return {S A} (r : outcome A) (a : A) (s : S) :
  r = Return a -> lift r s = (Return a, s).
Proof. intros ->. reflexivity. Qed.

Lemma survival_rate_numeric (df : pd.DataFrame) (survived : pd.Series) :
  pd.column df "Survived" = Some survived ->
  pd.dtype_of survived <> pd.object ->
  exists rate, calculate_survival_rate df = (Return rate, df).
Proof.
  intros Hc Hn. unfold calculate_survival_rate.
  rewrite (bind_return df_len _ df df (pd.len df)) by reflexivity.
  rewrite (bind_return _ _ _ _ _ (df_getitem_present df _ _ Hc)).
  destruct survived as [l|l|l]; [| |cbn in Hn; congruence];
    eexists; reflexivity.
Qed.

Lemma getitem_str_present {V} (s : pd.Indexed V) (key : string) :
  In (LStr key) (pd.index s) -> exists v, pd.getitem_str s key = Return v.
Proof.
  intros H. destruct (getitem_str_cases s key) as [[_ E]|[N _]];
    [assumption | contradiction].
Qed.

Lemma getitem_int_present {V} (s : pd.Indexed V) (key : Z) :
  pd.index_dtype s = pd.int64 ->
  In (LInt key) (pd.index s) ->
  exists v, pd.getitem_int s key = Return v.
Proof.
  intros Hd H. unfold pd.getitem_int. rewrite Hd.
  destruct (lookup_present _ _ H) as [v ->]. eexists; reflexivity.
Qed.

Lemma groupby_mean_dtype (by_ val : pd.Series) (rates : pd.Indexed np.float64) :
  pd.groupby_mean by_ val = Return rates ->
  pd.index_dtype rates = pd.dtype_of by_.
Proof.
  unfold pd.groupby_mean.
  destruct (pd.sequence _); cbn [obind]; [|discriminate].
  intros H. injection H as <-. reflexivity.
Qed.

Lemma q1_returns (df : pd.DataFrame) (out : console) (survived : pd.Series) :
  pd.column df "Survived" = Some survived ->
  pd.dtype_of survived <> pd.object ->
  exists out', q1_survival_rate (df, out) = (Return tt, (df, out')).
Proof.
  intros Hc Hn. destruct (survival_rate_numeric df survived Hc Hn) as [v Hv].
  unfold q1_survival_rate.
  rewrite (bind_return _ _ _ _ _ (call_return _ _ out _ Hv)).
  eexists. reflexivity.
Qed.

Lemma q2_returns (df : pd.DataFrame) (out : console) (sex : pd.Series) :
  pd.column df "Sex" = Some sex ->
  In (Some (LStr "male")) (pd.keys sex) ->
  In (Some (LStr "female")) (pd.keys sex) ->
  exists out', q2_gender_proportion (df, out) = (Return tt, (df, out')).
Proof.
  intros Hc Hm Hf. unfold q2_gender_proportion.
  rewrite (bind_return _ _ _ _ _
             (call_return _ _ out _ (gender_proportion_run df sex Hc))).
  destruct (getitem_str_present (percent (pd.value_counts_normalize sex)) "male")
    as [m Em]; [apply index_gender_proportion; assumption|].
  destruct (getitem_str_present (percent (pd.value_counts_normalize sex)) "female")
    as [f Ef]; [apply index_gender_proportion; assumption|].
  rewrite (bind_return _ _ _ _ _ (lift_return _ _ _ Em)).
  rewrite (bind_return _ _ _ _ _ (lift_return _ _ _ Ef)).
  eexists. reflexivity.
Qed.

Lemma class_lookups (classes : list Z) (val : pd.Series)
    (rates : pd.Indexed np.float64) (k : Z) :
  pd.groupby_mean (pd.ColInt64 classes) val = Return rates ->
  In k classes ->
  (exists v, pd.getitem_int rates k = Return v)
  /\ exists v, pd.getitem_int (percent rates) k = Return v.
Proof.
  intros G Hk.
  assert (Hin : In (LInt k) (pd.index rates)).
  { rewrite (groupby_mean_index _ _ _ G). apply In_group_keys.
    cbn [pd.keys]. apply (in_map (fun z => Some (LInt z))), Hk. }
  pose proof (groupby_mean_dtype _ _ _ G) as Hd. cbn [pd.dtype_of] in Hd.
  split; apply getitem_int_present; try assumption.
  rewrite index_percent. assumption.
Qed.

Lemma q3_returns (df : pd.DataFrame) (out : console) (classes : list Z)
    (survived : pd.Series) :
  pd.column df "Pclass" = Some (pd.ColInt64 classes) ->
  pd.column df "Survived" = Some survived ->
  pd.dtype_of survived <> pd.object ->
  In 1 classes -> In 2 classes -> In 3 classes ->
  exists out', q3_class_survival_rate (df, out) = (Return tt, (df, out')).
Proof.
  intros Hp Hs Hn H1 H2 H3.
  destruct (groupby_mean_numeric (pd.ColInt64 classes) survived Hn) as [r G].
  assert (Hrun : calculate_class_survival_rate df = (Return (percent r), df)).
  { rewrite (class_survival_rate_run df _ _ Hp Hs), G. reflexivity. }
  unfold q3_class_survival_rate.
  rewrite (bind_return _ _ _ _ _ (call_return _ _ out _ Hrun)).
  destruct (class_lookups classes survived r 1 G H1) as [_ [v1 E1]].
  destruct (class_lookups classes survived r 2 G H2) as [_ [v2 E2]].
  destruct (class_lookups classes survived r 3 G H3) as [_ [v3 E3]].
  assert (Hmax : exists k, pd.idxmax (percent r) = Return k).
  { unfold pd.idxmax. destruct (pd.items (percent r)) eqn:I.
    - exfalso. unfold pd.getitem_int, pd.lookup in E1. rewrite I in E1.
      destruct (pd.index_dtype (percent r)); cbn in E1; discriminate.
    - eexists. reflexivity. }
  destruct Hmax as [k Ek].
  rewrite (bind_return _ _ _ _ _ (lift_return _ _ _ Ek)).
  rewrite (bind_return _ _ _ _ _ (lift_return _ _ _ E1)).
  rewrite (bind_return _ _ _ _ _ (lift_return _ _ _ E2)).
  rewrite (bind_return _ _ _ _ _ (lift_return _ _ _ E3)).
  eexists. reflexivity.
Qed.

Lemma q4_returns (df : pd.DataFrame) (out : console) (sibsp : pd.Series) :
  pd.column df "SibSp" = Some sibsp ->
  pd.dtype_of sibsp <> pd.object ->
  exists out', q4_siblings_spouses (df, out) = (Return tt, (df, out')).
Proof.
  intros Hc Hn.
  assert (Hrun : exists n, count_siblings_spouses_aboard df = (Return n, df)).
  { unfold count_siblings_spouses_aboard.
    rewrite (bind_return _ _ _ _ _ (df_getitem_present df _ _ Hc)).
    destruct sibsp as [l|l|l]; [| |cbn in Hn; congruence]; eexists; reflexivity. }
  destruct Hrun as [n Hrun]. unfold q4_siblings_spouses.
  rewrite (bind_return _ _ _ _ _ (call_return _ _ out _ Hrun)).
  eexists. reflexivity.
Qed.

Lemma q5_returns (df : pd.DataFrame) (out : console) (classes : list Z)
    (fare : pd.Series) :
  pd.column df "Pclass" = Some (pd.ColInt64 classes) ->
  pd.column df "Fare" = Some fare ->
  pd.dtype_of fare <> pd.object ->
  In 1 classes -> In 2 classes -> In 3 classes ->
  exists out', q5_average_fare (df, out) = (Return tt, (df, out')).
Proof.
  intros Hp Hf Hn H1 H2 H3.
  destruct (groupby_mean_numeric (pd.ColInt64 classes) fare Hn) as [r G].
  assert (Hrun : calculate_average_fare_by_class df = (Return r, df)).
  { rewrite (average_fare_run df _ _ Hp Hf), G. reflexivity. }
  unfold q5_average_fare.
  rewrite (bind_return _ _ _ _ _ (call_return _ _ out _ Hrun)).
  destruct (class_lookups classes fare r 1 G H1) as [[v1 E1] _].
  destruct (class_lookups classes fare r 2 G H2) as [[v2 E2] _].
  destruct (class_lookups classes fare r 3 G H3) as [[v3 E3] _].
  rewrite (bind_return _ _ _ _ _ (lift_return _ _ _ E1)).
  rewrite (bind_return _ _ _ _ _ (lift_return _ _ _ E2)).
  rewrite (bind_return _ _ _ _ _ (lift_return _ _ _ E3)).
  eexists. reflexivity.
Qed.

Lemma q6_returns (df : pd.DataFrame) (out : console) (embarked : pd.Series) :
  pd.column df "Embarked" = Some embarked ->
  In (Some (LStr "C")) (pd.keys embarked) ->
  In (Some (LStr "Q")) (pd.keys embarked) ->
  In (Some (LStr "S")) (pd.keys embarked) ->
  exists out', q6_passengers_by_port (df, out) = (Return tt, (df, out')).
Proof.
  intros Hc HC HQ HS. unfold q6_passengers_by_port.
  rewrite (bind_return _ _ _ _ _
             (call_return _ _ out _ (passengers_by_port_run df embarked Hc))).
  destruct (getitem_str_present (pd.value_counts embarked) "C") as [c Ec];
    [apply index_value_counts; assumption|].
  destruct (getitem_str_present (pd.value_counts embarked) "Q") as [q Eq];
    [apply index_value_counts; assumption|].
  destruct (getitem_str_present (pd.value_counts embarked) "S") as [s Es];
    [apply index_value_counts; assumption|].
  rewrite (bind_return _ _ _ _ _ (lift_return _ _ _ Ec)).
  rewrite (bind_return _ _ _ _ _ (lift_return _ _ _ Eq)).
  rewrite (bind_return _ _ _ _ _ (lift_return _ _ _ Es)).
  eexists. reflexivity.
Qed.

Lemma q9_returns (df : pd.DataFrame) (out : console) (sex survived : pd.Series) :
  pd.column df "Sex" = Some sex ->
  pd.column df "Survived" = Some survived ->
  pd.dtype_of survived <> pd.object ->
  In (Some (LStr "male")) (pd.keys sex) ->
  In (Some (LStr "female")) (pd.keys sex) ->
  exists out', q9_gender_survival_rate (df, out) = (Return tt, (df, out')).
Proof.
  intros Hx Hs Hn Hm Hf.
  destruct (groupby_mean_numeric sex survived Hn) as [r G].
  assert (Hrun : calculate_gender_survival_rate df = (Return (percent r), df)).
  { rewrite (gender_survival_rate_run df _ _ Hx Hs), G. reflexivity. }
  unfold q9_gender_survival_rate.
  rewrite (bind_return _ _ _ _ _ (call_return _ _ out _ Hrun)).
  assert (Hidx : forall k, In (Some k) (pd.keys sex) ->
                           In k (pd.index (percent r))).
  { intros k Hk. rewrite index_percent, (groupby_mean_index _ _ _ G).
    apply In_group_keys. assumption. }
  destruct (getitem_str_present (percent r) "male" (Hidx _ Hm)) as [m Em].
  destruct (getitem_str_present (percent r) "female" (Hidx _ Hf)) as [f Ef].
  rewrite (bind_return _ _ _ _ _ (lift_return _ _ _ Em)).
  rewrite (bind_return _ _ _ _ _ (lift_return _ _ _ Ef)).
  eexists. reflexivity.
Qed.

Lemma q10_returns (df : pd.DataFrame) (out : console) (ticket : pd.Series) :
  pd.column df "Ticket" = Some ticket ->
  exists out', q10_unique_tickets (df, out) = (Return tt, (df, out')).
Proof.
  intros Hc.
  assert (Hrun : count_unique_tickets df
                 = (Return (np.PyInt (pd.nunique ticket)), df)).
  { unfold count_unique_tickets.
    rewrite (bind_return _ _ _ _ _ (df_getitem_present df _ _ Hc)). reflexivity. }
  unfold q10_unique_tickets.
  rewrite (bind_return _ _ _ _ _ (call_return _ _ out _ Hrun)).
  eexists. reflexivity.
Qed.

Lemma visualize_returns (df : pd.DataFrame) (out : console)
    (age pclass fare : pd.Series) :
  pd.column df "Age" = Some age ->
  pd.column df "Pclass" = Some pclass ->
  pd.column df "Fare" = Some fare ->
  exists out', visualize_distributions (df, out) = (Return tt, (df, out')).
Proof.
  intros Ha Hp Hf. unfold visualize_distributions.
  rewrite (bind_return _ _ _ _ _
             (call_return _ _ out _ (df_getitem_present df _ _ Ha))).
  rewrite (bind_return (call get_state) _ (df, out) (df, out) df) by reflexivity.
  rewrite Hp, Hf. eexists. reflexivity.
Qed.

(** X13: the main sequence completes on every table that has the eight
    columns with numeric [Survived], [SibSp] and [Fare], an integer
    [Pclass] in which the classes 1, 2 and 3 occur, a [Sex] in which male
    and female occur and an [Embarked] in which C, Q and S occur: it
    returns after nine printed lines and one figure, and so does [main]
    when [load_dataset] gave that table. *)
Theorem analysis_completes_on_a_full_table
    (df : pd.DataFrame) (out : console)
    (survived sex age sibsp fare embarked ticket : pd.Series)
    (classes : list Z) :
  pd.column df "Survived" = Some survived ->
  pd.column df "Pclass" = Some (pd.ColInt64 classes) ->
  pd.column df "Sex" = Some sex ->
  pd.column df "Age" = Some age ->
  pd.column df "SibSp" = Some sibsp ->
  pd.column df "Fare" = Some fare ->
  pd.column df "Embarked" = Some embarked ->
  pd.column df "Ticket" = Some ticket ->
  pd.dtype_of survived <> pd.object ->
  pd.dtype_of sibsp <> pd.object ->
  pd.dtype_of fare <> pd.object ->
  In 1 classes -> In 2 classes -> In 3 classes ->
  In (Some (LStr "male")) (pd.keys sex) ->
  In (Some (LStr "female")) (pd.keys sex) ->
  In (Some (LStr "C")) (pd.keys embarked) ->
  In (Some (LStr "Q")) (pd.keys embarked) ->
  In (Some (LStr "S")) (pd.keys embarked) ->
  exists out' lines fig,
    analysis (df, out) = (Return tt, (df, out'))
    /\ stdout out' = (stdout out ++ lines)%list
    /\ List.length lines = 9%nat
    /\ shown out' = (shown out ++ [fig])%list
    /\ forall files parse_csv before,
         load_dataset files parse_csv "./data/Titanic.csv" (tt, before)
         = (Return (Some df), (tt, out)) ->
         main files parse_csv (tt, before) = (Return tt, (tt, out')).
Proof.
  intros Hsurvived Hpclass Hsex Hage Hsibsp Hfare Hembarked Hticket
    Nsurvived Nsibsp Nfare H1 H2 H3 Hm Hf HC HQ HS.
  destruct (q1_returns df out survived Hsurvived Nsurvived) as [o1 E1].
  destruct (q2_returns df o1 sex Hsex Hm Hf) as [o2 E2].
  destruct (q3_returns df o2 classes survived Hpclass Hsurvived Nsurvived H1 H2 H3)
    as [o3 E3].
  destruct (q4_returns df o3 sibsp Hsibsp Nsibsp) as [o4 E4].
  destruct (q5_returns df o4 classes fare Hpclass Hfare Nfare H1 H2 H3) as [o5 E5].
  destruct (q6_returns df o5 embarked Hembarked HC HQ HS) as [o6 E6].
  destruct (q9_returns df o6 sex survived Hsex Hsurvived Nsurvived Hm Hf)
    as [o7 E7].
  destruct (q10_returns df o7 ticket Hticket) as [o8 E8].
  destruct (visualize_returns df o8 age _ fare Hage Hpclass Hfare) as [o9 E9].
  assert (Hrun : analysis (df, out) = (Return tt, (df, o9))).
  { unfold analysis.
    rewrite (bind_return _ _ _ _ _ E1), (bind_return _ _ _ _ _ E2),
      (bind_return _ _ _ _ _ E3), (bind_return _ _ _ _ _ E4),
      (bind_return _ _ _ _ _ E5), (bind_return _ _ _ _ _ E6),
      (bind_return _ _ _ _ _ E7), (bind_return _ _ _ _ _ E8).
    assumption. }
  destruct (outputs_analysis df out _ _ Hrun) as (_ & lines & figs & S & F & L & G).
  cbn [snd] in S, F.
  destruct figs as [|fig [|fig' figs]]; try discriminate G.
  exists o9, lines, fig. repeat split; try assumption.
  intros files parse_csv before Hload. unfold main.
  rewrite (bind_return _ _ _ _ _ Hload). unfold with_table. cbn [snd].
  rewrite Hrun. reflexivity.
Qed.

(** ** A file without data rows *)

Lemma contains_Unnamed_Survived : contains "Unnamed" "Survived" = false.
Proof. reflexivity. Qed.

(** X14: when the file has a header line and no data row, so that the
    parsed table has no rows and an [object] column [Survived], the run
    ends with [ZeroDivisionError] at the first statistic: nothing is
    printed and no figure is shown. *)
Theorem header_only_file_ends_the_run
    (files : string -> option string) (parse_csv : string -> outcome pd.DataFrame)
    (text : string) (titanic_df : pd.DataFrame) (survived : pd.Series)
    (out : console) :
  files "./data/Titanic.csv" = Some text ->
  parse_csv text = Return titanic_df ->
  pd.wf titanic_df ->
  pd.nrows titanic_df = 0%nat ->
  pd.column titanic_df "Survived" = Some survived ->
  pd.dtype_of survived = pd.object ->
  main files parse_csv (tt, out) = (Raise ZeroDivisionError, (tt, out)).
Proof.
  intros Hfile Hparse Hwf Hrows Hc Hd.
  assert (R : read_outcome files parse_csv "./data/Titanic.csv" = Return titanic_df).
  { unfold read_outcome. rewrite Hfile. assumption. }
  unfold main. rewrite (bind_return _ _ _ _ _ (load_dataset_parsed _ _ _ _ out R)).
  set (clean := pd.mkDataFrame _ _).
  assert (Hc' : pd.column clean "Survived" = Some survived).
  { unfold pd.column, clean. cbn [pd.columns].
    rewrite find_filter; [exact Hc|].
    intros nc E. apply String.eqb_eq in E. rewrite E. reflexivity. }
  pose proof (wf_column titanic_df _ _ Hwf Hc) as Hsize. rewrite Hrows in Hsize.
  assert (Hs : survived = pd.ColObject []).
  { destruct (size_zero _ Hsize) as [-> | [-> | ->]];
      [discriminate Hd | discriminate Hd | reflexivity]. }
  subst survived.
  assert (Hrate : calculate_survival_rate clean = (Raise ZeroDivisionError, clean)).
  { unfold calculate_survival_rate.
    rewrite (bind_return df_len _ clean clean (pd.len clean)) by reflexivity.
    rewrite (bind_return _ _ _ _ _ (df_getitem_present clean _ _ Hc')).
    unfold pd.len, clean. cbn [pd.nrows]. rewrite Hrows. reflexivity. }
  unfold with_table, analysis, q1_survival_rate. cbn [snd].
  rewrite (bind_raise _ _ (clean, out) (clean, out) ZeroDivisionError);
    [reflexivity|].
  rewrite (bind_raise _ _ _ _ _ (call_raise _ _ out _ Hrate)). reflexivity.
Qed.

(** ** Shares and counts *)

Lemma lookup_map_values {V W} (f : V -> W) (s : pd.Indexed V) (k : label) :
  pd.lookup k (pd.map_values f s) = option_map f (pd.lookup k s).
Proof.
  unfold pd.lookup, pd.map_values. cbn [pd.items].
  induction (pd.items s) as [|[k' v] l IH]; [reflexivity|].
  cbn [map find fst snd]. destruct (pd.label_eqb k' k); [reflexivity | assumption].
Qed.

(** X15: the share [calculate_gender_proportion] gives a [Sex] value is
    the number of rows holding it, out of the number of rows whose [Sex]
    is not missing, as a percentage. *)
Theorem gender_share_is_count_over_present_rows
    (df : pd.DataFrame) (sex : pd.Series) (k : label) :
  pd.column df "Sex" = Some sex ->
  In k (present_rows sex) ->
  exists shares,
    fst (calculate_gender_proportion df) = Return shares
    /\ pd.lookup k shares
       = Some (np.fin (percentage (pd.count_label k (present_rows sex))
                                  (Z.of_nat (List.length (present_rows sex))))).
Proof.
  intros Hc Hk. eexists. split.
  - rewrite (gender_proportion_run df sex Hc). reflexivity.
  - unfold percent, pd.value_counts_normalize.
    rewrite !lookup_map_values, (value_counts_lookup sex k Hk), value_counts_total.
    cbn [option_map]. f_equal.
    assert (E : (Z.of_nat (List.length (present_rows sex)) =? 0) = false).
    { apply Z.eqb_neq. destruct (present_rows sex); [contradiction|].
      cbn [List.length]. lia. }
    unfold np.fdiv. rewrite E. unfold np.fin at 2, np.fmul.
    apply fin_eq. unfold percentage, np.of_int. rewrite Qred_correct.
    reflexivity.
Qed.

(** ** Keys of the grouped statistics *)

(** X16: [calculate_average_fare_by_class] and
    [calculate_gender_survival_rate] return a mapping whenever the column
    that is averaged is numeric; its keys are the values of the grouping
    column that occur in some row, each once and in ascending order. *)
Theorem grouped_statistics_keys (df : pd.DataFrame) (by_ val : pd.Series) :
  pd.dtype_of val <> pd.object ->
  (pd.column df "Pclass" = Some by_ ->
   pd.column df "Fare" = Some val ->
   exists averages,
     fst (calculate_average_fare_by_class df) = Return averages
     /\ (forall k, In k (pd.index averages) <-> In (Some k) (pd.keys by_))
     /\ NoDup (pd.index averages)
     /\ StronglySorted label_le (pd.index averages))
  /\ (pd.column df "Sex" = Some by_ ->
      pd.column df "Survived" = Some val ->
      exists rates,
        fst (calculate_gender_survival_rate df) = Return rates
        /\ (forall k, In k (pd.index rates) <-> In (Some k) (pd.keys by_))
        /\ NoDup (pd.index rates)
        /\ StronglySorted label_le (pd.index rates)).
Proof.
  intros Hn. destruct (groupby_mean_numeric by_ val Hn) as [r G].
  pose proof (groupby_mean_index _ _ _ G) as Hidx.
  split; intros Hb Hv.
  - exists r. split; [rewrite (average_fare_run df _ _ Hb Hv), G; reflexivity|].
    rewrite Hidx. split; [intros k; apply In_group_keys|].
    split; [apply NoDup_group_keys | apply group_keys_sorted].
  - exists (percent r).
    split; [rewrite (gender_survival_rate_run df _ _ Hb Hv), G; reflexivity|].
    rewrite index_percent, Hidx. split; [intros k; apply In_group_keys|].
    split; [apply NoDup_group_keys | apply group_keys_sorted].
Qed.

(** * The further properties on the sample tables *)

Lemma load_failure_is_reported_by_kind_witness :
  load_dataset one_file (parse_fails EmptyDataError) "./data/Titanic.csv"
    (tt, silent)
  = (Return None, (tt, printed silent [Text "Error: The file is empty."]))
  /\ load_dataset one_file (parse_fails ParserError) "./data/Titanic.csv"
       (tt, silent)
     = (Return None,
        (tt, printed silent [Text "Error: There was a problem parsing the file."]))
  /\ load_dataset one_file (parse_fails TypeError) "./data/Titanic.csv"
       (tt, silent)
     = (Return None,
        (tt, printed silent [Text "An error occurred: "; PlainExc TypeError]))
  /\ main one_file (parse_fails EmptyDataError) (tt, silent)
     = (Return tt, (tt, printed silent [Text "Error: The file is empty."])).
Proof.
  split; [|split; [|split]].
  - apply (load_failure_is_reported_by_kind one_file (parse_fails EmptyDataError)
             "./data/Titanic.csv" "csv" silent eq_refl).
    reflexivity.
  - apply (load_failure_is_reported_by_kind one_file (parse_fails ParserError)
             "./data/Titanic.csv" "csv" silent eq_refl).
    reflexivity.
  - apply (load_failure_is_reported_by_kind one_file (parse_fails TypeError)
             "./data/Titanic.csv" "csv" silent eq_refl);
      [reflexivity | discriminate | discriminate | discriminate].
  - apply (load_failure_is_reported_by_kind one_file (parse_fails EmptyDataError)
             "./data/Titanic.csv" "csv" silent eq_refl).
    reflexivity.
Defined.

Lemma missing_column_raises_key_error_witness :
  fst (calculate_survival_rate no_columns) = Raise (KeyError (LStr "Survived"))
  /\ fst (calculate_class_survival_rate men_only) = Raise (KeyError (LStr "Pclass"))
  /\ fst (count_unique_tickets men_only) = Raise (KeyError (LStr "Ticket"))
  /\ fst (calculate_class_survival_rate groups_only)
     = Raise (KeyError (LStr "Column not found: Survived"))
  /\ fst (calculate_average_fare_by_class groups_only)
     = Raise (KeyError (LStr "Column not found: Fare"))
  /\ fst (calculate_gender_survival_rate groups_only)
     = Raise (KeyError (LStr "Column not found: Survived")).
Proof.
  destruct (missing_column_raises_key_error no_columns) as (Hsurvived & _).
  destruct (missing_column_raises_key_error men_only)
    as (_ & _ & Hpclass & _ & _ & Hticket & _).
  destruct (missing_column_raises_key_error groups_only)
    as (_ & _ & _ & _ & _ & _ & Hclass & Hsex).
  split; [apply Hsurvived; reflexivity|].
  split; [apply Hpclass; reflexivity|].
  split; [apply Hticket; reflexivity|].
  destruct (Hclass (pd.ColInt64 [1; 3]) eq_refl) as [Hrate Hfare].
  split; [apply Hrate; reflexivity|].
  split; [apply Hfare; reflexivity|].
  apply (Hsex (pd.ColObject [Some "female"; Some "male"])); reflexivity.
Defined.

Lemma count_siblings_spouses_aboard_bounds_witness :
  exists n,
    fst (count_siblings_spouses_aboard three_classes) = Return (np.Int64 n)
    /\ 0 <= n <= Z.of_nat (List.length [0; 1; 0])
    /\ (n = 0 <-> Forall (fun z => z <= 0) [0; 1; 0])
    /\ (n = Z.of_nat (List.length [0; 1; 0]) <-> Forall (fun z => 0 < z) [0; 1; 0]).
Proof.
  apply (count_siblings_spouses_aboard_bounds three_classes [0; 1; 0]).
  reflexivity.
Defined.

Lemma count_unique_tickets_bounds_witness :
  exists n,
    fst (count_unique_tickets two_passengers) = Return (np.PyInt n)
    /\ 0 <= n <= Z.of_nat (List.length
                             (present_rows (pd.ColObject [Some "A"; Some "B"])))
    /\ (n = Z.of_nat (List.length
                        (present_rows (pd.ColObject [Some "A"; Some "B"])))
        <-> NoDup (present_rows (pd.ColObject [Some "A"; Some "B"])))
    /\ (forall k, present_rows (pd.ColObject [Some "A"; Some "B"]) <> [] ->
                  (forall x, In x (present_rows (pd.ColObject [Some "A"; Some "B"]))
                             -> x = k) ->
                  n = 1).
Proof.
  apply (count_unique_tickets_bounds two_passengers
           (pd.ColObject [Some "A"; Some "B"])).
  reflexivity.
Defined.

Lemma missing_categories_do_not_count_witness :
  fst (count_passengers_by_port two_passengers)
  = fst (count_passengers_by_port three_classes)
  /\ fst (calculate_gender_proportion two_passengers)
     = fst (calculate_gender_proportion unknown_sex).
Proof.
  split.
  - apply (proj2 (missing_categories_do_not_count three_classes two_passengers
                    (pd.ColObject [Some "C"; Some "S"; None])));
      reflexivity.
  - apply (proj1 (missing_categories_do_not_count unknown_sex two_passengers
                    (pd.ColObject [Some "female"; None; Some "male"])));
      reflexivity.
Defined.

Lemma calculate_survival_rate_with_missing_witness :
  fst (calculate_survival_rate unknown_outcome)
  = Return (np.Float64
              (np.fin (percentage (flagged [Some 1%Q; None; Some 0%Q; Some 1%Q])
                                  (pd.len unknown_outcome)))).
Proof.
  apply (calculate_survival_rate_with_missing unknown_outcome
           [Some 1%Q; None; Some 0%Q; Some 1%Q]).
  - discriminate.
  - reflexivity.
  - repeat first [apply Forall_nil | apply Forall_cons; [tauto|]].
Defined.

Lemma count_passengers_by_port_counts_witness :
  exists counts,
    fst (count_passengers_by_port three_classes) = Return counts
    /\ (forall k,
          In k (present_rows (pd.ColObject [Some "C"; Some "S"; None])) ->
          pd.lookup k counts
          = Some (pd.count_label k
                    (present_rows (pd.ColObject [Some "C"; Some "S"; None])))
          /\ 1 <= pd.count_label k
                    (present_rows (pd.ColObject [Some "C"; Some "S"; None])))
    /\ pd.Zsum (map snd (pd.items counts))
       = Z.of_nat (List.length
                     (present_rows (pd.ColObject [Some "C"; Some "S"; None])))
    /\ StronglySorted (fun a b => snd b <= snd a) (pd.items counts).
Proof.
  apply (count_passengers_by_port_counts three_classes
           (pd.ColObject [Some "C"; Some "S"; None])).
  reflexivity.
Defined.

Lemma survival_rates_are_percentages_witness :
  (exists rate,
      fst (calculate_survival_rate three_classes) = Return (np.Float64 rate)
      /\ is_percentage rate)
  /\ (exists rates,
        fst (calculate_class_survival_rate three_classes) = Return rates
        /\ Forall (fun kv => is_percentage (snd kv)) (pd.items rates))
  /\ (exists rates,
        fst (calculate_gender_survival_rate three_classes) = Return rates
        /\ Forall (fun kv => is_percentage (snd kv)) (pd.items rates)).
Proof.
  assert (Hwf : pd.wf three_classes)
    by (split; [reflexivity | repeat constructor]).
  assert (Hflags : Forall (fun z => z = 0 \/ z = 1) [1; 1; 0]) by flags.
  destruct (survival_rates_are_percentages three_classes [1; 1; 0]
              Hwf eq_refl Hflags) as (H1 & H2 & H3).
  split; [apply H1; discriminate|]. split.
  - apply (H2 (pd.ColInt64 [2; 1; 3])). reflexivity.
  - apply (H3 (pd.ColObject [Some "female"; Some "male"; Some "male"])).
    reflexivity.
Defined.

Lemma average_fare_of_a_single_row_witness :
  exists average_fare_by_class,
    fst (calculate_average_fare_by_class three_classes)
    = Return average_fare_by_class
    /\ pd.getitem_int average_fare_by_class 2 = Return (np.fin 20).
Proof.
  apply (average_fare_of_a_single_row three_classes [2; 1; 3]
           [Some 20%Q; Some 100%Q; Some 10%Q] 0 2 20%Q);
    try reflexivity.
  intros [|[|[|j]]] H; try reflexivity; try discriminate H.
  destruct j; discriminate H.
Defined.

Lemma visualize_distributions_effects_witness :
  let fig := mkFigure (pd.ColFloat64 [Some 30%Q; Some 4%Q])
                      (pd.ColInt64 [2; 1; 3])
                      (pd.ColFloat64 [Some 20%Q; Some 100%Q; Some 10%Q]) in
  let st := (full_table, mkConsole [] [fig]) in
  fst st = full_table
  /\ stdout (snd st) = stdout silent
  /\ (pd.column full_table "Age" = None ->
      Return tt = Raise (KeyError (LStr "Age")))
  /\ (exists fig', shown (snd st) = (shown silent ++ [fig'])%list
                   /\ no_missing (hist_data fig'))
  /\ fst (visualize_distributions (no_columns, silent))
     = Raise (KeyError (LStr "Age")).
Proof.
  cbv zeta.
  destruct (visualize_distributions_effects full_table silent (Return tt)
              (full_table,
               mkConsole []
                 [mkFigure (pd.ColFloat64 [Some 30%Q; Some 4%Q])
                           (pd.ColInt64 [2; 1; 3])
                           (pd.ColFloat64 [Some 20%Q; Some 100%Q; Some 10%Q])])
              eq_refl)
    as (H1 & H2 & H3 & H4).
  split; [exact H1|]. split; [exact H2|]. split; [exact H3|]. split; [exact H4|].
  destruct (visualize_distributions (no_columns, silent)) as [r st] eqn:E.
  destruct (visualize_distributions_effects no_columns silent r st E)
    as (_ & _ & Hage & _).
  exact (Hage eq_refl).
Defined.

Lemma analysis_prints_nine_lines_and_shows_one_figure_witness :
  let st := (men_only,
             printed silent [Text "Survival Rate:\n\t";
                             Fixed2 (np.Float64 (np.Fin 50)); Text "%\n"]) in
  fst st = men_only
  /\ exists lines figs,
       stdout (snd st) = (stdout silent ++ lines)%list
       /\ shown (snd st) = (shown silent ++ figs)%list
       /\ (List.length lines <= 9)%nat /\ figs = [].
Proof.
  cbv zeta.
  apply (analysis_prints_nine_lines_and_shows_one_figure men_only silent
           (Raise (KeyError (LStr "female")))
           (men_only,
            printed silent [Text "Survival Rate:\n\t";
                            Fixed2 (np.Float64 (np.Fin 50)); Text "%\n"])).
  reflexivity.
Defined.

Lemma analysis_completes_on_a_full_table_witness :
  exists out' lines fig,
    analysis (full_table, silent) = (Return tt, (full_table, out'))
    /\ stdout out' = (stdout silent ++ lines)%list
    /\ List.length lines = 9%nat
    /\ shown out' = (shown silent ++ [fig])%list
    /\ forall files parse_csv before,
         load_dataset files parse_csv "./data/Titanic.csv" (tt, before)
         = (Return (Some full_table), (tt, silent)) ->
         main files parse_csv (tt, before) = (Return tt, (tt, out')).
Proof.
  apply (analysis_completes_on_a_full_table full_table silent
           (pd.ColInt64 [1; 1; 0])
           (pd.ColObject [Some "female"; Some "male"; Some "male"])
           (pd.ColFloat64 [Some 30%Q; None; Some 4%Q])
           (pd.ColInt64 [0; 1; 0])
           (pd.ColFloat64 [Some 20%Q; Some 100%Q; Some 10%Q])
           (pd.ColObject [Some "C"; Some "S"; Some "Q"])
           (pd.ColObject [Some "A"; None; Some "A"])
           [2; 1; 3]);
    try reflexivity; try discriminate; simpl; auto.
Defined.

Lemma header_only_file_ends_the_run_witness :
  main one_file (parses_to header_only_table) (tt, silent)
  = (Raise ZeroDivisionError, (tt, silent)).
Proof.
  apply (header_only_file_ends_the_run one_file (parses_to header_only_table)
           "csv" header_only_table (pd.ColObject []) silent).
  - reflexivity.
  - reflexivity.
  - split; [reflexivity | repeat constructor].
  - reflexivity.
  - reflexivity.
  - reflexivity.
Defined.

Lemma gender_share_is_count_over_present_rows_witness :
  exists shares,
    fst (calculate_gender_proportion three_classes) = Return shares
    /\ pd.lookup (LStr "male") shares
       = Some (np.fin
                 (percentage
                    (pd.count_label (LStr "male")
                       (present_rows
                          (pd.ColObject [Some "female"; Some "male"; Some "male"])))
                    (Z.of_nat
                       (List.length
                          (present_rows
                             (pd.ColObject
                                [Some "female"; Some "male"; Some "male"])))))).
Proof.
  apply (gender_share_is_count_over_present_rows three_classes
           (pd.ColObject [Some "female"; Some "male"; Some "male"]) (LStr "male")).
  - reflexivity.
  - simpl. auto.
Defined.

Lemma grouped_statistics_keys_witness :
  (exists averages,
      fst (calculate_average_fare_by_class three_classes) = Return averages
      /\ (forall k, In k (pd.index averages) <->
                    In (Some k) (pd.keys (pd.ColInt64 [2; 1; 3])))
      /\ NoDup (pd.index averages)
      /\ StronglySorted label_le (pd.index averages))
  /\ (exists rates,
        fst (calculate_gender_survival_rate three_classes) = Return rates
        /\ (forall k, In k (pd.index rates) <->
              In (Some k)
                 (pd.keys (pd.ColObject [Some "female"; Some "male"; Some "male"])))
        /\ NoDup (pd.index rates)
        /\ StronglySorted label_le (pd.index rates)).
Proof.
  split.
  - apply (proj1 (grouped_statistics_keys three_classes (pd.ColInt64 [2; 1; 3])
                    (pd.ColFloat64 [Some 20%Q; Some 100%Q; Some 10%Q])
                    ltac:(discriminate)));
      reflexivity.
  - apply (proj2 (grouped_statistics_keys three_classes
                    (pd.ColObject [Some "female"; Some "male"; Some "male"])
                    (pd.ColInt64 [1; 1; 0]) ltac:(discriminate)));
      reflexivity.
Defined.
